(** * Coroutine runtime: fibers, the I/O manager and the syscall hooks

    A shallow embedding of the coroutine library (fiber.cpp, scheduler.cc,
    iomanager.cc, hook.cc) as state transformers over explicit records.
    Integers are [Z]; event masks are bit sets handled with [Z.land],
    [Z.lor] and [Z.lnot]; a C++ [assert] that does not hold aborts the
    run ([AssertFail]); a null or out-of-range dereference is [Undefined];
    kernel calls answer from a script carried by the state and leave a
    trace of the arguments they were called with. The state is the one a
    single thread sees: mutexes and log output are left out, and a
    coroutine that suspends is a run that stops at its [yield] and is
    continued by a second function. *)

From Stdlib Require Import ZArith List Bool Lia.
From stdpp Require Import base option list gmap.
Import ListNotations.

Local Open Scope Z_scope.

(** ** Outcomes and the state monad of the model *)

Inductive Outcome (A : Type) : Type :=
| Ok (a : A)
| AssertFail
| Undefined
| Blocked.

Arguments Ok {A} a.
Arguments AssertFail {A}.
Arguments Undefined {A}.
Arguments Blocked {A}.

Definition M (S A : Type) : Type := S -> Outcome (A * S).

Definition ret {S A : Type} (a : A) : M S A := fun s => Ok (a, s).

Definition bind {S A B : Type} (m : M S A) (k : A -> M S B) : M S B :=
  fun s =>
    match m s with
    | Ok (a, s') => k a s'
    | AssertFail => AssertFail
    | Undefined => Undefined
    | Blocked => Blocked
    end.

Definition get {S : Type} : M S S := fun s => Ok (s, s).
Definition put {S : Type} (s : S) : M S unit := fun _ => Ok (tt, s).
Definition modify {S : Type} (f : S -> S) : M S unit := fun s => Ok (tt, f s).
Definition assert {S : Type} (b : bool) : M S unit :=
  fun s => if b then Ok (tt, s) else AssertFail.
Definition undefined {S A : Type} : M S A := fun _ => Undefined.
Definition blocked {S A : Type} : M S A := fun _ => Blocked.

(** Dereference of a pointer that may be null or dangling. *)
Definition deref {S A : Type} (o : option A) : M S A :=
  match o with
  | Some a => ret a
  | None => undefined
  end.

(** Run a computation on a component of the state. *)
Definition zoom {S T A : Type} (proj : S -> T) (inj : T -> S -> S)
    (m : M T A) : M S A :=
  fun s =>
    match m (proj s) with
    | Ok (a, t) => Ok (a, inj t s)
    | AssertFail => AssertFail
    | Undefined => Undefined
    | Blocked => Blocked
    end.

Declare Scope m_scope.
Delimit Scope m_scope with m.
Notation "x <~ m ;; k" := (bind m (fun x => k))
  (at level 100, m at level 99, k at level 200, right associativity) : m_scope.
Notation "m ;;; k" := (bind m (fun _ => k))
  (at level 100, k at level 200, right associativity) : m_scope.
Local Open Scope m_scope.

(** ** Callbacks

    A [std::function<void()>] is kept as data: an opaque callback handed in
    by a caller, the closure the hooks arm as a timeout, the closure the
    sleep hooks arm, or the wrapper a condition timer puts around one of
    those. *)

Inductive Callback : Type :=
| UserCb (id : nat)
| TimeoutCb (winfo : nat) (fd : Z) (event : Z)
| ScheduleCb (fiber : nat)
| OnTimerCb (weak_cond : nat) (cb : Callback).

(** ** fiber.cpp *)

Module Fiber.

(** Modelled from the spec: the enumeration [Fiber::State] of fiber.h, which
    is not among the sources; a coroutine is READY, RUNNING or TERM. *)
Inductive State : Type := READY | RUNNING | TERM.

Definition State_eqb (a b : State) : bool :=
  match a, b with
  | READY, READY | RUNNING, RUNNING | TERM, TERM => true
  | _, _ => false
  end.

(** [uint64_t] arithmetic of the id counter *)
Definition wrap_id (z : Z) : Z := z mod 2 ^ 64.

Record Fiber : Type := mkFiber {
  m_id : Z;
  m_stack : bool;
  m_state : State;
  m_cb : option Callback;
  m_runInScheduler : bool
}.

Definition set_state (st : State) (f : Fiber) : Fiber :=
  mkFiber (m_id f) (m_stack f) st (m_cb f) (m_runInScheduler f).

Definition set_cb (cb : option Callback) (f : Fiber) : Fiber :=
  mkFiber (m_id f) (m_stack f) (m_state f) cb (m_runInScheduler f).

(** The fiber objects of a thread (a pointer is an index into [fibers]),
    the thread-local pointers of fiber.cpp and scheduler.cc, and the
    context switches performed so far as (saved, activated) pairs. *)
Record Env : Type := mkEnv {
  s_fiber_id : Z;
  fibers : list Fiber;
  t_fiber : option nat;
  t_thread_fiber : option nat;
  t_scheduler_fiber : option nat;
  switches : list (nat * nat)
}.

Definition set_fibers (l : list Fiber) (e : Env) : Env :=
  mkEnv (s_fiber_id e) l (t_fiber e) (t_thread_fiber e) (t_scheduler_fiber e)
        (switches e).

(** [Fiber::SetThis] *)
Definition SetThis (f : option nat) : M Env unit :=
  modify (fun e =>
    mkEnv (s_fiber_id e) (fibers e) f (t_thread_fiber e)
          (t_scheduler_fiber e) (switches e)).

(** [swapcontext(&from->m_ctx, &to->m_ctx)] *)
Definition swapcontext (from to : nat) : M Env unit :=
  modify (fun e =>
    mkEnv (s_fiber_id e) (fibers e) (t_fiber e) (t_thread_fiber e)
          (t_scheduler_fiber e) (switches e ++ [(from, to)])).

(** [Fiber::GetThis]: the running coroutine; on first use it creates the
    main coroutine of the thread, which is RUNNING and owns no stack. *)
Definition GetThis : M Env nat :=
  e <~ get ;;
  match t_fiber e with
  | Some p => ret p
  | None =>
      let p := length (fibers e) in
      put (mkEnv (wrap_id (s_fiber_id e + 1))
             (fibers e ++ [mkFiber (s_fiber_id e) false RUNNING None false])
             (Some p) (Some p) (t_scheduler_fiber e) (switches e)) ;;;
      ret p
  end.

Definition load (p : nat) : M Env Fiber :=
  e <~ get ;; deref (fibers e !! p).

Definition store (p : nat) (f : Fiber) : M Env unit :=
  modify (fun e => set_fibers (<[p := f]> (fibers e)) e).

(** The fiber a coroutine switches with: the scheduling coroutine of the
    thread when it runs in a scheduler, the main coroutine otherwise. *)
Definition partner (f : Fiber) : M Env nat :=
  e <~ get ;;
  p <~ deref (if m_runInScheduler f then t_scheduler_fiber e
              else t_thread_fiber e) ;;
  _ <~ load p ;;
  ret p.

(** [Fiber::resume] *)
Definition resume (this : nat) : M Env unit :=
  f <~ load this ;;
  assert (negb (State_eqb (m_state f) TERM)
          && negb (State_eqb (m_state f) RUNNING)) ;;;
  SetThis (Some this) ;;;
  store this (set_state RUNNING f) ;;;
  p <~ partner f ;;
  swapcontext p this.

(** [Fiber::yield] *)
Definition yield (this : nat) : M Env unit :=
  f <~ load this ;;
  assert (State_eqb (m_state f) RUNNING || State_eqb (m_state f) TERM) ;;;
  e <~ get ;;
  SetThis (t_thread_fiber e) ;;;
  (if negb (State_eqb (m_state f) TERM)
   then store this (set_state READY f)
   else ret tt) ;;;
  p <~ partner f ;;
  swapcontext this p.

(** The part of [Fiber::MainFunc] that follows the return of the
    coroutine's function: drop the callback, mark TERM, yield. *)
Definition MainFunc_exit : M Env unit :=
  cur <~ GetThis ;;
  f <~ load cur ;;
  store cur (set_state TERM (set_cb None f)) ;;;
  yield cur.

(** [Fiber::reset] *)
Definition reset (this : nat) (cb : Callback) : M Env unit :=
  f <~ load this ;;
  store this (set_state READY (set_cb (Some cb) f)).

Definition getState (this : nat) : M Env State :=
  f <~ load this ;; ret (m_state f).

End Fiber.

(** ** Machine integers and system constants *)

Definition wrap64 (z : Z) : Z := z mod 2 ^ 64.

(** [~0ull] *)
Definition UINT64_MAX : Z := 2 ^ 64 - 1.

Definition EINTR : Z := 4.
Definition EBADF : Z := 9.
Definition EAGAIN : Z := 11.
Definition ETIMEDOUT : Z := 110.

Definition O_NONBLOCK : Z := 2048.
Definition F_GETFL : Z := 3.
Definition F_SETFL : Z := 4.

Definition SO_RCVTIMEO : Z := 20.
Definition SO_SNDTIMEO : Z := 21.

Definition EPOLL_CTL_ADD : Z := 1.
Definition EPOLL_CTL_DEL : Z := 2.
Definition EPOLL_CTL_MOD : Z := 3.

Definition EPOLLIN : Z := 1.
Definition EPOLLOUT : Z := 4.
Definition EPOLLERR : Z := 8.
Definition EPOLLHUP : Z := 16.
Definition EPOLLET : Z := 2 ^ 31.

(** [(bool)x] for an integer [x] *)
Definition truthy (x : Z) : bool := negb (x =? 0).

(** ** The kernel as seen by the library

    Each system call pops its answer from a script and appends its
    arguments to a log; a call whose script is exhausted is [Blocked]. *)

Record epoll_event : Type := mk_epoll_event {
  ev_events : Z;
  (** [data.fd] when the event is the tickle pipe's, [data.ptr] (the index
      of the fd context) otherwise *)
  ev_data : Z + nat
}.

Record WaitAnswer : Type := mkWaitAnswer {
  wa_rt : Z;
  wa_errno : Z;
  wa_events : list epoll_event
}.

Record Kernel : Type := mkKernel {
  errno : Z;
  now_ms : Z;
  epoll_ctl_rt : list Z;
  epoll_ctl_log : list (Z * Z * Z);
  epoll_wait_rt : list WaitAnswer;
  epoll_wait_log : list (Z * Z);
  fcntl_rt : list Z;
  fcntl_log : list (Z * Z * Z);
  io_rt : list (Z * Z);
  io_calls : nat;
  pipe_bytes : nat
}.

Definition set_errno (e : Z) (k : Kernel) : Kernel :=
  mkKernel e (now_ms k) (epoll_ctl_rt k) (epoll_ctl_log k) (epoll_wait_rt k)
    (epoll_wait_log k) (fcntl_rt k) (fcntl_log k) (io_rt k) (io_calls k)
    (pipe_bytes k).

(** [epoll_ctl(m_epfd, op, fd, &epevent)] *)
Definition k_epoll_ctl (op fd events : Z) : M Kernel Z :=
  fun k =>
    match epoll_ctl_rt k with
    | [] => Blocked
    | rt :: rest =>
        Ok (rt, mkKernel (errno k) (now_ms k) rest
                  (epoll_ctl_log k ++ [(op, fd, events)]) (epoll_wait_rt k)
                  (epoll_wait_log k) (fcntl_rt k) (fcntl_log k) (io_rt k)
                  (io_calls k) (pipe_bytes k))
    end.

(** [epoll_wait(m_epfd, events, maxevents, timeout)] *)
Definition k_epoll_wait (maxevents timeout : Z) : M Kernel WaitAnswer :=
  fun k =>
    match epoll_wait_rt k with
    | [] => Blocked
    | a :: rest =>
        Ok (a, mkKernel (if wa_rt a <? 0 then wa_errno a else errno k)
                 (now_ms k) (epoll_ctl_rt k) (epoll_ctl_log k) rest
                 (epoll_wait_log k ++ [(maxevents, timeout)]) (fcntl_rt k)
                 (fcntl_log k) (io_rt k) (io_calls k) (pipe_bytes k))
    end.

(** [fcntl_f(fd, cmd, arg)], the libc entry point behind the hook *)
Definition k_fcntl_f (fd cmd arg : Z) : M Kernel Z :=
  fun k =>
    match fcntl_rt k with
    | [] => Blocked
    | rt :: rest =>
        Ok (rt, mkKernel (errno k) (now_ms k) (epoll_ctl_rt k)
                  (epoll_ctl_log k) (epoll_wait_rt k) (epoll_wait_log k) rest
                  (fcntl_log k ++ [(fd, cmd, arg)]) (io_rt k) (io_calls k)
                  (pipe_bytes k))
    end.

(** [fun(fd, args...)], the original entry point of a hooked I/O call; an
    answer is the return value and the errno of a failing call. *)
Definition k_io : M Kernel Z :=
  fun k =>
    match io_rt k with
    | [] => Blocked
    | (n, e) :: rest =>
        Ok (n, mkKernel (if n =? -1 then e else errno k) (now_ms k)
                 (epoll_ctl_rt k) (epoll_ctl_log k) (epoll_wait_rt k)
                 (epoll_wait_log k) (fcntl_rt k) (fcntl_log k) rest
                 (S (io_calls k)) (pipe_bytes k))
    end.

(** [while (read(m_tickleFds[0], dummy, sizeof(dummy)) > 0);] *)
Definition k_drain_pipe : M Kernel unit :=
  modify (fun k =>
    mkKernel (errno k) (now_ms k) (epoll_ctl_rt k) (epoll_ctl_log k)
      (epoll_wait_rt k) (epoll_wait_log k) (fcntl_rt k) (fcntl_log k)
      (io_rt k) (io_calls k) O).

(** [write(m_tickleFds[1], "T", 1)] *)
Definition k_write_pipe : M Kernel unit :=
  modify (fun k =>
    mkKernel (errno k) (now_ms k) (epoll_ctl_rt k) (epoll_ctl_log k)
      (epoll_wait_rt k) (epoll_wait_log k) (fcntl_rt k) (fcntl_log k)
      (io_rt k) (io_calls k) (S (pipe_bytes k))).

(** ** scheduler.cc *)

Record ScheduleTask : Type := mkTask {
  task_fiber : option nat;
  task_cb : option Callback;
  task_thread : Z
}.

Record Scheduler : Type := mkScheduler {
  m_stopping : bool;
  m_tasks : list ScheduleTask;
  m_activeThreadCount : Z;
  m_idleThreadCount : Z
}.

(** ** timer.h *)

Record Timer : Type := mkTimer {
  timer_ptr : nat;
  m_recurring : bool;
  m_ms : Z;
  m_next : Z;
  m_cb : option Callback
}.

Record TimerManager : Type := mkTimerManager {
  m_timers : list Timer;
  timer_count : nat;
  m_previouseTime : Z
}.

(** ** fd contexts of the I/O manager and of the hooks *)

Record EventContext : Type := mkEventContext {
  scheduler : option nat;
  fiber : option nat;
  cb : option Callback
}.

Record FdContext : Type := mkFdContext {
  read : EventContext;
  write : EventContext;
  fd : Z;
  events : Z
}.

Record IOManager : Type := mkIOManager {
  (** the [Scheduler] this I/O manager is *)
  this : nat;
  m_tickleFds : Z * Z;
  m_pendingEventCount : Z;
  m_fdContexts : list FdContext
}.

(** Modelled from the spec: the class [FdCtx] of fd_manager.h, which is not
    among the sources. An fd context records whether the fd is a socket,
    whether it is closed, the kernel-level and the user-visible non-blocking
    flags and the receive and send timeouts in milliseconds. *)
Record FdCtx : Type := mkFdCtx {
  isSocket : bool;
  isClose : bool;
  sysNonblock : bool;
  userNonblock : bool;
  recvTimeout : Z;
  sendTimeout : Z
}.

Record HookEnv : Type := mkHookEnv {
  t_hook_enable : bool;
  (** the table [FdMgr] owns, keyed by fd *)
  m_datas : gmap Z FdCtx;
  (** the [timer_info] objects: [Some cancelled] while a [shared_ptr]
      holds the object, [None] once it is destroyed *)
  tinfos : list (option Z)
}.

(** ** The whole state *)

Record World : Type := mkWorld {
  thr : Fiber.Env;
  t_scheduler : option nat;
  scheds : list Scheduler;
  tmgr : TimerManager;
  iom : IOManager;
  krn : Kernel;
  hook : HookEnv
}.

Definition with_thr (x : Fiber.Env) (w : World) : World :=
  mkWorld x (t_scheduler w) (scheds w) (tmgr w) (iom w) (krn w) (hook w).
Definition with_scheds (x : list Scheduler) (w : World) : World :=
  mkWorld (thr w) (t_scheduler w) x (tmgr w) (iom w) (krn w) (hook w).
Definition with_tmgr (x : TimerManager) (w : World) : World :=
  mkWorld (thr w) (t_scheduler w) (scheds w) x (iom w) (krn w) (hook w).
Definition with_iom (x : IOManager) (w : World) : World :=
  mkWorld (thr w) (t_scheduler w) (scheds w) (tmgr w) x (krn w) (hook w).
Definition with_krn (x : Kernel) (w : World) : World :=
  mkWorld (thr w) (t_scheduler w) (scheds w) (tmgr w) (iom w) x (hook w).
Definition with_hook (x : HookEnv) (w : World) : World :=
  mkWorld (thr w) (t_scheduler w) (scheds w) (tmgr w) (iom w) (krn w) x.

Definition in_thr {A : Type} : M Fiber.Env A -> M World A := zoom thr with_thr.
Definition in_krn {A : Type} : M Kernel A -> M World A := zoom krn with_krn.

(** ** Scheduler operations *)

Definition load_sched (p : nat) : M World Scheduler :=
  w <~ get ;; deref (scheds w !! p).

(** [Scheduler::GetThis] *)
Definition Scheduler_GetThis : M World (option nat) :=
  w <~ get ;; ret (t_scheduler w).

(** [IOManager::GetThis]: the thread's scheduler when it is the I/O manager *)
Definition IOManager_GetThis : M World (option nat) :=
  w <~ get ;;
  ret (match t_scheduler w with
       | Some p => if Nat.eqb p (this (iom w)) then Some p else None
       | None => None
       end).

(** [Scheduler::stopping] *)
Definition Scheduler_stopping (p : nat) : M World bool :=
  s <~ load_sched p ;;
  ret (m_stopping s
       && match m_tasks s with [] => true | _ => false end
       && (m_activeThreadCount s =? 0)).

(** [IOManager::tickle]. Modelled from the spec: [hasIdleThreads] of
    scheduler.h, which is not among the sources; if no worker is idle the
    tickle returns, else it writes one byte to the self-pipe. *)
Definition IOManager_tickle : M World unit :=
  w <~ get ;;
  s <~ load_sched (this (iom w)) ;;
  if m_idleThreadCount s >? 0 then in_krn k_write_pipe else ret tt.

(** The virtual call [p->tickle()]: [Scheduler::tickle] only logs. *)
Definition tickle (p : nat) : M World unit :=
  w <~ get ;;
  if Nat.eqb p (this (iom w)) then IOManager_tickle else ret tt.

(** Modelled from the spec: [Scheduler::schedule] of scheduler.h, which is
    not among the sources. It pushes one task into the FIFO queue, returns
    whether the queue was empty immediately before the insertion and, if
    so, calls [tickle]. *)
Definition schedule (p : nat) (t : ScheduleTask) : M World bool :=
  s <~ load_sched p ;;
  let need_tickle := match m_tasks s with [] => true | _ => false end in
  modify (fun w =>
    with_scheds (<[p := mkScheduler (m_stopping s) (m_tasks s ++ [t])
                          (m_activeThreadCount s) (m_idleThreadCount s)]>
                   (scheds w)) w) ;;;
  (if need_tickle then tickle p else ret tt) ;;;
  ret need_tickle.

(** ** Timer set *)

Definition timer_ltb (a b : Timer) : bool :=
  (m_next a <? m_next b)
  || ((m_next a =? m_next b) && Nat.ltb (timer_ptr a) (timer_ptr b)).

Fixpoint timer_insert (t : Timer) (l : list Timer) : list Timer :=
  match l with
  | [] => [t]
  | x :: r => if timer_ltb t x then t :: x :: r else x :: timer_insert t r
  end.

(** [TimerManager::onTimerInsertedAtFront], overridden by the I/O manager *)
Definition onTimerInsertedAtFront : M World unit := IOManager_tickle.

(** Modelled from the spec: [TimerManager::addTimer] of timer.cc, which is
    not among the sources. The deadline is set at insertion as now + period;
    when the inserted timer becomes the new minimum the insertion hook is
    invoked. The handle returned is the timer's pointer. *)
Definition addTimer (ms : Z) (c : Callback) (recurring : bool) : M World nat :=
  w <~ get ;;
  let tm := tmgr w in
  let t := mkTimer (timer_count tm) recurring ms
                   (wrap64 (now_ms (krn w) + ms)) (Some c) in
  let l := timer_insert t (m_timers tm) in
  put (with_tmgr (mkTimerManager l (S (timer_count tm)) (m_previouseTime tm))
         w) ;;;
  (match l with
   | x :: _ => if Nat.eqb (timer_ptr x) (timer_ptr t)
               then onTimerInsertedAtFront else ret tt
   | [] => ret tt
   end) ;;;
  ret (timer_ptr t).

(** Modelled from the spec: [TimerManager::addConditionTimer] of timer.cc;
    the callback fires only if the witness can still be observed. *)
Definition addConditionTimer (ms : Z) (c : Callback) (weak_cond : nat)
    (recurring : bool) : M World nat :=
  addTimer ms (OnTimerCb weak_cond c) recurring.

(** Modelled from the spec: [Timer::cancel] of timer.cc; cancel removes the
    timer from the set and drops its callback, and may be called again. *)
Definition Timer_cancel (t : nat) : M World bool :=
  w <~ get ;;
  let tm := tmgr w in
  if existsb (fun x => Nat.eqb (timer_ptr x) t) (m_timers tm)
  then
    put (with_tmgr
           (mkTimerManager
              (filter (fun x => negb (Nat.eqb (timer_ptr x) t)) (m_timers tm))
              (timer_count tm) (m_previouseTime tm)) w) ;;;
    ret true
  else ret false.

(** Modelled from the spec: [TimerManager::getNextTimer] of timer.cc; the
    milliseconds until the next timer, [~0ull] when there is none. *)
Definition getNextTimer : M World Z :=
  w <~ get ;;
  ret (match m_timers (tmgr w) with
       | [] => UINT64_MAX
       | t :: _ =>
           if now_ms (krn w) >=? m_next t then 0
           else m_next t - now_ms (krn w)
       end).

(** Modelled from the spec: [TimerManager::hasTimer] of timer.cc. *)
Definition hasTimer : M World bool :=
  w <~ get ;;
  ret (match m_timers (tmgr w) with [] => false | _ => true end).

(** Modelled from the spec: [TimerManager::listExpiredCb] of timer.cc. It
    drains all timers with deadline <= now, re-inserting recurring ones with
    deadline = now + period; after a clock rollback of more than one hour
    all current timers are considered expired. *)
Definition listExpiredCb : M World (list Callback) :=
  w <~ get ;;
  let tm := tmgr w in
  let now := now_ms (krn w) in
  let rollover := now <? m_previouseTime tm - 60 * 60 * 1000 in
  let is_expired (t : Timer) := rollover || (m_next t <=? now) in
  let expired := filter (fun t => is_expired t) (m_timers tm) in
  let kept := filter (fun t => negb (is_expired t)) (m_timers tm) in
  let again :=
    map (fun t => mkTimer (timer_ptr t) (m_recurring t) (m_ms t)
                    (wrap64 (now + m_ms t)) (m_cb t))
        (filter (fun t => m_recurring t) expired) in
  put (with_tmgr
         (mkTimerManager (fold_right timer_insert kept again)
            (timer_count tm) now) w) ;;;
  ret (omap m_cb expired).

(** ** hook.cc: the fd table and [fcntl] *)

(** Modelled from the spec: [FdMgr::get(fd)] of fd_manager.cc, which is not
    among the sources; without [auto_create] it returns the context of the
    fd or null. *)
Definition FdMgr_get (fd : Z) : M World (option FdCtx) :=
  w <~ get ;; ret (m_datas (hook w) !! fd).

(** Modelled from the spec: [FdCtx::setUserNonblock] of fd_manager.h; it
    records what the user asked for, on the context the table shares. *)
Definition setUserNonblock (fd : Z) (ctx : FdCtx) (v : bool) : M World unit :=
  modify (fun w =>
    let h := hook w in
    with_hook
      (mkHookEnv (t_hook_enable h)
         (<[fd := mkFdCtx (isSocket ctx) (isClose ctx) (sysNonblock ctx) v
                    (recvTimeout ctx) (sendTimeout ctx)]> (m_datas h))
         (tinfos h)) w).

(** Modelled from the spec: [FdCtx::getTimeout] of fd_manager.cc; the
    per-direction timeout, receive for [SO_RCVTIMEO] and send otherwise. *)
Definition getTimeout (ctx : FdCtx) (type : Z) : Z :=
  if type =? SO_RCVTIMEO then recvTimeout ctx else sendTimeout ctx.

(** The hooked [fcntl(fd, cmd, arg)]; commands other than [F_SETFL] and
    [F_GETFL] go to the original with their argument. *)
Definition fcntl (fd cmd arg : Z) : M World Z :=
  if cmd =? F_SETFL then
    octx <~ FdMgr_get fd ;;
    match octx with
    | None => in_krn (k_fcntl_f fd cmd arg)
    | Some ctx =>
        if isClose ctx || negb (isSocket ctx)
        then in_krn (k_fcntl_f fd cmd arg)
        else
          setUserNonblock fd ctx (truthy (Z.land arg O_NONBLOCK)) ;;;
          let arg' := if sysNonblock ctx then Z.lor arg O_NONBLOCK
                      else Z.land arg (Z.lnot O_NONBLOCK) in
          in_krn (k_fcntl_f fd cmd arg')
    end
  else if cmd =? F_GETFL then
    arg0 <~ in_krn (k_fcntl_f fd cmd 0) ;;
    octx <~ FdMgr_get fd ;;
    match octx with
    | None => ret arg0
    | Some ctx =>
        if isClose ctx || negb (isSocket ctx) then ret arg0
        else if userNonblock ctx then ret (Z.lor arg0 O_NONBLOCK)
        else ret (Z.land arg0 (Z.lnot O_NONBLOCK))
    end
  else in_krn (k_fcntl_f fd cmd arg).

(** ** iomanager.cc *)

(** Modelled from the spec: the enumeration [IOManager::Event] of
    iomanager.h, which is not among the sources. A direction is READ or
    WRITE; their values are those of EPOLLIN and EPOLLOUT, which is how
    [idle] uses them in [(EPOLLIN | EPOLLOUT) & fd_ctx->events]. *)
Definition NONE : Z := 0.
Definition READ : Z := 1.
Definition WRITE : Z := 4.

Definition emptyEventContext : EventContext := mkEventContext None None None.

(** [new FdContext] with [fd = i] *)
Definition newFdContext (i : nat) : FdContext :=
  mkFdContext emptyEventContext emptyEventContext (Z.of_nat i) NONE.

Definition set_events (e : Z) (c : FdContext) : FdContext :=
  mkFdContext (read c) (write c) (fd c) e.

(** [FdContext::getEventContext]: the slot of a direction *)
Definition getEventContext (c : FdContext) (event : Z) : M World EventContext :=
  if event =? READ then ret (read c)
  else if event =? WRITE then ret (write c)
  else assert false ;;; undefined.

(** Assignment through the reference [getEventContext] returned *)
Definition setEventContext (event : Z) (x : EventContext) (c : FdContext)
    : FdContext :=
  if event =? READ then mkFdContext x (write c) (fd c) (events c)
  else if event =? WRITE then mkFdContext (read c) x (fd c) (events c)
  else c.

(** [FdContext::resetEventContext] *)
Definition resetEventContext (event : Z) (c : FdContext) : FdContext :=
  setEventContext event emptyEventContext c.

(** [m_fdContexts[fd]] *)
Definition fd_ctx_at (fd : Z) : M World FdContext :=
  w <~ get ;;
  if fd <? 0 then undefined
  else deref (m_fdContexts (iom w) !! Z.to_nat fd).

(** Write back the context [m_fdContexts[fd]] points to *)
Definition store_fd_ctx (fd : Z) (c : FdContext) : M World unit :=
  modify (fun w =>
    with_iom (mkIOManager (this (iom w)) (m_tickleFds (iom w))
                (m_pendingEventCount (iom w))
                (<[Z.to_nat fd := c]> (m_fdContexts (iom w)))) w).

Definition set_pending (n : Z) : M World unit :=
  modify (fun w =>
    with_iom (mkIOManager (this (iom w)) (m_tickleFds (iom w)) n
                (m_fdContexts (iom w))) w).

(** [++m_pendingEventCount], on a [size_t] *)
Definition inc_pending : M World unit :=
  w <~ get ;; set_pending (wrap64 (m_pendingEventCount (iom w) + 1)).

(** [--m_pendingEventCount] *)
Definition dec_pending : M World unit :=
  w <~ get ;; set_pending (wrap64 (m_pendingEventCount (iom w) - 1)).

(** [std::vector::resize] followed by the allocation of the missing
    contexts *)
Definition resized (size : nat) (l : list FdContext) : list FdContext :=
  take size l ++ (newFdContext <$> seq (length l) (size - length l)).

(** [IOManager::contextResize] *)
Definition contextResize (size : Z) : M World unit :=
  modify (fun w =>
    with_iom (mkIOManager (this (iom w)) (m_tickleFds (iom w))
                (m_pendingEventCount (iom w))
                (resized (Z.to_nat size) (m_fdContexts (iom w)))) w).

(** [IOManager::setnonblocking]; its [fcntl] calls bind to the hook. *)
Definition setnonblocking (fd : Z) : M World Z :=
  old_option <~ fcntl fd F_GETFL 0 ;;
  let new_option := Z.lor old_option O_NONBLOCK in
  fcntl fd F_SETFL new_option ;;;
  ret old_option.

(** [FdContext::triggerEvent] on the context of [fd] *)
Definition triggerEvent (fd event : Z) : M World unit :=
  c <~ fd_ctx_at fd ;;
  assert (truthy (Z.land (events c) event)) ;;;
  let c1 := set_events (Z.land (events c) (Z.lnot event)) c in
  store_fd_ctx fd c1 ;;;
  ctx <~ getEventContext c1 event ;;
  s <~ deref (scheduler ctx) ;;
  (match cb ctx with
   | Some f => schedule s (mkTask None (Some f) (-1))
   | None => schedule s (mkTask (fiber ctx) None (-1))
   end) ;;;
  store_fd_ctx fd (resetEventContext event c1).

(** [IOManager::addEvent] *)
Definition addEvent (fd event : Z) (callback : option Callback) : M World Z :=
  w <~ get ;;
  (if Z.of_nat (length (m_fdContexts (iom w))) >? fd then ret tt
   else contextResize (3 * fd / 2)) ;;;
  fd_ctx <~ fd_ctx_at fd ;;
  assert (negb (truthy (Z.land (events fd_ctx) event))) ;;;
  let op := if truthy (events fd_ctx) then EPOLL_CTL_MOD else EPOLL_CTL_ADD in
  let epevents := Z.lor (Z.lor EPOLLET (events fd_ctx)) event in
  rt <~ in_krn (k_epoll_ctl op fd epevents) ;;
  if truthy rt then ret (-1)
  else
    setnonblocking fd ;;;
    inc_pending ;;;
    let c1 := set_events (Z.lor (events fd_ctx) event) fd_ctx in
    store_fd_ctx fd c1 ;;;
    event_ctx <~ getEventContext c1 event ;;
    assert (match scheduler event_ctx, fiber event_ctx, cb event_ctx with
            | None, None, None => true
            | _, _, _ => false
            end) ;;;
    sched <~ Scheduler_GetThis ;;
    match callback with
    | Some f =>
        store_fd_ctx fd
          (setEventContext event (mkEventContext sched None (Some f)) c1) ;;;
        ret 0
    | None =>
        cur <~ in_thr Fiber.GetThis ;;
        store_fd_ctx fd
          (setEventContext event (mkEventContext sched (Some cur) None) c1) ;;;
        st <~ in_thr (Fiber.getState cur) ;;
        assert (Fiber.State_eqb st Fiber.RUNNING) ;;;
        ret 0
    end.

(** [IOManager::delEvent] *)
Definition delEvent (fd event : Z) : M World bool :=
  w <~ get ;;
  if Z.of_nat (length (m_fdContexts (iom w))) <=? fd then ret false
  else
    fd_ctx <~ fd_ctx_at fd ;;
    if negb (truthy (Z.land (events fd_ctx) event)) then ret false
    else
      let new_events := Z.land (events fd_ctx) (Z.lnot event) in
      let op := if truthy new_events then EPOLL_CTL_MOD else EPOLL_CTL_DEL in
      rt <~ in_krn (k_epoll_ctl op fd (Z.lor EPOLLET new_events)) ;;
      if truthy rt then ret false
      else
        dec_pending ;;;
        let c1 := set_events new_events fd_ctx in
        store_fd_ctx fd c1 ;;;
        _ <~ getEventContext c1 event ;;
        store_fd_ctx fd (resetEventContext event c1) ;;;
        ret true.

(** [IOManager::cancelEvent] *)
Definition cancelEvent (fd event : Z) : M World bool :=
  w <~ get ;;
  if Z.of_nat (length (m_fdContexts (iom w))) <=? fd then ret false
  else
    fd_ctx <~ fd_ctx_at fd ;;
    if negb (truthy (Z.land (events fd_ctx) event)) then ret false
    else
      let new_events := Z.land (events fd_ctx) (Z.lnot event) in
      let op := if truthy new_events then EPOLL_CTL_MOD else EPOLL_CTL_DEL in
      rt <~ in_krn (k_epoll_ctl op fd (Z.lor EPOLLET new_events)) ;;
      if truthy rt then ret false
      else
        triggerEvent fd event ;;;
        dec_pending ;;;
        ret true.

(** [IOManager::cancelAll] *)
Definition cancelAll (fd : Z) : M World bool :=
  w <~ get ;;
  if Z.of_nat (length (m_fdContexts (iom w))) <=? fd then ret false
  else
    fd_ctx <~ fd_ctx_at fd ;;
    if negb (truthy (events fd_ctx)) then ret false
    else
      rt <~ in_krn (k_epoll_ctl EPOLL_CTL_DEL fd 0) ;;
      if truthy rt then ret false
      else
        (c <~ fd_ctx_at fd ;;
         if truthy (Z.land (events c) READ)
         then triggerEvent fd READ ;;; dec_pending
         else ret tt) ;;;
        (c <~ fd_ctx_at fd ;;
         if truthy (Z.land (events c) WRITE)
         then triggerEvent fd WRITE ;;; dec_pending
         else ret tt) ;;;
        c <~ fd_ctx_at fd ;;
        assert (events c =? 0) ;;;
        ret true.

(** [IOManager::stopping(uint64_t &timeout)]: the answer and the timeout *)
Definition IOManager_stopping_timeout : M World (bool * Z) :=
  timeout <~ getNextTimer ;;
  w <~ get ;;
  if (timeout =? UINT64_MAX) && (m_pendingEventCount (iom w) =? 0)
  then b <~ Scheduler_stopping (this (iom w)) ;; ret (b, timeout)
  else ret (false, timeout).

(** [IOManager::stopping()] *)
Definition IOManager_stopping : M World bool :=
  w <~ get ;;
  if m_pendingEventCount (iom w) =? 0
  then Scheduler_stopping (this (iom w))
  else ret false.

(** *** The idle coroutine *)

Definition MAX_EVNETS : Z := 256.
Definition MAX_TIMEOUT : Z := 5000.

(** [(int)x] for a 64-bit unsigned [x] *)
Definition to_int (x : Z) : Z := (x + 2 ^ 31) mod 2 ^ 32 - 2 ^ 31.

(** The inner [do { ... } while (true)] of [IOManager::idle]. It carries
    the local [next_timeout] and the event buffer and is left only through
    the [break] that follows a failure other than EINTR: a wait that
    succeeds, like one that was interrupted, is followed by another wait.
    One unit of fuel is one answer of the kernel. *)
Fixpoint idle_wait (fuel : nat) (next_timeout : Z) (buf : list epoll_event)
    : M World (Z * list epoll_event) :=
  match fuel with
  | O => blocked
  | S fuel' =>
      let next_timeout' :=
        if negb (next_timeout =? UINT64_MAX)
        then wrap64 (Z.min (to_int next_timeout) MAX_TIMEOUT)
        else MAX_TIMEOUT in
      a <~ in_krn (k_epoll_wait MAX_EVNETS MAX_TIMEOUT) ;;
      let buf' := if wa_rt a >? 0
                  then wa_events a ++ drop (length (wa_events a)) buf
                  else buf in
      w <~ get ;;
      if wa_rt a <? 0 then
        if errno (krn w) =? EINTR
        then idle_wait fuel' next_timeout' buf'
        else ret (next_timeout', buf')
      else idle_wait fuel' next_timeout' buf'
  end.

(** The body of the [for] loop of [IOManager::idle] for one event *)
Definition idle_handle_event (event : epoll_event) : M World unit :=
  w <~ get ;;
  match ev_data event with
  | inl data_fd =>
      if data_fd =? fst (m_tickleFds (iom w)) then in_krn k_drain_pipe
      else undefined
  | inr ptr =>
      fd_ctx <~ deref (m_fdContexts (iom w) !! ptr) ;;
      let event_events :=
        if truthy (Z.land (ev_events event) (Z.lor EPOLLERR EPOLLHUP))
        then Z.lor (ev_events event)
                   (Z.land (Z.lor EPOLLIN EPOLLOUT) (events fd_ctx))
        else ev_events event in
      let real_events :=
        Z.lor (if truthy (Z.land event_events EPOLLIN) then READ else NONE)
              (if truthy (Z.land event_events EPOLLOUT) then WRITE else NONE) in
      if Z.land (events fd_ctx) real_events =? NONE then ret tt
      else
        let left_events := Z.land (events fd_ctx) (Z.lnot real_events) in
        let op := if truthy left_events then EPOLL_CTL_MOD
                  else EPOLL_CTL_DEL in
        rt2 <~ in_krn (k_epoll_ctl op (fd fd_ctx) (Z.lor EPOLLET left_events)) ;;
        if truthy rt2 then ret tt
        else
          (if truthy (Z.land real_events READ)
           then triggerEvent (Z.of_nat ptr) READ ;;; dec_pending
           else ret tt) ;;;
          (if truthy (Z.land real_events WRITE)
           then triggerEvent (Z.of_nat ptr) WRITE ;;; dec_pending
           else ret tt)
  end.

(** [for (int i = 0; i < rt; ++i)] over the event buffer *)
Fixpoint idle_dispatch (evs : list epoll_event) : M World unit :=
  match evs with
  | [] => ret tt
  | e :: r => idle_handle_event e ;;; idle_dispatch r
  end.

Fixpoint schedule_all (p : nat) (cbs : list Callback) : M World unit :=
  match cbs with
  | [] => ret tt
  | c :: r => schedule p (mkTask None (Some c) (-1)) ;;; schedule_all p r
  end.

(** The buffer [new epoll_event[MAX_EVNETS]()] *)
Definition idle_buffer : list epoll_event :=
  replicate (Z.to_nat MAX_EVNETS) (mk_epoll_event 0 (inl 0)).

(** One turn of the [while (true)] of [IOManager::idle], up to and
    including the yield, on the event buffer [buf]; [None] when the loop
    is left because the scheduler is stopping, else the buffer as the
    turn leaves it. The [rt] the dispatch loop reads is the outer one,
    which the inner loop's own [rt] shadows and which stays 0. *)
Definition idle_iteration (buf : list epoll_event)
    : M World (option (list epoll_event)) :=
  let next_timeout := 0 in
  stop <~ IOManager_stopping ;;
  if stop then ret None
  else
    let rt := 0 in
    w <~ get ;;
    r <~ idle_wait (length (epoll_wait_rt (krn w))) next_timeout buf ;;
    cbs <~ listExpiredCb ;;
    schedule_all (this (iom w)) cbs ;;;
    idle_dispatch (take (Z.to_nat rt) (snd r)) ;;;
    cur <~ in_thr Fiber.GetThis ;;
    in_thr (Fiber.yield cur) ;;;
    ret (Some (snd r)).

(** ** hook.cc: [do_io] and the timeout it arms *)

Definition set_tinfos (l : list (option Z)) : M World unit :=
  modify (fun w =>
    with_hook (mkHookEnv (t_hook_enable (hook w)) (m_datas (hook w)) l) w).

(** [std::shared_ptr<timer_info> tinfo(new timer_info)] *)
Definition new_tinfo : M World nat :=
  w <~ get ;;
  set_tinfos (tinfos (hook w) ++ [Some 0]) ;;;
  ret (length (tinfos (hook w))).

(** The last [shared_ptr] to a [timer_info] goes out of scope. *)
Definition drop_tinfo (t : nat) : M World unit :=
  w <~ get ;; set_tinfos (<[t := None]> (tinfos (hook w))).

(** [winfo.lock()]: the [cancelled] field when the object is alive *)
Definition lock_tinfo (t : nat) : M World (option Z) :=
  w <~ get ;;
  ret (match tinfos (hook w) !! t with
       | Some (Some c) => Some c
       | _ => None
       end).

Definition set_cancelled (t : nat) (c : Z) : M World unit :=
  w <~ get ;; set_tinfos (<[t := Some c]> (tinfos (hook w))).

Definition write_errno (e : Z) : M World unit :=
  modify (fun w => with_krn (set_errno e (krn w)) w).

(** Invocation of a callback. The body of an opaque caller-supplied
    callback is not part of the library and leaves the state as it is. *)
Fixpoint run_cb (c : Callback) : M World unit :=
  match c with
  | UserCb _ => ret tt
  | TimeoutCb winfo fd event =>
      t <~ lock_tinfo winfo ;;
      match t with
      | None => ret tt
      | Some cancelled =>
          if truthy cancelled then ret tt
          else
            set_cancelled winfo ETIMEDOUT ;;;
            cancelEvent fd event ;;;
            ret tt
      end
  | ScheduleCb f =>
      w <~ get ;;
      schedule (this (iom w)) (mkTask (Some f) None (-1)) ;;;
      ret tt
  | OnTimerCb weak_cond c' =>
      tmp <~ lock_tinfo weak_cond ;;
      match tmp with
      | Some _ => run_cb c'
      | None => ret tt
      end
  end.

(** What a call of a hooked I/O function has come to: it returned, or the
    coroutine is suspended in the [yield] of [do_io] with its locals. *)
Record Frame : Type := mkFrame {
  fr_fd : Z;
  fr_event : Z;
  fr_to : Z;
  fr_tinfo : nat;
  fr_timer : option nat
}.

Inductive IoStep : Type :=
| Returned (n : Z)
| Yielded (fr : Frame).

(** [while (n == -1 && errno == EINTR) n = fun(fd, args...)]; one unit of
    fuel is one answer of the kernel. *)
Fixpoint eintr_loop (fuel : nat) (n : Z) : M World Z :=
  w <~ get ;;
  if (n =? -1) && (errno (krn w) =? EINTR) then
    match fuel with
    | O => blocked
    | S fuel' => n' <~ in_krn k_io ;; eintr_loop fuel' n'
    end
  else ret n.

Definition cancel_if (timer : option nat) : M World unit :=
  match timer with
  | Some t => Timer_cancel t ;;; ret tt
  | None => ret tt
  end.

(** [do_io] from the label [retry] to its return or to the yield *)
Definition do_io_retry (fd event to : Z) (tinfo : nat) : M World IoStep :=
  n0 <~ in_krn k_io ;;
  w0 <~ get ;;
  n <~ eintr_loop (length (io_rt (krn w0))) n0 ;;
  w <~ get ;;
  if (n =? -1) && (errno (krn w) =? EAGAIN) then
    iom_ptr <~ IOManager_GetThis ;;
    timer <~ (if negb (to =? UINT64_MAX)
              then deref iom_ptr ;;;
                   t <~ addConditionTimer to (TimeoutCb tinfo fd event)
                          tinfo false ;;
                   ret (Some t)
              else ret None) ;;
    deref iom_ptr ;;;
    rt <~ addEvent fd event None ;;
    if negb (rt =? 0) then
      cancel_if timer ;;;
      drop_tinfo tinfo ;;;
      ret (Returned (-1))
    else
      cur <~ in_thr Fiber.GetThis ;;
      in_thr (Fiber.yield cur) ;;;
      ret (Yielded (mkFrame fd event to tinfo timer))
  else
    drop_tinfo tinfo ;;;
    ret (Returned n).

(** [do_io] from the return of the yield on *)
Definition do_io_resume (fr : Frame) : M World IoStep :=
  cancel_if (fr_timer fr) ;;;
  w <~ get ;;
  cancelled <~ deref (mjoin (tinfos (hook w) !! fr_tinfo fr)) ;;
  if truthy cancelled then
    write_errno cancelled ;;;
    drop_tinfo (fr_tinfo fr) ;;;
    ret (Returned (-1))
  else do_io_retry (fr_fd fr) (fr_event fr) (fr_to fr) (fr_tinfo fr).

(** [do_io(fd, fun, hook_fun_name, event, timeout_so, args...)] from its
    entry to its return or to the first yield *)
Definition do_io (fd event timeout_so : Z) : M World IoStep :=
  w <~ get ;;
  if negb (t_hook_enable (hook w)) then
    n <~ in_krn k_io ;; ret (Returned n)
  else
    octx <~ FdMgr_get fd ;;
    match octx with
    | None => n <~ in_krn k_io ;; ret (Returned n)
    | Some ctx =>
        if isClose ctx then
          write_errno EBADF ;;;
          ret (Returned (-1))
        else if negb (isSocket ctx) || userNonblock ctx then
          n <~ in_krn k_io ;; ret (Returned n)
        else
          let to := getTimeout ctx timeout_so in
          tinfo <~ new_tinfo ;;
          do_io_retry fd event to tinfo
    end.

(** ** scheduler.cc: what a worker takes from the queue *)

(** [it->thread != -1 && it->thread != Thread::GetThreadId()]: the task is
    pinned to another thread. *)
Definition pinned_elsewhere (tid : Z) (t : ScheduleTask) : bool :=
  negb (task_thread t =? -1) && negb (task_thread t =? tid).

(** The scan of [Scheduler::run] over [m_tasks]: the tasks it steps over,
    and the task it stops at with the tasks behind it. *)
Fixpoint scan_tasks (tid : Z) (l : list ScheduleTask)
    : list ScheduleTask * option (ScheduleTask * list ScheduleTask) :=
  match l with
  | [] => ([], None)
  | t :: r =>
      if pinned_elsewhere tid t
      then (t :: fst (scan_tasks tid r), snd (scan_tasks tid r))
      else ([], Some (t, r))
  end.

Definition nonempty {A : Type} (l : list A) : bool :=
  match l with [] => false | _ => true end.

(** The block of [Scheduler::run] that holds the queue lock, on the
    scheduler [p] and the thread [tid]: the task taken, if any, and
    [tickle_me]. A task is erased from the queue and counted as active
    when it is taken; [tickle_me] is set by every task stepped over and by
    tasks left behind the one taken. *)
Definition Scheduler_run_take (p : nat) (tid : Z)
    : M World (option ScheduleTask * bool) :=
  s <~ load_sched p ;;
  match scan_tasks tid (m_tasks s) with
  | (skipped, Some (t, rest)) =>
      assert (match task_fiber t, task_cb t with
              | None, None => false
              | _, _ => true
              end) ;;;
      (match task_fiber t with
       | Some f =>
           st <~ in_thr (Fiber.getState f) ;;
           assert (Fiber.State_eqb st Fiber.READY)
       | None => ret tt
       end) ;;;
      modify (fun w =>
        with_scheds
          (<[p := mkScheduler (m_stopping s) (skipped ++ rest)
                    (wrap64 (m_activeThreadCount s + 1))
                    (m_idleThreadCount s)]> (scheds w)) w) ;;;
      ret (Some t, nonempty skipped || nonempty rest)
  | (skipped, None) => ret (None, nonempty skipped)
  end.

(** ** hook.cc: [connect], [ioctl], [setsockopt] and [sleep] *)

Definition EINPROGRESS : Z := 115.
Definition SOL_SOCKET : Z := 1.
Definition FIONBIO : Z := 21537.

(** The end of [connect_with_timeout]: [getsockopt(fd, SOL_SOCKET,
    SO_ERROR, &error, &len)] answered [so_rt] and stored [so_error]. *)
Definition connect_result (so_rt so_error : Z) : M World Z :=
  if so_rt =? -1 then ret (-1)
  else if so_error =? 0 then ret 0
  else write_errno so_error ;;; ret (-1).

(** [connect_with_timeout] from its entry to its return or to the yield.
    [connect_f] answers from the script of original entry points; the
    answer of [getsockopt_f], should the call come to it, is given. *)
Definition connect_with_timeout (fd timeout_ms so_rt so_error : Z)
    : M World IoStep :=
  w <~ get ;;
  if negb (t_hook_enable (hook w)) then
    n <~ in_krn k_io ;; ret (Returned n)
  else
    octx <~ FdMgr_get fd ;;
    match octx with
    | None => write_errno EBADF ;;; ret (Returned (-1))
    | Some ctx =>
        if isClose ctx then write_errno EBADF ;;; ret (Returned (-1))
        else if negb (isSocket ctx) then
          n <~ in_krn k_io ;; ret (Returned n)
        else if userNonblock ctx then
          n <~ in_krn k_io ;; ret (Returned n)
        else
          n <~ in_krn k_io ;;
          w1 <~ get ;;
          if n =? 0 then ret (Returned 0)
          else if negb (n =? -1) || negb (errno (krn w1) =? EINPROGRESS)
          then ret (Returned n)
          else
            iom_ptr <~ IOManager_GetThis ;;
            tinfo <~ new_tinfo ;;
            timer <~ (if negb (timeout_ms =? UINT64_MAX)
                      then deref iom_ptr ;;;
                           t <~ addConditionTimer timeout_ms
                                  (TimeoutCb tinfo fd WRITE) tinfo false ;;
                           ret (Some t)
                      else ret None) ;;
            deref iom_ptr ;;;
            rt <~ addEvent fd WRITE None ;;
            if rt =? 0 then
              cur <~ in_thr Fiber.GetThis ;;
              in_thr (Fiber.yield cur) ;;;
              ret (Yielded (mkFrame fd WRITE timeout_ms tinfo timer))
            else
              cancel_if timer ;;;
              r <~ connect_result so_rt so_error ;;
              drop_tinfo tinfo ;;;
              ret (Returned r)
    end.

(** [connect_with_timeout] from the return of the yield on *)
Definition connect_resume (fr : Frame) (so_rt so_error : Z) : M World Z :=
  cancel_if (fr_timer fr) ;;;
  w <~ get ;;
  cancelled <~ deref (mjoin (tinfos (hook w) !! fr_tinfo fr)) ;;
  if truthy cancelled then
    write_errno cancelled ;;;
    drop_tinfo (fr_tinfo fr) ;;;
    ret (-1)
  else
    r <~ connect_result so_rt so_error ;;
    drop_tinfo (fr_tinfo fr) ;;;
    ret r.

(** The hooked [ioctl(d, request, arg)] where [arg] points to the integer
    [argval]; [ioctl_f] answers [rt]. *)
Definition ioctl (d request argval rt : Z) : M World Z :=
  if request =? FIONBIO then
    octx <~ FdMgr_get d ;;
    match octx with
    | None => ret rt
    | Some ctx =>
        if isClose ctx || negb (isSocket ctx) then ret rt
        else setUserNonblock d ctx (truthy argval) ;;; ret rt
    end
  else ret rt.

(** Modelled from the spec: [FdCtx::setTimeout] of fd_manager.cc, which is
    not among the sources; it records the per-direction timeout in
    milliseconds, receive for [SO_RCVTIMEO] and send otherwise. *)
Definition setTimeout (fd : Z) (ctx : FdCtx) (type v : Z) : M World unit :=
  modify (fun w =>
    let h := hook w in
    with_hook
      (mkHookEnv (t_hook_enable h)
         (<[fd := if type =? SO_RCVTIMEO
                  then mkFdCtx (isSocket ctx) (isClose ctx) (sysNonblock ctx)
                         (userNonblock ctx) v (sendTimeout ctx)
                  else mkFdCtx (isSocket ctx) (isClose ctx) (sysNonblock ctx)
                         (userNonblock ctx) (recvTimeout ctx) v]>
            (m_datas h))
         (tinfos h)) w).

(** The hooked [setsockopt] with a [timeval] of [tv_sec] and [tv_usec] as
    its value; [setsockopt_f] answers [rt]. *)
Definition setsockopt (sockfd level optname tv_sec tv_usec rt : Z)
    : M World Z :=
  w <~ get ;;
  if negb (t_hook_enable (hook w)) then ret rt
  else
    (if (level =? SOL_SOCKET)
        && ((optname =? SO_RCVTIMEO) || (optname =? SO_SNDTIMEO))
     then
       octx <~ FdMgr_get sockfd ;;
       match octx with
       | Some ctx =>
           setTimeout sockfd ctx optname
             (wrap64 (tv_sec * 1000 + Z.quot tv_usec 1000))
       | None => ret tt
       end
     else ret tt) ;;;
    ret rt.

(** The hooked [sleep(seconds)] up to its yield, [None] when hooking is off
    and the original is called; [seconds * 1000] is computed on
    [unsigned int]. *)
Definition sleep (seconds : Z) : M World (option nat) :=
  w <~ get ;;
  if negb (t_hook_enable (hook w)) then ret None
  else
    fiber <~ in_thr Fiber.GetThis ;;
    iom_ptr <~ IOManager_GetThis ;;
    deref iom_ptr ;;;
    t <~ addTimer ((seconds * 1000) mod 2 ^ 32) (ScheduleCb fiber) false ;;
    cur <~ in_thr Fiber.GetThis ;;
    in_thr (Fiber.yield cur) ;;;
    ret (Some t).

(** Modelled from the spec: [FdMgr::del(fd)] of fd_manager.cc, which is not
    among the sources; it drops the context of the fd from the table. *)
Definition FdMgr_del (fd : Z) : M World unit :=
  modify (fun w =>
    with_hook
      (mkHookEnv (t_hook_enable (hook w)) (delete fd (m_datas (hook w)))
         (tinfos (hook w))) w).

(** The hooked [close(fd)]; [close_f] answers [rt]. *)
Definition close (fd rt : Z) : M World Z :=
  w <~ get ;;
  if negb (t_hook_enable (hook w)) then ret rt
  else
    octx <~ FdMgr_get fd ;;
    (match octx with
     | Some _ =>
         iom_ptr <~ IOManager_GetThis ;;
         (match iom_ptr with
          | Some _ => cancelAll fd ;;; ret tt
          | None => ret tt
          end) ;;;
         FdMgr_del fd
     | None => ret tt
     end) ;;;
    ret rt.

(** An fd context with the user's non-blocking flag set to [v], as
    [setUserNonblock] leaves it *)
Definition marked (v : bool) (ctx : FdCtx) : FdCtx :=
  mkFdCtx (isSocket ctx) (isClose ctx) (sysNonblock ctx) v
    (recvTimeout ctx) (sendTimeout ctx).

(** ** Invariants of an fd context *)

(** A slot holds work: a callback or a coroutine. *)
Definition populated (x : EventContext) : bool :=
  match cb x, fiber x with
  | None, None => false
  | _, _ => true
  end.

(** The mask of a context is made of the directions whose slot holds
    work, and a slot without work is entirely empty. *)
Definition ctx_inv (c : FdContext) : Prop :=
  events c = Z.lor (if populated (read c) then READ else NONE)
                   (if populated (write c) then WRITE else NONE)
  /\ (populated (read c) = false -> read c = emptyEventContext)
  /\ (populated (write c) = false -> write c = emptyEventContext).

Definition table_inv (w : World) : Prop :=
  forall i c, m_fdContexts (iom w) !! i = Some c -> ctx_inv c.

(** ** What waking a waiter does to the queues *)

(** The slot of a direction *)
Definition slot_of (d : Z) (c : FdContext) : EventContext :=
  if d =? READ then read c else write c.

(** The task [triggerEvent] makes of a slot: the callback when there is
    one, the coroutine otherwise, pinned to no thread *)
Definition task_of (x : EventContext) : ScheduleTask :=
  match cb x with
  | Some f => mkTask None (Some f) (-1)
  | None => mkTask (fiber x) None (-1)
  end.

(** The queues after one task was appended to the queue of scheduler [p] *)
Definition enqueue (p : nat) (t : ScheduleTask) (l : list Scheduler)
    : list Scheduler :=
  match l !! p with
  | Some s => <[p := mkScheduler (m_stopping s) (m_tasks s ++ [t])
                       (m_activeThreadCount s) (m_idleThreadCount s)]> l
  | None => l
  end.

(** The queues after the waiter of a slot was handed to its scheduler *)
Definition wake (x : EventContext) (l : list Scheduler) : list Scheduler :=
  match scheduler x with
  | Some p => enqueue p (task_of x) l
  | None => l
  end.

Definition wake_if (b : bool) (x : EventContext) (l : list Scheduler)
    : list Scheduler :=
  if b then wake x l else l.

(** A context after [triggerEvent] fired direction [d] on it *)
Definition fired (d : Z) (c : FdContext) : FdContext :=
  resetEventContext d (set_events (Z.land (events c) (Z.lnot d)) c).

(** ** What a call of an original entry point does to the kernel *)

(** The kernel after [fun(fd, args...)] gave the answer [(n, e)] and left
    the answers [rest] *)
Definition io_answered (n e : Z) (rest : list (Z * Z)) (k : Kernel) : Kernel :=
  mkKernel (if n =? -1 then e else errno k) (now_ms k) (epoll_ctl_rt k)
    (epoll_ctl_log k) (epoll_wait_rt k) (epoll_wait_log k) (fcntl_rt k)
    (fcntl_log k) rest (S (io_calls k)) (pipe_bytes k).

(** ** Observations of the I/O manager *)

Definition pending (w : World) : Z := m_pendingEventCount (iom w).

(** The context of [fd]; a context the table does not reach yet is the
    empty one [contextResize] would allocate for it. *)
Definition fd_context_of (w : World) (fd : Z) : FdContext :=
  default (newFdContext (Z.to_nat fd)) (m_fdContexts (iom w) !! Z.to_nat fd).

(** The registered-events mask of [fd] *)
Definition events_of (w : World) (fd : Z) : Z := events (fd_context_of w fd).

(** The number of directions, READ and WRITE, in a mask *)
Definition ndirs (mask : Z) : Z :=
  (if Z.testbit mask 0 then 1 else 0) + (if Z.testbit mask 2 then 1 else 0).

(** The directions registered in [w] and no longer in [w'] *)
Definition cleared (w w' : World) (fd : Z) : Z :=
  Z.land (events_of w fd) (Z.lnot (events_of w' fd)).

(** The number of directions registered over the whole table *)
Definition registered_total (l : list FdContext) : Z :=
  foldr (fun c acc => ndirs (events c) + acc) 0 l.

(** The standing relation between the count and the table: the count is
    the number of registered directions, and the table is far from the
    size at which a 64-bit count could overflow. *)
Definition pending_inv (w : World) : Prop :=
  pending w = registered_total (m_fdContexts (iom w))
  /\ Z.of_nat (length (m_fdContexts (iom w))) < 2 ^ 62.

(** ** Sample states *)

Definition main_fiber : Fiber.Fiber :=
  Fiber.mkFiber 0 false Fiber.RUNNING None false.

Definition child_fiber (st : Fiber.State) : Fiber.Fiber :=
  Fiber.mkFiber 1 true st (Some (UserCb 0)) false.

Definition env_child (st : Fiber.State) : Fiber.Env :=
  Fiber.mkEnv 2 [main_fiber; child_fiber st] (Some 1%nat) (Some 0%nat) None [].

(** A worker thread of a one-thread I/O manager: fiber 0 is the thread's
    main (and scheduling) coroutine, fiber 1 the task coroutine that is
    running; fd 5 is an open socket with a receive timeout of 100 ms. *)
Definition sample_thr : Fiber.Env :=
  Fiber.mkEnv 2
    [Fiber.mkFiber 0 false Fiber.RUNNING None false;
     Fiber.mkFiber 1 true Fiber.RUNNING (Some (UserCb 0)) true]
    (Some 1%nat) (Some 0%nat) (Some 0%nat) [].

Definition sample_kernel (ctl fcn : list Z) (io : list (Z * Z))
    (wait : list WaitAnswer) : Kernel :=
  mkKernel 0 1000 ctl [] wait [] fcn [] io 0 0.

Definition sample_hook : HookEnv :=
  mkHookEnv true {[ 5 := mkFdCtx true false true false 100 UINT64_MAX ]} [].

Definition sample_world (ctl fcn : list Z) (io : list (Z * Z))
    (wait : list WaitAnswer) : World :=
  mkWorld sample_thr (Some 0%nat) [mkScheduler false [] 1 0]
    (mkTimerManager [] 0 0)
    (mkIOManager 0 (3, 4) 0 (resized 32 []))
    (sample_kernel ctl fcn io wait) sample_hook.

(** The same with READ registered on fd 5 for a callback *)
Definition sample_registered (ctl : list Z) : World :=
  with_iom
    (mkIOManager 0 (3, 4) 1
       (<[5%nat := mkFdContext
                     (mkEventContext (Some 0%nat) None (Some (UserCb 7)))
                     emptyEventContext 5 READ]> (resized 32 [])))
    (sample_world ctl [] [] []).

(** An idle I/O manager with no event pending and one timer due in
    100 ms; [stopping] is the scheduler's flag, [wait] the answers
    [epoll_wait] will give. *)
Definition sample_with_timer (stopping : bool) (wait : list WaitAnswer)
    : World :=
  mkWorld sample_thr (Some 0%nat) [mkScheduler stopping [] 0 1]
    (mkTimerManager [mkTimer 0 false 100 1100 (Some (UserCb 3))] 1 0)
    (mkIOManager 0 (3, 4) 0 (resized 32 []))
    (sample_kernel [] [] [] wait) sample_hook.

(** Answers of [epoll_wait]: interrupted, failed for good, one fd ready *)
Definition wait_EINTR : WaitAnswer := mkWaitAnswer (-1) EINTR [].
Definition wait_EBADF : WaitAnswer := mkWaitAnswer (-1) EBADF [].
Definition wait_ready : WaitAnswer :=
  mkWaitAnswer 1 0 [mk_epoll_event EPOLLIN (inr 5%nat)].

(** A thread whose task coroutine 1 is READY and whose main coroutine 0 is
    current *)
Definition env_ready : Fiber.Env :=
  Fiber.mkEnv 2 [main_fiber; child_fiber Fiber.READY] (Some 0%nat)
    (Some 0%nat) None [].

(** A queue of three tasks: one pinned to thread 9, one unpinned callback,
    one pinned to thread 7 *)
Definition sample_queue : list ScheduleTask :=
  [mkTask None (Some (UserCb 1)) 9; mkTask None (Some (UserCb 2)) (-1);
   mkTask None (Some (UserCb 3)) 7].

Definition sample_with_queue (q : list ScheduleTask) : World :=
  with_scheds [mkScheduler false q 0 0] (sample_world [] [] [] []).

(** The sample world with READ and WRITE registered on fd 5 for two
    callbacks *)
Definition sample_both (ctl : list Z) : World :=
  with_iom
    (mkIOManager 0 (3, 4) 2
       (<[5%nat := mkFdContext
                     (mkEventContext (Some 0%nat) None (Some (UserCb 7)))
                     (mkEventContext (Some 0%nat) None (Some (UserCb 8)))
                     5 (Z.lor READ WRITE)]> (resized 32 [])))
    (sample_world ctl [] [] []).

(** * Properties *)

(** ** Reasoning about runs *)

Lemma bind_Ok {S A B : Type} (m : M S A) (k : A -> M S B) s b s' :
  bind m k s = Ok (b, s') ->
  exists a s1, m s = Ok (a, s1) /\ k a s1 = Ok (b, s').
Proof.
  unfold bind. destruct (m s) as [[a s1] | | |]; try discriminate.
  intros H. exists a, s1. split; [reflexivity | exact H].
Qed.

Lemma bind_Ok_intro {S A B : Type} (m : M S A) (k : A -> M S B) s a s1 :
  m s = Ok (a, s1) -> bind m k s = k a s1.
Proof. unfold bind. intros ->. reflexivity. Qed.

Lemma zoom_Ok {S T A : Type} (proj : S -> T) (inj : T -> S -> S)
    (m : M T A) s a s' :
  zoom proj inj m s = Ok (a, s') ->
  exists t, m (proj s) = Ok (a, t) /\ s' = inj t s.
Proof.
  unfold zoom. destruct (m (proj s)) as [[a0 t] | | |]; try discriminate.
  intros H. injection H as <- <-. exists t. split; reflexivity.
Qed.

Lemma assert_Ok {S : Type} (b : bool) (s : S) u s' :
  assert b s = Ok (u, s') -> b = true /\ s' = s.
Proof.
  unfold assert. destruct b; [| discriminate].
  intros H. injection H as _ <-. split; reflexivity.
Qed.

Lemma deref_Ok {S A : Type} (o : option A) (s : S) a s' :
  deref o s = Ok (a, s') -> o = Some a /\ s' = s.
Proof.
  destruct o as [x |]; simpl; [| discriminate].
  unfold ret. intros H. injection H as <- <-. split; reflexivity.
Qed.

(** Break the run recorded in [H] at its first bind. *)
Ltac step_in H :=
  let a := fresh "a" in
  let s := fresh "s" in
  let H1 := fresh "H" in
  apply bind_Ok in H; destruct H as (a & s & H1 & H).

Tactic Notation "split_run" hyp(H) "as" ident(a) ident(s) ident(H1) :=
  apply bind_Ok in H; destruct H as (a & s & H1 & H).

Ltac ok_inj H :=
  first
    [ apply assert_Ok in H; destruct H as [H ->]
    | apply deref_Ok in H; destruct H as [H ->]
    | (unfold ret, get, put, modify in H; injection H as <- <-)
    | (unfold ret, get, put, modify in H; injection H as <-) ].

(** ** Coroutines *)

Section YieldFacts.

Import Fiber.

Variables (e : Env) (this : nat) (f : Fiber) (p : nat) (pf : Fiber).
Hypothesis Hthis : fibers e !! this = Some f.
Hypothesis Hpartner :
  (if m_runInScheduler f then t_scheduler_fiber e else t_thread_fiber e)
  = Some p.
Hypothesis Hpf : fibers e !! p = Some pf.

Lemma yield_READY_aborts : m_state f = READY -> yield this e = AssertFail.
Proof.
  intros Hst. unfold yield, load, bind, get, deref, ret. simpl.
  rewrite Hthis, Hst. reflexivity.
Qed.

Lemma partner_still_there st :
  exists pf', <[this := set_state st f]> (fibers e) !! p = Some pf'.
Proof.
  destruct (decide (this = p)) as [<- | Hne].
  - exists (set_state st f).
    apply list_lookup_insert_eq. eapply lookup_lt_Some; eauto.
  - exists pf. rewrite list_lookup_insert_ne by exact Hne. exact Hpf.
Qed.

Lemma yield_RUNNING :
  m_state f = RUNNING ->
  yield this e
  = Ok (tt, mkEnv (s_fiber_id e) (<[this := set_state READY f]> (fibers e))
              (t_thread_fiber e) (t_thread_fiber e) (t_scheduler_fiber e)
              (switches e ++ [(this, p)])).
Proof.
  intros Hst. destruct (partner_still_there READY) as [pf' Hpf'].
  unfold yield, partner, load, store, SetThis, swapcontext, set_fibers,
    bind, get, modify, assert, deref, ret, undefined.
  simpl. rewrite Hthis. simpl. rewrite Hst. simpl.
  rewrite Hpartner. simpl. rewrite Hpf'. reflexivity.
Qed.

Lemma yield_TERM :
  m_state f = TERM ->
  yield this e
  = Ok (tt, mkEnv (s_fiber_id e) (fibers e)
              (t_thread_fiber e) (t_thread_fiber e) (t_scheduler_fiber e)
              (switches e ++ [(this, p)])).
Proof.
  intros Hst.
  unfold yield, partner, load, store, SetThis, swapcontext, set_fibers,
    bind, get, modify, assert, deref, ret, undefined.
  simpl. rewrite Hthis. simpl. rewrite Hst. simpl.
  rewrite Hpartner. simpl. rewrite Hpf. reflexivity.
Qed.

End YieldFacts.

(** C8. For a coroutine whose state is RUNNING or TERM, [yield] makes the
    thread's main coroutine the current one and switches to the partner;
    a RUNNING coroutine becomes READY, a TERM coroutine stays TERM; on a
    coroutine in the remaining state, READY, the assertion of [yield]
    aborts the run. *)
Theorem yield_transition (e : Fiber.Env) (this : nat) (f : Fiber.Fiber)
    (p : nat) (pf : Fiber.Fiber)
    (Hthis : Fiber.fibers e !! this = Some f)
    (Hpartner : (if Fiber.m_runInScheduler f then Fiber.t_scheduler_fiber e
                 else Fiber.t_thread_fiber e) = Some p)
    (Hpf : Fiber.fibers e !! p = Some pf) :
  (Fiber.m_state f = Fiber.RUNNING ->
   exists e', Fiber.yield this e = Ok (tt, e')
     /\ Fiber.t_fiber e' = Fiber.t_thread_fiber e
     /\ Fiber.t_thread_fiber e' = Fiber.t_thread_fiber e
     /\ Fiber.m_state <$> Fiber.fibers e' !! this = Some Fiber.READY
     /\ Fiber.switches e' = Fiber.switches e ++ [(this, p)])
  /\ (Fiber.m_state f = Fiber.TERM ->
      exists e', Fiber.yield this e = Ok (tt, e')
        /\ Fiber.t_fiber e' = Fiber.t_thread_fiber e
        /\ Fiber.t_thread_fiber e' = Fiber.t_thread_fiber e
        /\ Fiber.m_state <$> Fiber.fibers e' !! this = Some Fiber.TERM
        /\ Fiber.switches e' = Fiber.switches e ++ [(this, p)])
  /\ (Fiber.m_state f = Fiber.READY -> Fiber.yield this e = AssertFail).
Proof.
  split; [| split]; intros Hst.
  - eexists. split; [eapply yield_RUNNING; eassumption |].
    simpl. repeat split.
    rewrite list_lookup_insert_eq by (eapply lookup_lt_Some; eauto).
    reflexivity.
  - eexists. split; [eapply yield_TERM; eassumption |].
    simpl. repeat split. rewrite Hthis. simpl. rewrite Hst. reflexivity.
  - eapply yield_READY_aborts; eassumption.
Qed.

Lemma yield_transition_witness :
  Fiber.fibers (env_child Fiber.RUNNING) !! 1%nat
    = Some (child_fiber Fiber.RUNNING)
  /\ Fiber.t_thread_fiber (env_child Fiber.RUNNING) = Some 0%nat
  /\ Fiber.fibers (env_child Fiber.RUNNING) !! 0%nat = Some main_fiber
  /\ exists e', Fiber.yield 1 (env_child Fiber.RUNNING) = Ok (tt, e')
       /\ Fiber.t_fiber e' = Some 0%nat
       /\ Fiber.m_state <$> Fiber.fibers e' !! 1%nat = Some Fiber.READY.
Proof.
  split; [reflexivity |]. split; [reflexivity |]. split; [reflexivity |].
  destruct (yield_transition (env_child Fiber.RUNNING) 1
              (child_fiber Fiber.RUNNING) 0 main_fiber
              eq_refl eq_refl eq_refl) as (HR & _ & _).
  destruct (HR eq_refl) as (e' & Hy & Ht & _ & Hs & _).
  exists e'. split; [exact Hy |]. split; [exact Ht | exact Hs].
Defined.

(** The trampoline: once the coroutine's function has returned,
    [MainFunc] marks the coroutine TERM and yields, and the yield keeps
    TERM. *)
Lemma MainFunc_exit_keeps_TERM (e : Fiber.Env) (cur : nat) (f : Fiber.Fiber)
    (p : nat) (pf : Fiber.Fiber) :
  Fiber.t_fiber e = Some cur ->
  Fiber.fibers e !! cur = Some f ->
  (if Fiber.m_runInScheduler f then Fiber.t_scheduler_fiber e
   else Fiber.t_thread_fiber e) = Some p ->
  Fiber.fibers e !! p = Some pf ->
  p <> cur ->
  exists e',
    Fiber.MainFunc_exit e = Ok (tt, e')
    /\ Fiber.m_state <$> Fiber.fibers e' !! cur = Some Fiber.TERM
    /\ Fiber.m_cb <$> Fiber.fibers e' !! cur = Some None
    /\ Fiber.t_fiber e' = Fiber.t_thread_fiber e
    /\ Fiber.switches e' = Fiber.switches e ++ [(cur, p)].
Proof.
  intros Hcur Hf Hp Hpf Hne.
  assert (Hlt : (cur < length (Fiber.fibers e))%nat)
    by (eapply lookup_lt_Some; eauto).
  pose proof (yield_TERM
                (Fiber.set_fibers
                   (<[cur := Fiber.set_state Fiber.TERM
                               (Fiber.set_cb None f)]> (Fiber.fibers e)) e)
                cur (Fiber.set_state Fiber.TERM (Fiber.set_cb None f)) p pf)
    as Hy.
  simpl in Hy.
  rewrite list_lookup_insert_eq in Hy by exact Hlt.
  rewrite list_lookup_insert_ne in Hy by congruence.
  specialize (Hy eq_refl Hp Hpf eq_refl).
  assert (H1 : Fiber.GetThis e = Ok (cur, e)).
  { unfold Fiber.GetThis, bind, get, ret. simpl. rewrite Hcur. reflexivity. }
  assert (H2 : Fiber.load cur e = Ok (f, e)).
  { unfold Fiber.load, bind, get, deref, ret. simpl. rewrite Hf.
    reflexivity. }
  unfold Fiber.MainFunc_exit.
  rewrite (bind_Ok_intro _ _ _ _ _ H1), (bind_Ok_intro _ _ _ _ _ H2).
  unfold bind at 1. unfold Fiber.store, modify. cbv beta iota.
  rewrite Hy.
  eexists. split; [reflexivity |]. simpl.
  rewrite list_lookup_insert_eq by exact Hlt. repeat split.
Qed.

(** ** The hooks *)

Lemma truthy_true_iff (x : Z) : truthy x = true <-> x <> 0.
Proof.
  unfold truthy. destruct (Z.eqb_spec x 0); simpl; split; intros; congruence.
Qed.

Lemma truthy_false_iff (x : Z) : truthy x = false <-> x = 0.
Proof.
  unfold truthy. destruct (Z.eqb_spec x 0); simpl; split; intros; congruence.
Qed.

(** Masking with a single bit is non-zero exactly when the bit is set. *)
Lemma truthy_land_pow2 (x n : Z) :
  0 <= n -> truthy (Z.land x (2 ^ n)) = Z.testbit x n.
Proof.
  intros Hn. destruct (Z.testbit x n) eqn:E.
  - apply truthy_true_iff. intros H0.
    assert (Hb : Z.testbit (Z.land x (2 ^ n)) n = true).
    { rewrite Z.land_spec, E, Z.pow2_bits_true by exact Hn. reflexivity. }
    rewrite H0, Z.bits_0 in Hb. discriminate.
  - apply truthy_false_iff. apply Z.bits_inj'. intros m Hm.
    rewrite Z.land_spec, Z.bits_0, Z.pow2_bits_eqb by exact Hn.
    destruct (Z.eqb_spec n m) as [<- | _].
    + rewrite E. reflexivity.
    + apply andb_false_r.
Qed.

Lemma O_NONBLOCK_pow2 : O_NONBLOCK = 2 ^ 11.
Proof. reflexivity. Qed.

Lemma testbit_set_nonblock (a : Z) : Z.testbit (Z.lor a O_NONBLOCK) 11 = true.
Proof.
  rewrite Z.lor_spec, O_NONBLOCK_pow2, Z.pow2_bits_true by lia.
  apply orb_true_r.
Qed.

Lemma testbit_clear_nonblock (a : Z) :
  Z.testbit (Z.land a (Z.lnot O_NONBLOCK)) 11 = false.
Proof.
  rewrite Z.land_spec, Z.lnot_spec, O_NONBLOCK_pow2, Z.pow2_bits_true by lia.
  apply andb_false_r.
Qed.

(** C10. With hooking enabled, a hooked I/O call on an fd whose context is
    marked closed returns -1 with errno EBADF, and the original function
    is not called. *)
Theorem do_io_closed_is_EBADF (w : World) (fd event timeout_so : Z)
    (ctx : FdCtx)
    (Hhook : t_hook_enable (hook w) = true)
    (Hctx : m_datas (hook w) !! fd = Some ctx)
    (Hclosed : isClose ctx = true) :
  exists w', do_io fd event timeout_so w = Ok (Returned (-1), w')
    /\ errno (krn w') = EBADF
    /\ io_calls (krn w') = io_calls (krn w)
    /\ io_rt (krn w') = io_rt (krn w).
Proof.
  unfold do_io, FdMgr_get, write_errno, bind, get, modify, ret. simpl.
  rewrite Hhook. simpl. rewrite Hctx, Hclosed. simpl.
  eexists. split; [reflexivity |]. simpl. repeat split.
Qed.

(** C7. On a socket with an open fd context, [fcntl(fd, F_SETFL, flags)]
    followed by [fcntl(fd, F_GETFL)] yields a value whose O_NONBLOCK bit is
    the O_NONBLOCK bit of [flags], whatever the two kernel calls answer;
    the flag the kernel is given follows the context's own record instead. *)
Theorem fcntl_getfl_reflects_setfl (w : World) (fd flags a1 a2 : Z)
    (rest : list Z) (ctx : FdCtx)
    (Hctx : m_datas (hook w) !! fd = Some ctx)
    (Hsock : isSocket ctx = true)
    (Hopen : isClose ctx = false)
    (Hkernel : fcntl_rt (krn w) = a1 :: a2 :: rest) :
  exists w1 r2 w2,
    fcntl fd F_SETFL flags w = Ok (a1, w1)
    /\ fcntl fd F_GETFL 0 w1 = Ok (r2, w2)
    /\ Z.testbit r2 11 = Z.testbit flags 11
    /\ (exists arg', last (fcntl_log (krn w1)) = Some (fd, F_SETFL, arg')
          /\ Z.testbit arg' 11 = sysNonblock ctx).
Proof.
  assert (Hbit : truthy (Z.land flags O_NONBLOCK) = Z.testbit flags 11).
  { rewrite O_NONBLOCK_pow2. apply truthy_land_pow2. lia. }
  assert (Hset : exists w1,
             fcntl fd F_SETFL flags w = Ok (a1, w1)
             /\ m_datas (hook w1) !! fd
                = Some (mkFdCtx true false (sysNonblock ctx)
                          (Z.testbit flags 11) (recvTimeout ctx)
                          (sendTimeout ctx))
             /\ fcntl_rt (krn w1) = a2 :: rest
             /\ fcntl_log (krn w1)
                = fcntl_log (krn w)
                  ++ [(fd, F_SETFL,
                       if sysNonblock ctx then Z.lor flags O_NONBLOCK
                       else Z.land flags (Z.lnot O_NONBLOCK))]).
  { unfold fcntl, FdMgr_get, setUserNonblock, in_krn, zoom, k_fcntl_f,
      bind, get, modify, ret.
    simpl. rewrite Hctx, Hsock, Hopen. simpl. rewrite Hkernel, Hbit.
    eexists. split; [reflexivity |]. simpl.
    rewrite lookup_insert_eq. repeat split. }
  destruct Hset as (w1 & Hset & Hctx1 & Hk1 & Hlog1).
  clear Hbit. remember (Z.testbit flags 11) as b eqn:Hb. clear Hb.
  exists w1.
  exists (if b then Z.lor a2 O_NONBLOCK else Z.land a2 (Z.lnot O_NONBLOCK)).
  eexists. split; [exact Hset |]. split.
  { unfold fcntl, FdMgr_get, in_krn, zoom, k_fcntl_f, bind, get, ret.
    simpl. rewrite Hk1. simpl. rewrite Hctx1. simpl.
    destruct b; reflexivity. }
  split.
  - destruct b.
    + apply testbit_set_nonblock.
    + apply testbit_clear_nonblock.
  - rewrite Hlog1. eexists. split; [apply last_snoc |].
    destruct (sysNonblock ctx).
    + apply testbit_set_nonblock.
    + apply testbit_clear_nonblock.
Qed.

(** ** The I/O manager *)

Lemma table_reaches (w : World) (fd : Z) (c : FdContext) :
  0 <= fd ->
  m_fdContexts (iom w) !! Z.to_nat fd = Some c ->
  (Z.of_nat (length (m_fdContexts (iom w))) >? fd) = true.
Proof.
  intros Hfd Hc. apply lookup_lt_Some in Hc. apply Z.gtb_lt. lia.
Qed.

(** C5. [addEvent] on a direction that is already registered for the fd
    fails: its assertion aborts the run before the kernel is asked and
    before anything is registered. *)
Theorem addEvent_registered_aborts (w : World) (fd event : Z)
    (callback : option Callback) (c : FdContext)
    (Hfd : 0 <= fd)
    (Hctx : m_fdContexts (iom w) !! Z.to_nat fd = Some c)
    (Hreg : Z.land (events c) event <> 0) :
  addEvent fd event callback w = AssertFail.
Proof.
  unfold addEvent, fd_ctx_at, bind, get, ret, deref, assert. simpl.
  rewrite (table_reaches w fd c Hfd Hctx). simpl.
  destruct (Z.ltb_spec fd 0) as [Hlt | _]; [lia |].
  rewrite Hctx. simpl.
  apply truthy_true_iff in Hreg. rewrite Hreg. reflexivity.
Qed.

Lemma resized_lookup_old (size : nat) (l : list FdContext) (g : nat) :
  (length l <= size)%nat -> (g < length l)%nat ->
  resized size l !! g = l !! g.
Proof.
  intros Hle Hg. unfold resized.
  rewrite take_ge by exact Hle. apply lookup_app_l. exact Hg.
Qed.

Lemma resized_lookup_new (size : nat) (l : list FdContext) (g : nat) :
  (length l <= g)%nat -> (g < size)%nat ->
  resized size l !! g = Some (newFdContext g).
Proof.
  intros Hle Hg. unfold resized.
  rewrite take_ge by lia. rewrite lookup_app_r by exact Hle.
  rewrite list_lookup_fmap, lookup_seq_lt by lia.
  simpl. f_equal. f_equal. lia.
Qed.

Lemma resized_lookup_none (size : nat) (l : list FdContext) (g : nat) :
  (length l <= size)%nat -> (size <= g)%nat ->
  resized size l !! g = None.
Proof.
  intros Hle Hg. unfold resized. apply lookup_ge_None.
  rewrite length_app, length_take, length_fmap, length_seq. lia.
Qed.

(** Growing the table does not change what is observed of any fd. *)
Lemma resized_view (size : nat) (l : list FdContext) (g : nat) :
  (length l <= size)%nat ->
  default (newFdContext g) (resized size l !! g)
  = default (newFdContext g) (l !! g).
Proof.
  intros Hle. destruct (Nat.lt_ge_cases g (length l)) as [Hg | Hg].
  - rewrite resized_lookup_old by assumption. reflexivity.
  - rewrite (proj2 (lookup_ge_None l g)) by exact Hg.
    destruct (Nat.lt_ge_cases g size) as [Hs | Hs].
    + rewrite resized_lookup_new by assumption. reflexivity.
    + rewrite resized_lookup_none by assumption. reflexivity.
Qed.

(** What [addEvent] does before it asks the kernel: make sure the table
    reaches [fd] and fetch the context. *)
Lemma addEvent_locate (w : World) (fd : Z) :
  0 <= fd ->
  (2 <= length (m_fdContexts (iom w)))%nat ->
  exists l,
    ((if Z.of_nat (length (m_fdContexts (iom w))) >? fd then ret tt
      else contextResize (3 * fd / 2)) ;;;
     fd_ctx_at fd) w
    = Ok (fd_context_of w fd,
          with_iom (mkIOManager (this (iom w)) (m_tickleFds (iom w))
                      (m_pendingEventCount (iom w)) l) w)
    /\ l !! Z.to_nat fd = Some (fd_context_of w fd)
    /\ (forall g : nat, default (newFdContext g) (l !! g)
                        = default (newFdContext g) (m_fdContexts (iom w) !! g)).
Proof.
  intros Hfd Hlen. unfold fd_context_of.
  destruct (Z.gtb_spec (Z.of_nat (length (m_fdContexts (iom w)))) fd)
    as [Hin | Hout].
  - exists (m_fdContexts (iom w)).
    destruct (lookup_lt_is_Some_2 (m_fdContexts (iom w)) (Z.to_nat fd))
      as [c Hc]; [lia |].
    unfold fd_ctx_at, bind, get, ret, deref. simpl.
    destruct (Z.ltb_spec fd 0) as [Hlt | _]; [lia |].
    rewrite Hc. simpl. split; [| split; [reflexivity | reflexivity]].
    destruct w as [? ? ? ? [? ? ? ?] ? ?]. reflexivity.
  - exists (resized (Z.to_nat (3 * fd / 2)) (m_fdContexts (iom w))).
    assert (Hgrow : fd < 3 * fd / 2).
    { assert (fd + 1 <= 3 * fd / 2) by (apply Z.div_le_lower_bound; lia).
      lia. }
    assert (Hnew : resized (Z.to_nat (3 * fd / 2)) (m_fdContexts (iom w))
                     !! Z.to_nat fd = Some (newFdContext (Z.to_nat fd))).
    { apply resized_lookup_new; lia. }
    rewrite (proj2 (lookup_ge_None (m_fdContexts (iom w)) (Z.to_nat fd)))
      by lia.
    unfold contextResize, fd_ctx_at, bind, get, ret, deref, modify. simpl.
    destruct (Z.ltb_spec fd 0) as [Hlt | _]; [lia |].
    rewrite Hnew. simpl. split; [reflexivity |]. split; [reflexivity |].
    intros g. apply resized_view. lia.
Qed.

Lemma bind_bind_Ok {S A B C : Type} (m : M S A) (f : A -> M S B)
    (g : B -> M S C) s b s1 :
  bind m f s = Ok (b, s1) ->
  bind m (fun x => bind (f x) g) s = g b s1.
Proof.
  unfold bind. destruct (m s) as [[a s0] | | |]; try discriminate.
  intros ->. reflexivity.
Qed.

(** C9. When the kernel refuses the registration, [addEvent] returns -1 and
    what is observed of every fd context (mask and both slots) and the
    pending-event count are as before; nothing is scheduled either. *)
Theorem addEvent_refused_no_effect (w : World) (fd event : Z)
    (callback : option Callback) (rt : Z) (rest : list Z)
    (Hfd : 0 <= fd)
    (Htable : (2 <= length (m_fdContexts (iom w)))%nat)
    (Hnew : Z.land (events_of w fd) event = 0)
    (Hscript : epoll_ctl_rt (krn w) = rt :: rest)
    (Hrt : rt <> 0) :
  exists w',
    addEvent fd event callback w = Ok (-1, w')
    /\ (forall g, fd_context_of w' g = fd_context_of w g)
    /\ pending w' = pending w
    /\ scheds w' = scheds w
    /\ hook w' = hook w
    /\ thr w' = thr w.
Proof.
  destruct (addEvent_locate w fd Hfd Htable) as (l & Hloc & Hl & Hview).
  unfold addEvent. unfold bind at 1. unfold get at 1. cbv beta iota.
  erewrite (bind_bind_Ok _ (fun _ => fd_ctx_at fd)) by exact Hloc.
  unfold events_of in Hnew.
  unfold bind, assert, in_krn, zoom, k_epoll_ctl, ret. simpl.
  apply truthy_false_iff in Hnew. rewrite Hnew. simpl.
  rewrite Hscript. simpl.
  apply truthy_true_iff in Hrt. rewrite Hrt.
  eexists. split; [reflexivity |]. simpl.
  split; [| repeat split].
  intros g. unfold fd_context_of. simpl. apply Hview.
Qed.

(** ** Which parts of the state an operation leaves alone *)

Ltac break_match_in H :=
  match type of H with
  | context [match ?x with _ => _ end] =>
      lazymatch x with
      | context [match _ with _ => _ end] => fail
      | _ => destruct x eqn:?
      end
  end.

(** Follow a run recorded in [H] through every branch it may have taken. *)
Ltac crush_run H :=
  repeat (simpl in H; try discriminate H;
          first [ injection H as <- <- | break_match_in H ]).

Lemma fcntl_frame (fd cmd arg : Z) (w : World) (r : Z) (w' : World) :
  fcntl fd cmd arg w = Ok (r, w') ->
  iom w' = iom w /\ scheds w' = scheds w /\ thr w' = thr w
  /\ tmgr w' = tmgr w /\ t_scheduler w' = t_scheduler w
  /\ tinfos (hook w') = tinfos (hook w)
  /\ t_hook_enable (hook w') = t_hook_enable (hook w)
  /\ epoll_ctl_rt (krn w') = epoll_ctl_rt (krn w)
  /\ io_calls (krn w') = io_calls (krn w).
Proof.
  intros H.
  unfold fcntl, FdMgr_get, setUserNonblock, in_krn, zoom, k_fcntl_f,
    bind, get, modify, ret in H.
  crush_run H; simpl; repeat split.
Qed.

Lemma setnonblocking_frame (fd : Z) (w : World) (r : Z) (w' : World) :
  setnonblocking fd w = Ok (r, w') ->
  iom w' = iom w /\ scheds w' = scheds w /\ thr w' = thr w
  /\ tmgr w' = tmgr w /\ t_scheduler w' = t_scheduler w
  /\ tinfos (hook w') = tinfos (hook w)
  /\ t_hook_enable (hook w') = t_hook_enable (hook w)
  /\ epoll_ctl_rt (krn w') = epoll_ctl_rt (krn w)
  /\ io_calls (krn w') = io_calls (krn w).
Proof.
  intros H. unfold setnonblocking in H.
  step_in H. step_in H. ok_inj H.
  apply fcntl_frame in H0. apply fcntl_frame in H1.
  destruct H0 as (? & ? & ? & ? & ? & ? & ? & ? & ?).
  destruct H1 as (? & ? & ? & ? & ? & ? & ? & ? & ?).
  repeat split; congruence.
Qed.

Lemma schedule_frame (p : nat) (t : ScheduleTask) (w : World) (b : bool)
    (w' : World) :
  schedule p t w = Ok (b, w') ->
  iom w' = iom w /\ thr w' = thr w /\ tmgr w' = tmgr w /\ hook w' = hook w
  /\ t_scheduler w' = t_scheduler w
  /\ epoll_ctl_rt (krn w') = epoll_ctl_rt (krn w)
  /\ io_calls (krn w') = io_calls (krn w)
  /\ errno (krn w') = errno (krn w)
  /\ exists s, scheds w !! p = Some s
       /\ scheds w'
          = <[p := mkScheduler (m_stopping s) (m_tasks s ++ [t])
                     (m_activeThreadCount s) (m_idleThreadCount s)]>
              (scheds w).
Proof.
  intros H.
  unfold schedule, tickle, IOManager_tickle, load_sched, in_krn, zoom,
    k_write_pipe, bind, get, modify, ret, deref, undefined in H.
  crush_run H; simpl; repeat split;
    (eexists; split; [reflexivity |]);
    repeat match goal with E : m_tasks _ = _ |- _ => rewrite E; clear E end;
    reflexivity.
Qed.

Lemma fd_ctx_at_inv (fd : Z) (w : World) (c : FdContext) (w' : World) :
  fd_ctx_at fd w = Ok (c, w') ->
  0 <= fd /\ m_fdContexts (iom w) !! Z.to_nat fd = Some c /\ w' = w.
Proof.
  unfold fd_ctx_at, bind, get. simpl.
  destruct (Z.ltb_spec fd 0) as [Hlt | Hge]; [discriminate |].
  intros H. apply deref_Ok in H. destruct H as [H ->].
  split; [exact Hge | split; [exact H | reflexivity]].
Qed.

Lemma getEventContext_inv (c : FdContext) (event : Z) (w : World)
    (x : EventContext) (w' : World) :
  getEventContext c event w = Ok (x, w') ->
  w' = w
  /\ ((event = READ /\ x = read c) \/ (event = WRITE /\ x = write c)).
Proof.
  unfold getEventContext.
  destruct (Z.eqb_spec event READ) as [-> | _].
  - intros H. injection H as <- <-. split; [reflexivity | left; split; reflexivity].
  - destruct (Z.eqb_spec event WRITE) as [-> | _].
    + intros H. injection H as <- <-.
      split; [reflexivity | right; split; reflexivity].
    + discriminate.
Qed.

(** What a successful [triggerEvent] did. *)
Lemma triggerEvent_inv (fd event : Z) (w : World) (u : unit) (w' : World) :
  triggerEvent fd event w = Ok (u, w') ->
  exists c p s,
    0 <= fd
    /\ m_fdContexts (iom w) !! Z.to_nat fd = Some c
    /\ Z.land (events c) event <> 0
    /\ (event = READ \/ event = WRITE)
    /\ iom w'
       = mkIOManager (this (iom w)) (m_tickleFds (iom w))
           (m_pendingEventCount (iom w))
           (<[Z.to_nat fd :=
                resetEventContext event
                  (set_events (Z.land (events c) (Z.lnot event)) c)]>
              (m_fdContexts (iom w)))
    /\ thr w' = thr w /\ tmgr w' = tmgr w /\ hook w' = hook w
    /\ t_scheduler w' = t_scheduler w
    /\ epoll_ctl_rt (krn w') = epoll_ctl_rt (krn w)
    /\ io_calls (krn w') = io_calls (krn w)
    /\ errno (krn w') = errno (krn w)
    /\ scheduler (if event =? READ then read c else write c) = Some p
    /\ scheds w !! p = Some s
    /\ scheds w'
       = <[p := mkScheduler (m_stopping s)
                  (m_tasks s
                   ++ [match cb (if event =? READ then read c else write c)
                       with
                       | Some f => mkTask None (Some f) (-1)
                       | None =>
                           mkTask (fiber (if event =? READ then read c
                                          else write c)) None (-1)
                       end])
                  (m_activeThreadCount s) (m_idleThreadCount s)]>
           (scheds w).
Proof.
  intros H. unfold triggerEvent in H.
  split_run H as c w1 Hc. apply fd_ctx_at_inv in Hc. destruct Hc as (Hfd & Hc & ->).
  split_run H as u1 w2 Hbit. apply assert_Ok in Hbit. destruct Hbit as [Hbit ->].
  split_run H as u2 w3 Hst. unfold store_fd_ctx, modify in Hst.
  injection Hst as _ <-.
  split_run H as x w4 Hev. apply getEventContext_inv in Hev.
  destruct Hev as [-> Hev].
  split_run H as p w5 Hp. apply deref_Ok in Hp. destruct Hp as [Hp ->].
  split_run H as b w6 Hsch.
  unfold store_fd_ctx, modify in H. injection H as _ <-.
  assert (Hslot : x = (if event =? READ then read c else write c)
                  /\ (event = READ \/ event = WRITE)).
  { destruct Hev as [[-> ->] | [-> ->]]; simpl; split; auto. }
  destruct Hslot as [-> Hdir].
  assert (Hsched : exists b', schedule p
            (match cb (if event =? READ then read c else write c) with
             | Some f => mkTask None (Some f) (-1)
             | None => mkTask (fiber (if event =? READ then read c
                                      else write c)) None (-1)
             end)
            (with_iom
               (mkIOManager (this (iom w)) (m_tickleFds (iom w))
                  (m_pendingEventCount (iom w))
                  (<[Z.to_nat fd :=
                       set_events (Z.land (events c) (Z.lnot event)) c]>
                     (m_fdContexts (iom w)))) w) = Ok (b', w6)).
  { destruct (cb (if event =? READ then read c else write c));
      eexists; exact Hsch. }
  destruct Hsched as [b' Hsched]. apply schedule_frame in Hsched.
  destruct Hsched
    as (Hi & Ht & Htm & Hh & Hts & Hk1 & Hk2 & Hk3 & s & Hsp & Hss).
  exists c, p, s. simpl in *.
  split; [exact Hfd |]. split; [exact Hc |].
  split; [apply truthy_true_iff; exact Hbit |].
  split; [exact Hdir |].
  split.
  { rewrite Hi. simpl. rewrite list_insert_insert_eq. reflexivity. }
  repeat (split; [assumption |]). assumption.
Qed.

Lemma k_epoll_ctl_inv (op fd ev : Z) (w : World) (rt : Z) (w' : World) :
  in_krn (k_epoll_ctl op fd ev) w = Ok (rt, w') ->
  iom w' = iom w /\ scheds w' = scheds w /\ thr w' = thr w
  /\ tmgr w' = tmgr w /\ hook w' = hook w /\ t_scheduler w' = t_scheduler w
  /\ io_calls (krn w') = io_calls (krn w)
  /\ errno (krn w') = errno (krn w)
  /\ epoll_ctl_rt (krn w) = rt :: epoll_ctl_rt (krn w')
  /\ epoll_ctl_log (krn w') = epoll_ctl_log (krn w) ++ [(op, fd, ev)].
Proof.
  unfold in_krn, zoom, k_epoll_ctl.
  destruct (epoll_ctl_rt (krn w)) as [| r rest] eqn:E; [discriminate |].
  intros H. injection H as <- <-. simpl. repeat split.
Qed.

Lemma dec_pending_inv (w : World) (u : unit) (w' : World) :
  dec_pending w = Ok (u, w') ->
  w' = with_iom (mkIOManager (this (iom w)) (m_tickleFds (iom w))
                   (wrap64 (m_pendingEventCount (iom w) - 1))
                   (m_fdContexts (iom w))) w.
Proof.
  unfold dec_pending, set_pending, bind, get, modify.
  intros H. injection H as _ H. symmetry. exact H.
Qed.

Lemma inc_pending_inv (w : World) (u : unit) (w' : World) :
  inc_pending w = Ok (u, w') ->
  w' = with_iom (mkIOManager (this (iom w)) (m_tickleFds (iom w))
                   (wrap64 (m_pendingEventCount (iom w) + 1))
                   (m_fdContexts (iom w))) w.
Proof.
  unfold inc_pending, set_pending, bind, get, modify.
  intros H. injection H as _ H. symmetry. exact H.
Qed.

(** What [delEvent] did when it returned [true]. *)
Lemma delEvent_true_inv (fd event : Z) (w w' : World) :
  delEvent fd event w = Ok (true, w') ->
  exists c,
    0 <= fd
    /\ m_fdContexts (iom w) !! Z.to_nat fd = Some c
    /\ Z.land (events c) event <> 0
    /\ (event = READ \/ event = WRITE)
    /\ iom w'
       = mkIOManager (this (iom w)) (m_tickleFds (iom w))
           (wrap64 (m_pendingEventCount (iom w) - 1))
           (<[Z.to_nat fd :=
                resetEventContext event
                  (set_events (Z.land (events c) (Z.lnot event)) c)]>
              (m_fdContexts (iom w)))
    /\ scheds w' = scheds w /\ thr w' = thr w /\ tmgr w' = tmgr w
    /\ hook w' = hook w.
Proof.
  intros H. unfold delEvent in H.
  split_run H as w0 w1 Hg. unfold get in Hg. injection Hg as <- <-.
  destruct (Z.of_nat (length (m_fdContexts (iom w))) <=? fd);
    [discriminate H |].
  split_run H as c w2 Hc. apply fd_ctx_at_inv in Hc.
  destruct Hc as (Hfd & Hc & ->).
  destruct (truthy (Z.land (events c) event)) eqn:Hbit;
    [| discriminate H]. simpl in H.
  split_run H as rt w3 Hk. apply k_epoll_ctl_inv in Hk.
  destruct Hk as (Hi & Hs & Ht & Htm & Hh & _).
  destruct (truthy rt); [discriminate H |].
  split_run H as u1 w4 Hd. apply dec_pending_inv in Hd. subst w4.
  split_run H as u2 w5 Hst. unfold store_fd_ctx, modify in Hst.
  injection Hst as _ <-.
  split_run H as x w6 Hev. apply getEventContext_inv in Hev.
  destruct Hev as [-> Hev].
  split_run H as u3 w7 Hst. unfold store_fd_ctx, modify in Hst.
  injection Hst as _ <-.
  injection H as <-.
  exists c. simpl. rewrite Hi. simpl.
  split; [exact Hfd |]. split; [exact Hc |].
  split; [apply truthy_true_iff; exact Hbit |].
  split; [destruct Hev as [[-> _] | [-> _]]; auto |].
  split; [rewrite list_insert_insert_eq; reflexivity |].
  repeat split; assumption.
Qed.

(** What [cancelEvent] did when it returned [true]. *)
Lemma cancelEvent_true_inv (fd event : Z) (w w' : World) :
  cancelEvent fd event w = Ok (true, w') ->
  exists c p s,
    0 <= fd
    /\ m_fdContexts (iom w) !! Z.to_nat fd = Some c
    /\ Z.land (events c) event <> 0
    /\ (event = READ \/ event = WRITE)
    /\ iom w'
       = mkIOManager (this (iom w)) (m_tickleFds (iom w))
           (wrap64 (m_pendingEventCount (iom w) - 1))
           (<[Z.to_nat fd :=
                resetEventContext event
                  (set_events (Z.land (events c) (Z.lnot event)) c)]>
              (m_fdContexts (iom w)))
    /\ thr w' = thr w /\ tmgr w' = tmgr w /\ hook w' = hook w
    /\ scheduler (if event =? READ then read c else write c) = Some p
    /\ scheds w !! p = Some s
    /\ scheds w'
       = <[p := mkScheduler (m_stopping s)
                  (m_tasks s
                   ++ [match cb (if event =? READ then read c else write c)
                       with
                       | Some f => mkTask None (Some f) (-1)
                       | None =>
                           mkTask (fiber (if event =? READ then read c
                                          else write c)) None (-1)
                       end])
                  (m_activeThreadCount s) (m_idleThreadCount s)]>
           (scheds w).
Proof.
  intros H. unfold cancelEvent in H.
  split_run H as w0 w1 Hg. unfold get in Hg. injection Hg as <- <-.
  destruct (Z.of_nat (length (m_fdContexts (iom w))) <=? fd);
    [discriminate H |].
  split_run H as c w2 Hc. apply fd_ctx_at_inv in Hc.
  destruct Hc as (Hfd & Hc & ->).
  destruct (truthy (Z.land (events c) event)) eqn:Hbit;
    [| discriminate H]. simpl in H.
  split_run H as rt w3 Hk. apply k_epoll_ctl_inv in Hk.
  destruct Hk as (Hi & Hs & Ht & Htm & Hh & _).
  destruct (truthy rt); [discriminate H |].
  split_run H as u1 w4 Htr. apply triggerEvent_inv in Htr.
  destruct Htr as (c' & p & s & _ & Hc' & _ & Hdir & Hi4 & Ht4 & Htm4 & Hh4
                   & _ & _ & _ & _ & Hp & Hsp & Hs4).
  rewrite Hi in Hc'. rewrite Hc in Hc'. injection Hc' as <-.
  split_run H as u2 w5 Hd. apply dec_pending_inv in Hd. subst w5.
  injection H as <-.
  exists c, p, s. simpl. rewrite Hi4, Hi. simpl.
  split; [exact Hfd |]. split; [exact Hc |].
  split; [apply truthy_true_iff; exact Hbit |].
  split; [exact Hdir |]. split; [reflexivity |].
  split; [congruence |]. split; [congruence |]. split; [congruence |].
  split; [exact Hp |]. split; [congruence |]. congruence.
Qed.

Lemma world_eta_iom (w : World) :
  with_iom (mkIOManager (this (iom w)) (m_tickleFds (iom w))
              (m_pendingEventCount (iom w)) (m_fdContexts (iom w))) w = w.
Proof. destruct w as [? ? ? ? [? ? ? ?] ? ?]. reflexivity. Qed.

(** What the first steps of a successful [addEvent] found. *)
Lemma addEvent_locate_inv (w : World) (fd : Z) (u : unit) (wa : World)
    (c : FdContext) (wb : World) :
  (if Z.of_nat (length (m_fdContexts (iom w))) >? fd then ret tt
   else contextResize (3 * fd / 2)) w = Ok (u, wa) ->
  fd_ctx_at fd wa = Ok (c, wb) ->
  0 <= fd
  /\ c = fd_context_of w fd
  /\ exists l,
       wb = with_iom (mkIOManager (this (iom w)) (m_tickleFds (iom w))
                        (m_pendingEventCount (iom w)) l) w
       /\ l !! Z.to_nat fd = Some c
       /\ (forall g : nat, default (newFdContext g) (l !! g)
             = default (newFdContext g) (m_fdContexts (iom w) !! g))
       /\ (l = m_fdContexts (iom w)
           \/ (l = resized (Z.to_nat (3 * fd / 2)) (m_fdContexts (iom w))
               /\ (length (m_fdContexts (iom w))
                   <= Z.to_nat (3 * fd / 2))%nat)).
Proof.
  intros Hif Hat. apply fd_ctx_at_inv in Hat. destruct Hat as (Hfd & Hc & ->).
  split; [exact Hfd |]. unfold fd_context_of.
  destruct (Z.gtb_spec (Z.of_nat (length (m_fdContexts (iom w)))) fd)
    as [Hin | Hout].
  - injection Hif as _ <-. rewrite Hc. split; [reflexivity |].
    exists (m_fdContexts (iom w)).
    split; [symmetry; apply world_eta_iom |]. split; [exact Hc |].
    split; [reflexivity | left; reflexivity].
  - unfold contextResize, modify in Hif. injection Hif as _ <-. simpl in Hc.
    assert (Hle : (length (m_fdContexts (iom w))
                   <= Z.to_nat (3 * fd / 2))%nat).
    { assert (fd <= 3 * fd / 2) by (apply Z.div_le_lower_bound; lia). lia. }
    pose proof (resized_view (Z.to_nat (3 * fd / 2)) (m_fdContexts (iom w))
                  (Z.to_nat fd) Hle) as Hv.
    rewrite Hc in Hv. simpl in Hv. split; [exact Hv |].
    exists (resized (Z.to_nat (3 * fd / 2)) (m_fdContexts (iom w))).
    split; [reflexivity |]. split; [exact Hc |].
    split; [intros g; apply resized_view; exact Hle |].
    right. split; [reflexivity | exact Hle].
Qed.

Lemma GetThis_frame (w : World) (cur : nat) (w' : World) :
  in_thr Fiber.GetThis w = Ok (cur, w') ->
  iom w' = iom w /\ scheds w' = scheds w /\ tmgr w' = tmgr w
  /\ hook w' = hook w /\ krn w' = krn w /\ t_scheduler w' = t_scheduler w
  /\ Fiber.switches (thr w') = Fiber.switches (thr w)
  /\ Fiber.t_fiber (thr w') = Some cur.
Proof.
  unfold in_thr, zoom, Fiber.GetThis, bind, get, put, ret.
  destruct (Fiber.t_fiber (thr w)) as [p |] eqn:E; simpl;
    intros H; injection H as <- <-; simpl; repeat split; assumption.
Qed.

Lemma getState_frame (cur : nat) (w : World) (st : Fiber.State) (w' : World) :
  in_thr (Fiber.getState cur) w = Ok (st, w') ->
  iom w' = iom w /\ scheds w' = scheds w /\ tmgr w' = tmgr w
  /\ hook w' = hook w /\ krn w' = krn w /\ t_scheduler w' = t_scheduler w
  /\ thr w' = thr w.
Proof.
  unfold in_thr, zoom, Fiber.getState, Fiber.load, bind, get, ret, deref.
  simpl. destruct (Fiber.fibers (thr w) !! cur) as [f |]; simpl;
    [| discriminate].
  intros H. injection H as _ <-. simpl. repeat split.
Qed.

(** What [addEvent] did when it returned 0. *)
Lemma addEvent_zero_inv (fd event : Z) (callback : option Callback)
    (w w' : World) :
  addEvent fd event callback w = Ok (0, w') ->
  exists l x,
    0 <= fd
    /\ l !! Z.to_nat fd = Some (fd_context_of w fd)
    /\ (forall g : nat, default (newFdContext g) (l !! g)
          = default (newFdContext g) (m_fdContexts (iom w) !! g))
    /\ Z.land (events_of w fd) event = 0
    /\ (event = READ \/ event = WRITE)
    /\ (if event =? READ then read (fd_context_of w fd)
        else write (fd_context_of w fd)) = emptyEventContext
    /\ scheduler x = t_scheduler w
    /\ cb x = callback
    /\ iom w'
       = mkIOManager (this (iom w)) (m_tickleFds (iom w))
           (wrap64 (m_pendingEventCount (iom w) + 1))
           (<[Z.to_nat fd :=
                setEventContext event x
                  (set_events (Z.lor (events_of w fd) event)
                     (fd_context_of w fd))]> l)
    /\ scheds w' = scheds w /\ tmgr w' = tmgr w
    /\ tinfos (hook w') = tinfos (hook w)
    /\ Fiber.switches (thr w') = Fiber.switches (thr w)
    /\ (l = m_fdContexts (iom w)
        \/ (l = resized (Z.to_nat (3 * fd / 2)) (m_fdContexts (iom w))
            /\ (length (m_fdContexts (iom w))
                <= Z.to_nat (3 * fd / 2))%nat)).
Proof.
  intros H. unfold addEvent in H.
  split_run H as w0 w1 Hg. unfold get in Hg. injection Hg as <- <-.
  split_run H as u1 wa Hif.
  split_run H as c wb Hat.
  destruct (addEvent_locate_inv w fd u1 wa c wb Hif Hat)
    as (Hfd & -> & l & -> & Hl & Hview & Hgrown).
  split_run H as u2 w2 Hbit. apply assert_Ok in Hbit.
  destruct Hbit as [Hbit ->].
  apply negb_true_iff, truthy_false_iff in Hbit.
  split_run H as rt w3 Hk. apply k_epoll_ctl_inv in Hk.
  destruct Hk as (Hi3 & Hs3 & Ht3 & Htm3 & Hh3 & Hts3 & _).
  destruct (truthy rt); [discriminate H |].
  split_run H as r4 w4 Hnb. apply setnonblocking_frame in Hnb.
  destruct Hnb as (Hi4 & Hs4 & Ht4 & Htm4 & Hts4 & Hti4 & _).
  split_run H as u5 w5 Hinc. apply inc_pending_inv in Hinc. subst w5.
  split_run H as u6 w6 Hst. unfold store_fd_ctx, modify in Hst.
  injection Hst as _ <-.
  split_run H as x0 w7 Hev. apply getEventContext_inv in Hev.
  destruct Hev as [-> Hev].
  split_run H as u8 w8 Hempty. apply assert_Ok in Hempty.
  destruct Hempty as [Hempty ->].
  split_run H as sch w9 Hsch. unfold Scheduler_GetThis, bind, get, ret in Hsch.
  injection Hsch as <- <-.
  assert (Hdir : event = READ \/ event = WRITE)
    by (destruct Hev as [[-> _] | [-> _]]; auto).
  assert (Hx0 : (if event =? READ then read (fd_context_of w fd)
                 else write (fd_context_of w fd)) = emptyEventContext).
  { destruct Hev as [[-> ->] | [-> ->]]; simpl in *;
      match goal with
      | |- ?e = _ => destruct e as [[?|] [?|] [?|]]; try discriminate Hempty
      end; reflexivity. }
  simpl in *. rewrite Hi4, Hi3 in *. simpl in *.
  destruct callback as [f |].
  - split_run H as u10 w10 Hst. unfold store_fd_ctx, modify in Hst.
    injection Hst as _ <-. injection H as <-.
    exists l, (mkEventContext (t_scheduler w) None (Some f)). simpl.
    rewrite ?Hts4, ?Hts3. unfold events_of.
    split; [exact Hfd |]. split; [exact Hl |]. split; [exact Hview |].
    split; [exact Hbit |]. split; [exact Hdir |]. split; [exact Hx0 |].
    split; [congruence |]. split; [reflexivity |].
    split; [rewrite list_insert_insert_eq; reflexivity |].
    split; [congruence |]. split; [congruence |]. split; [congruence |].
    split; [congruence | exact Hgrown].
  - split_run H as cur w10 Hcur. apply GetThis_frame in Hcur.
    destruct Hcur as (Hi10 & Hs10 & Htm10 & Hh10 & Hk10 & Hts10 & Hsw10 & _).
    simpl in *.
    split_run H as u11 w11 Hst. unfold store_fd_ctx, modify in Hst.
    injection Hst as _ <-.
    split_run H as st w12 Hgs. apply getState_frame in Hgs.
    destruct Hgs as (Hi12 & Hs12 & Htm12 & Hh12 & Hk12 & Hts12 & Ht12).
    simpl in *.
    split_run H as u13 w13 Has. apply assert_Ok in Has.
    destruct Has as [_ ->]. injection H as <-.
    exists l, (mkEventContext (t_scheduler w) (Some cur) None). simpl.
    rewrite ?Hi12, ?Hi10. simpl. rewrite ?Hts10, ?Hts4, ?Hts3.
    unfold events_of.
    split; [exact Hfd |]. split; [exact Hl |]. split; [exact Hview |].
    split; [exact Hbit |]. split; [exact Hdir |]. split; [exact Hx0 |].
    split; [congruence |]. split; [reflexivity |].
    split; [rewrite list_insert_insert_eq; reflexivity |].
    split; [congruence |]. split; [congruence |]. split; [congruence |].
    split; [congruence | exact Hgrown].
Qed.

(** ** Masks and the pending-event count *)

Lemma truthy_land_READ (e : Z) : truthy (Z.land e READ) = Z.testbit e 0.
Proof. change READ with (2 ^ 0). apply truthy_land_pow2. lia. Qed.

Lemma truthy_land_WRITE (e : Z) : truthy (Z.land e WRITE) = Z.testbit e 2.
Proof. change WRITE with (2 ^ 2). apply truthy_land_pow2. lia. Qed.

Lemma testbit_READ (n : Z) : 0 <= n -> Z.testbit READ n = (0 =? n).
Proof. intros Hn. change READ with (2 ^ 0). apply Z.pow2_bits_eqb. lia. Qed.

Lemma testbit_WRITE (n : Z) : 0 <= n -> Z.testbit WRITE n = (2 =? n).
Proof. intros Hn. change WRITE with (2 ^ 2). apply Z.pow2_bits_eqb. lia. Qed.

Lemma wrap64_small (z : Z) : 0 <= z < 2 ^ 64 -> wrap64 z = z.
Proof. intros H. unfold wrap64. apply Z.mod_small. exact H. Qed.

Lemma ndirs_range (mask : Z) : 0 <= ndirs mask <= 2.
Proof.
  unfold ndirs. destruct (Z.testbit mask 0), (Z.testbit mask 2); lia.
Qed.

(** Rewrite the READ and WRITE bits of a mask built with the bit
    operations into the bits of its parts. *)
Ltac mask_bits :=
  repeat first
    [ rewrite Z.land_spec | rewrite Z.lor_spec | rewrite Z.lnot_spec by lia
    | rewrite testbit_READ by lia | rewrite testbit_WRITE by lia
    | rewrite Z.bits_0 ].

(** Name the READ and WRITE bits of [e] and forget where they came from. *)
Ltac name_bits e :=
  let r := fresh "rbit" in
  let w := fresh "wbit" in
  set (r := Z.testbit e 0) in *; set (w := Z.testbit e 2) in *;
  clearbody r w.

Lemma fd_context_of_lookup (w : World) (fd : Z) (c : FdContext) :
  m_fdContexts (iom w) !! Z.to_nat fd = Some c -> fd_context_of w fd = c.
Proof. intros H. unfold fd_context_of. rewrite H. reflexivity. Qed.

Lemma fd_context_of_insert (w w' : World) (fd : Z) (c c' : FdContext)
    (l : list FdContext) (t : nat) (fds : Z * Z) (p : Z) :
  l !! Z.to_nat fd = Some c ->
  iom w' = mkIOManager t fds p (<[Z.to_nat fd := c']> l) ->
  fd_context_of w' fd = c' /\ pending w' = p.
Proof.
  intros Hl Hi. unfold fd_context_of, pending. rewrite Hi. simpl.
  rewrite list_lookup_insert_eq by (eapply lookup_lt_Some; eauto).
  split; reflexivity.
Qed.

Lemma events_setEventContext (event : Z) (x : EventContext) (c : FdContext) :
  events (setEventContext event x c) = events c.
Proof.
  unfold setEventContext.
  destruct (event =? READ); [reflexivity |].
  destruct (event =? WRITE); reflexivity.
Qed.

(** One firing: [triggerEvent] followed by the decrement. *)
Lemma fire_step (fd D : Z) (w : World) (u : unit) (w' : World) :
  (triggerEvent fd D ;;; dec_pending) w = Ok (u, w') ->
  0 <= fd
  /\ Z.land (events_of w fd) D <> 0
  /\ (D = READ \/ D = WRITE)
  /\ events_of w' fd = Z.land (events_of w fd) (Z.lnot D)
  /\ pending w' = wrap64 (pending w - 1)
  /\ hook w' = hook w /\ thr w' = thr w /\ tmgr w' = tmgr w
  /\ epoll_ctl_rt (krn w') = epoll_ctl_rt (krn w).
Proof.
  intros H. split_run H as u1 w1 Htr. apply triggerEvent_inv in Htr.
  destruct Htr as (c & p & s & Hfd & Hc & Hbit & Hdir & Hi & Ht & Htm & Hh
                   & _ & Hk & _).
  apply dec_pending_inv in H. subst w'.
  pose proof (fd_context_of_lookup w fd c Hc) as Hview.
  unfold events_of. rewrite Hview.
  split; [exact Hfd |]. split; [exact Hbit |]. split; [exact Hdir |].
  assert (Hi' : iom (with_iom
                  (mkIOManager (this (iom w1)) (m_tickleFds (iom w1))
                     (wrap64 (m_pendingEventCount (iom w1) - 1))
                     (m_fdContexts (iom w1))) w1)
                = mkIOManager (this (iom w)) (m_tickleFds (iom w))
                    (wrap64 (m_pendingEventCount (iom w) - 1))
                    (<[Z.to_nat fd :=
                         resetEventContext D
                           (set_events (Z.land (events c) (Z.lnot D)) c)]>
                       (m_fdContexts (iom w)))).
  { simpl. rewrite Hi. reflexivity. }
  destruct (fd_context_of_insert w _ fd c _ _ _ _ _ Hc Hi') as [Hv' Hp'].
  rewrite Hv', Hp'. unfold resetEventContext.
  rewrite events_setEventContext. simpl.
  repeat split; assumption.
Qed.

Lemma fire_if_obs (b : bool) (fd D : Z) (w : World) (u : unit) (w' : World) :
  (if b then triggerEvent fd D ;;; dec_pending else ret tt) w = Ok (u, w') ->
  (b = true -> Z.land (events_of w fd) D <> 0)
  /\ events_of w' fd
     = (if b then Z.land (events_of w fd) (Z.lnot D) else events_of w fd)
  /\ pending w' = (if b then wrap64 (pending w - 1) else pending w)
  /\ hook w' = hook w /\ thr w' = thr w /\ tmgr w' = tmgr w
  /\ epoll_ctl_rt (krn w') = epoll_ctl_rt (krn w).
Proof.
  destruct b; intros H.
  - apply fire_step in H.
    destruct H as (_ & Hbit & _ & He & Hp & Hh & Ht & Htm & Hk).
    split; [intros _; exact Hbit |]. repeat split; assumption.
  - injection H as _ <-. split; [discriminate |]. repeat split.
Qed.

(** The count after the READ and the WRITE firing, in terms of the
    directions that were cleared. *)
Lemma two_fires_count (e p : Z) (b1 b2 : bool) :
  0 <= p < 2 ^ 64 -> ndirs e <= p ->
  (b1 = true -> Z.testbit e 0 = true) ->
  (b2 = true -> Z.testbit e 2 = true) ->
  (if b2 then wrap64 ((if b1 then wrap64 (p - 1) else p) - 1)
   else (if b1 then wrap64 (p - 1) else p))
  = p - ndirs (Z.land e
                 (Z.lnot (if b2
                          then Z.land (if b1 then Z.land e (Z.lnot READ)
                                       else e) (Z.lnot WRITE)
                          else (if b1 then Z.land e (Z.lnot READ) else e)))).
Proof.
  intros Hp He H1 H2. unfold ndirs in *.
  destruct b1, b2; mask_bits; name_bits e;
    try specialize (H1 eq_refl); try specialize (H2 eq_refl); subst;
    repeat match goal with x : bool |- _ => destruct x end;
    simpl in *;
    try (rewrite (wrap64_small (p - 1)) by lia);
    try (rewrite (wrap64_small (p - 1 - 1)) by lia);
    lia.
Qed.

(** What [cancelAll] did when it returned [true]. *)
Lemma cancelAll_true_obs (fd : Z) (w w' : World) :
  cancelAll fd w = Ok (true, w') ->
  0 <= fd
  /\ events_of w fd <> 0
  /\ events_of w' fd = 0
  /\ (0 <= pending w < 2 ^ 64 -> ndirs (events_of w fd) <= pending w ->
      pending w' = pending w - ndirs (cleared w w' fd))
  /\ hook w' = hook w /\ thr w' = thr w /\ tmgr w' = tmgr w.
Proof.
  intros H. unfold cancelAll in H.
  split_run H as w0 w1 Hg. unfold get in Hg. injection Hg as <- <-.
  destruct (Z.of_nat (length (m_fdContexts (iom w))) <=? fd);
    [discriminate H |].
  split_run H as c w2 Hc. apply fd_ctx_at_inv in Hc.
  destruct Hc as (Hfd & Hc & ->).
  destruct (truthy (events c)) eqn:Hany; [| discriminate H]. simpl in H.
  split_run H as rt w3 Hk. apply k_epoll_ctl_inv in Hk.
  destruct Hk as (Hi3 & Hs3 & Ht3 & Htm3 & Hh3 & _).
  destruct (truthy rt); [discriminate H |].
  assert (He3 : events_of w3 fd = events_of w fd)
    by (unfold events_of, fd_context_of; rewrite Hi3; reflexivity).
  assert (Hp3 : pending w3 = pending w)
    by (unfold pending; rewrite Hi3; reflexivity).
  split_run H as u4 w4 HR.
  split_run HR as c4 w4' Hc4. apply fd_ctx_at_inv in Hc4.
  destruct Hc4 as (_ & Hc4 & ->).
  apply fd_context_of_lookup in Hc4.
  apply fire_if_obs in HR.
  destruct HR as (HbR & HeR & HpR & HhR & HtR & HtmR & _).
  split_run H as u5 w5 HW.
  split_run HW as c5 w5' Hc5. apply fd_ctx_at_inv in Hc5.
  destruct Hc5 as (_ & Hc5 & ->).
  apply fd_context_of_lookup in Hc5.
  apply fire_if_obs in HW.
  destruct HW as (HbW & HeW & HpW & HhW & HtW & HtmW & _).
  split_run H as c6 w6 Hc6. apply fd_ctx_at_inv in Hc6.
  destruct Hc6 as (_ & Hc6 & ->).
  apply fd_context_of_lookup in Hc6.
  split_run H as u7 w7 Hz. apply assert_Ok in Hz. destruct Hz as [Hz ->].
  injection H as <-.
  apply Z.eqb_eq in Hz.
  pose proof (fd_context_of_lookup w fd c Hc) as Hv.
  assert (Hfinal : events_of w5 fd = 0)
    by (unfold events_of; rewrite Hc6; exact Hz).
  split; [exact Hfd |].
  split; [unfold events_of; rewrite Hv; apply truthy_true_iff; exact Hany |].
  split; [exact Hfinal |].
  split; [| repeat split; congruence].
  intros Hrange Hcover.
  unfold cleared. rewrite HpW, HpR, Hp3.
  assert (Hc4e : events c4 = events_of w fd)
    by (rewrite <- Hc4; fold (events_of w3 fd); exact He3).
  assert (Hc5e : events c5 = events_of w4 fd)
    by (rewrite <- Hc5; reflexivity).
  rewrite Hc5e, HeR, He3, Hc4e in *.
  rewrite HeW.
  rewrite truthy_land_READ in *.
  rewrite truthy_land_WRITE in *.
  apply two_fires_count; try assumption.
  - intros Hb. exact Hb.
  - intros Hb. destruct (Z.testbit (events_of w fd) 0);
      revert Hb; mask_bits; rewrite ?andb_true_r; auto.
Qed.

Lemma ndirs_nothing_cleared (e : Z) : ndirs (Z.land e (Z.lnot e)) = 0.
Proof.
  unfold ndirs. mask_bits. name_bits e. destruct rbit, wbit; reflexivity.
Qed.

(** What the reactor did for one ready descriptor other than the pipe. *)
Lemma idle_handle_event_obs (event : epoll_event) (ptr : nat) (w : World)
    (u : unit) (w' : World) :
  ev_data event = inr ptr ->
  idle_handle_event event w = Ok (u, w') ->
  (0 <= pending w < 2 ^ 64 ->
   ndirs (events_of w (Z.of_nat ptr)) <= pending w ->
   pending w' = pending w - ndirs (cleared w w' (Z.of_nat ptr)))
  /\ hook w' = hook w /\ thr w' = thr w /\ tmgr w' = tmgr w.
Proof.
  intros Hdata H. unfold idle_handle_event in H.
  split_run H as w0 w1 Hg. unfold get in Hg. injection Hg as <- <-.
  rewrite Hdata in H.
  split_run H as c w2 Hc. apply deref_Ok in Hc. destruct Hc as [Hc ->].
  assert (Hv : fd_context_of w (Z.of_nat ptr) = c).
  { apply fd_context_of_lookup. rewrite Nat2Z.id. exact Hc. }
  match type of H with
  | context [Z.land (events c) ?r =? NONE] => set (real := r) in *
  end.
  destruct (Z.land (events c) real =? NONE).
  { injection H as _ <-. split; [| repeat split].
    intros _ _. unfold cleared. rewrite ndirs_nothing_cleared. lia. }
  split_run H as rt2 w3 Hk. apply k_epoll_ctl_inv in Hk.
  destruct Hk as (Hi3 & Hs3 & Ht3 & Htm3 & Hh3 & _).
  assert (He3 : events_of w3 (Z.of_nat ptr) = events_of w (Z.of_nat ptr))
    by (unfold events_of, fd_context_of; rewrite Hi3; reflexivity).
  assert (Hp3 : pending w3 = pending w)
    by (unfold pending; rewrite Hi3; reflexivity).
  destruct (truthy rt2).
  { injection H as _ <-. split; [| repeat split; assumption].
    intros _ _. unfold cleared. rewrite He3, Hp3, ndirs_nothing_cleared. lia. }
  split_run H as u4 w4 HR.
  apply fire_if_obs in HR.
  destruct HR as (HbR & HeR & HpR & HhR & HtR & HtmR & _).
  apply fire_if_obs in H.
  destruct H as (HbW & HeW & HpW & HhW & HtW & HtmW & _).
  split; [| repeat split; congruence].
  intros Hrange Hcover.
  unfold cleared. rewrite HpW, HpR, Hp3, HeW, HeR, He3.
  apply two_fires_count; try assumption.
  - intros Hb. specialize (HbR Hb). rewrite He3 in HbR.
    rewrite <- truthy_land_READ. apply truthy_true_iff. exact HbR.
  - intros Hb. specialize (HbW Hb). rewrite HeR, He3 in HbW.
    apply truthy_true_iff in HbW. rewrite truthy_land_WRITE in HbW.
    destruct (truthy (Z.land real READ)); [| exact HbW].
    revert HbW. mask_bits. rewrite andb_true_r. auto.
Qed.

Lemma single_direction_cleared (e d : Z) :
  d = READ \/ d = WRITE -> Z.land e d <> 0 ->
  ndirs (Z.land e (Z.lnot (Z.land e (Z.lnot d)))) = 1.
Proof.
  intros Hd Hbit. apply truthy_true_iff in Hbit. unfold ndirs.
  destruct Hd as [-> | ->].
  - rewrite truthy_land_READ in Hbit. mask_bits. rewrite Hbit.
    destruct (Z.testbit e 2); reflexivity.
  - rewrite truthy_land_WRITE in Hbit. mask_bits. rewrite Hbit.
    destruct (Z.testbit e 0); reflexivity.
Qed.

(** The mask and the count after a successful [delEvent] *)
Lemma delEvent_true_obs (fd d : Z) (w w' : World) :
  delEvent fd d w = Ok (true, w') ->
  (d = READ \/ d = WRITE)
  /\ Z.land (events_of w fd) d <> 0
  /\ events_of w' fd = Z.land (events_of w fd) (Z.lnot d)
  /\ pending w' = wrap64 (pending w - 1)
  /\ fd_context_of w' fd
     = resetEventContext d
         (set_events (Z.land (events_of w fd) (Z.lnot d))
            (fd_context_of w fd))
  /\ scheds w' = scheds w /\ thr w' = thr w /\ tmgr w' = tmgr w
  /\ hook w' = hook w.
Proof.
  intros H. apply delEvent_true_inv in H.
  destruct H as (c & Hfd & Hc & Hbit & Hdir & Hi & Hs & Ht & Htm & Hh).
  pose proof (fd_context_of_lookup w fd c Hc) as Hv.
  destruct (fd_context_of_insert w w' fd c _ _ _ _ _ Hc Hi) as [Hv' Hp'].
  unfold events_of. rewrite Hv, Hv', Hp'. unfold resetEventContext.
  rewrite events_setEventContext. simpl.
  split; [exact Hdir |]. split; [exact Hbit |].
  repeat split; assumption.
Qed.

(** The mask and the count after a successful [cancelEvent] *)
Lemma cancelEvent_true_obs (fd d : Z) (w w' : World) :
  cancelEvent fd d w = Ok (true, w') ->
  (d = READ \/ d = WRITE)
  /\ Z.land (events_of w fd) d <> 0
  /\ events_of w' fd = Z.land (events_of w fd) (Z.lnot d)
  /\ pending w' = wrap64 (pending w - 1)
  /\ thr w' = thr w /\ tmgr w' = tmgr w /\ hook w' = hook w.
Proof.
  intros H. apply cancelEvent_true_inv in H.
  destruct H as (c & p & s & Hfd & Hc & Hbit & Hdir & Hi & Ht & Htm & Hh & _).
  pose proof (fd_context_of_lookup w fd c Hc) as Hv.
  destruct (fd_context_of_insert w w' fd c _ _ _ _ _ Hc Hi) as [Hv' Hp'].
  unfold events_of. rewrite Hv, Hv', Hp'. unfold resetEventContext.
  rewrite events_setEventContext. simpl.
  split; [exact Hdir |]. split; [exact Hbit |].
  repeat split; assumption.
Qed.

(** The mask and the count after a successful [addEvent] *)
Lemma addEvent_zero_obs (fd d : Z) (callback : option Callback)
    (w w' : World) :
  addEvent fd d callback w = Ok (0, w') ->
  (d = READ \/ d = WRITE)
  /\ Z.land (events_of w fd) d = 0
  /\ events_of w' fd = Z.lor (events_of w fd) d
  /\ pending w' = wrap64 (pending w + 1)
  /\ scheds w' = scheds w /\ tmgr w' = tmgr w
  /\ Fiber.switches (thr w') = Fiber.switches (thr w).
Proof.
  intros H. apply addEvent_zero_inv in H.
  destruct H as (l & x & Hfd & Hl & Hview & Hbit & Hdir & Hempty & Hx & Hcb
                 & Hi & Hs & Htm & Hti & Hsw & _).
  assert (Hi0 : iom w'
                = mkIOManager (this (iom w)) (m_tickleFds (iom w))
                    (wrap64 (m_pendingEventCount (iom w) + 1))
                    (<[Z.to_nat fd :=
                         setEventContext d x
                           (set_events (Z.lor (events_of w fd) d)
                              (fd_context_of w fd))]> l)) by exact Hi.
  destruct (fd_context_of_insert w w' fd _ _ _ _ _ _ Hl Hi0) as [Hv' Hp'].
  unfold events_of at 2. rewrite Hv', Hp', events_setEventContext. simpl.
  repeat split; assumption.
Qed.

(** ** The count is the number of registered directions *)

Lemma registered_total_bounds (l : list FdContext) :
  0 <= registered_total l <= 2 * Z.of_nat (length l).
Proof.
  induction l as [| c r IH]; simpl; [lia |].
  pose proof (ndirs_range (events c)). lia.
Qed.

Lemma registered_total_lookup (l : list FdContext) (i : nat) (c : FdContext) :
  l !! i = Some c -> ndirs (events c) <= registered_total l.
Proof.
  revert i. induction l as [| x r IH]; intros i H; [discriminate H |].
  pose proof (registered_total_bounds r). pose proof (ndirs_range (events x)).
  destruct i as [| i]; simpl in *.
  - injection H as ->. lia.
  - specialize (IH i H). lia.
Qed.

Lemma registered_total_insert (l : list FdContext) (i : nat)
    (c c' : FdContext) :
  l !! i = Some c ->
  registered_total (<[i := c']> l)
  = registered_total l - ndirs (events c) + ndirs (events c').
Proof.
  revert i. induction l as [| x r IH]; intros i H; [discriminate H |].
  destruct i as [| i]; simpl in *.
  - injection H as ->. lia.
  - rewrite (IH i H). lia.
Qed.

Lemma registered_total_app (l r : list FdContext) :
  registered_total (l ++ r) = registered_total l + registered_total r.
Proof. induction l as [| x l IH]; simpl; [reflexivity | rewrite IH; lia]. Qed.

Lemma registered_total_fresh (start n : nat) :
  registered_total (newFdContext <$> seq start n) = 0.
Proof.
  revert start. induction n as [| n IH]; intros start; simpl;
    [reflexivity | rewrite IH; reflexivity].
Qed.

Lemma registered_total_resized (size : nat) (l : list FdContext) :
  (length l <= size)%nat ->
  registered_total (resized size l) = registered_total l.
Proof.
  intros H. unfold resized. rewrite take_ge by exact H.
  rewrite registered_total_app, registered_total_fresh. lia.
Qed.

(** The relation gives what the statement on the count assumes. *)
Lemma pending_inv_range (w : World) (fd : Z) :
  pending_inv w -> ndirs (events_of w fd) <= pending w < 2 ^ 64 - 1.
Proof.
  intros [Hp Hlen]. rewrite Hp.
  pose proof (registered_total_bounds (m_fdContexts (iom w))) as Hb.
  split; [| lia].
  unfold events_of, fd_context_of.
  destruct (m_fdContexts (iom w) !! Z.to_nat fd) as [c |] eqn:E; simpl.
  - eapply registered_total_lookup. exact E.
  - change (ndirs NONE) with 0. lia.
Qed.

Lemma ndirs_remove (e d : Z) :
  d = READ \/ d = WRITE -> Z.land e d <> 0 ->
  ndirs (Z.land e (Z.lnot d)) = ndirs e - 1.
Proof.
  intros Hd Hbit. apply truthy_true_iff in Hbit. unfold ndirs.
  destruct Hd as [-> | ->].
  - rewrite truthy_land_READ in Hbit. mask_bits. rewrite Hbit.
    destruct (Z.testbit e 2); reflexivity.
  - rewrite truthy_land_WRITE in Hbit. mask_bits. rewrite Hbit.
    destruct (Z.testbit e 0); reflexivity.
Qed.

Lemma ndirs_add (e d : Z) :
  d = READ \/ d = WRITE -> Z.land e d = 0 ->
  ndirs (Z.lor e d) = ndirs e + 1.
Proof.
  intros Hd Hbit. apply truthy_false_iff in Hbit. unfold ndirs.
  destruct Hd as [-> | ->].
  - rewrite truthy_land_READ in Hbit. mask_bits. rewrite Hbit.
    destruct (Z.testbit e 2); reflexivity.
  - rewrite truthy_land_WRITE in Hbit. mask_bits. rewrite Hbit.
    destruct (Z.testbit e 0); reflexivity.
Qed.

(** The relation holds when the I/O manager is constructed and is kept by
    the registration and by the two ways of taking it back. *)
Lemma pending_inv_initial (t : nat) (fds : Z * Z) (w : World) :
  iom w = mkIOManager t fds 0 (resized 32 []) -> pending_inv w.
Proof.
  intros H. unfold pending_inv, pending. rewrite H. simpl.
  split; [reflexivity | lia].
Qed.

Lemma pending_inv_addEvent (fd d : Z) (callback : option Callback)
    (w w' : World) :
  fd < 2 ^ 31 -> pending_inv w ->
  addEvent fd d callback w = Ok (0, w') -> pending_inv w'.
Proof.
  intros Hint Hinv H.
  pose proof (pending_inv_range w fd Hinv) as Hrange.
  destruct Hinv as [Hp Hlen].
  apply addEvent_zero_inv in H.
  destruct H as (l & x & Hfd & Hl & _ & Hbit & Hdir & _ & _ & _ & Hi & _ & _
                 & _ & _ & Hgrown).
  unfold pending_inv, pending. rewrite Hi. simpl.
  rewrite length_insert.
  rewrite (registered_total_insert _ _ _ _ Hl), events_setEventContext.
  simpl. fold (events_of w fd). rewrite (ndirs_add _ _ Hdir Hbit).
  assert (Hl' : registered_total l = registered_total (m_fdContexts (iom w))
                /\ Z.of_nat (length l) < 2 ^ 62).
  { destruct Hgrown as [-> | [-> Hle]]; [split; [reflexivity | exact Hlen] |].
    split; [apply registered_total_resized; exact Hle |].
    unfold resized. rewrite take_ge by exact Hle.
    rewrite length_app, length_fmap, length_seq.
    assert (3 * fd / 2 < 2 ^ 33)
      by (apply Z.div_lt_upper_bound; lia).
    lia. }
  destruct Hl' as [Hl1 Hl2].
  rewrite Hl1. unfold pending, events_of in *. rewrite <- Hp.
  pose proof (ndirs_range (events (fd_context_of w fd))) as Hn.
  split; [rewrite wrap64_small by lia; lia | exact Hl2].
Qed.

Lemma pending_inv_delEvent (fd d : Z) (w w' : World) :
  pending_inv w -> delEvent fd d w = Ok (true, w') -> pending_inv w'.
Proof.
  intros Hinv H.
  destruct Hinv as [Hp Hlen].
  apply delEvent_true_inv in H.
  destruct H as (c & Hfd & Hc & Hbit & Hdir & Hi & _).
  pose proof (registered_total_lookup _ _ _ Hc) as Hcov.
  pose proof (ndirs_remove _ _ Hdir Hbit) as Hrem.
  pose proof (ndirs_range (Z.land (events c) (Z.lnot d))) as Hr.
  pose proof (registered_total_bounds (m_fdContexts (iom w))) as Hb.
  unfold pending_inv, pending in *. rewrite Hi. simpl.
  rewrite length_insert.
  rewrite (registered_total_insert _ _ _ _ Hc). unfold resetEventContext.
  rewrite events_setEventContext. simpl.
  split; [rewrite wrap64_small by lia; lia | exact Hlen].
Qed.

Lemma pending_inv_cancelEvent (fd d : Z) (w w' : World) :
  pending_inv w -> cancelEvent fd d w = Ok (true, w') -> pending_inv w'.
Proof.
  intros Hinv H.
  destruct Hinv as [Hp Hlen].
  apply cancelEvent_true_inv in H.
  destruct H as (c & p & s & Hfd & Hc & Hbit & Hdir & Hi & _).
  pose proof (registered_total_lookup _ _ _ Hc) as Hcov.
  pose proof (ndirs_remove _ _ Hdir Hbit) as Hrem.
  pose proof (ndirs_range (Z.land (events c) (Z.lnot d))) as Hr.
  pose proof (registered_total_bounds (m_fdContexts (iom w))) as Hb.
  unfold pending_inv, pending in *. rewrite Hi. simpl.
  rewrite length_insert.
  rewrite (registered_total_insert _ _ _ _ Hc). unfold resetEventContext.
  rewrite events_setEventContext. simpl.
  split; [rewrite wrap64_small by lia; lia | exact Hlen].
Qed.

(** C3. Where the count is a 64-bit value that covers the registered
    directions of the fd and is not at its maximum (as [pending_inv_range]
    shows it is while the count is the number of registered directions):
    a successful [addEvent] on an unregistered direction increases the
    pending-event count by exactly 1; a successful [delEvent],
    [cancelEvent] or [cancelAll], and the reactor's handling of a ready
    descriptor, decrease it by exactly the number of directions they
    cleared. *)
Theorem pending_count_follows_directions (w w' : World) (fd d : Z)
    (Hrange : ndirs (events_of w fd) <= pending w < 2 ^ 64 - 1) :
  (forall callback,
     addEvent fd d callback w = Ok (0, w') ->
     Z.land (events_of w fd) d = 0
     /\ events_of w' fd = Z.lor (events_of w fd) d
     /\ pending w' = pending w + 1)
  /\ (delEvent fd d w = Ok (true, w') ->
      ndirs (cleared w w' fd) = 1
      /\ pending w' = pending w - ndirs (cleared w w' fd))
  /\ (cancelEvent fd d w = Ok (true, w') ->
      ndirs (cleared w w' fd) = 1
      /\ pending w' = pending w - ndirs (cleared w w' fd))
  /\ (cancelAll fd w = Ok (true, w') ->
      cleared w w' fd = events_of w fd
      /\ pending w' = pending w - ndirs (cleared w w' fd))
  /\ (forall event,
        0 <= fd -> ev_data event = inr (Z.to_nat fd) ->
        idle_handle_event event w = Ok (tt, w') ->
        pending w' = pending w - ndirs (cleared w w' fd)).
Proof.
  pose proof (ndirs_range (events_of w fd)) as Hn.
  split; [| split; [| split; [| split]]].
  - intros callback H. apply addEvent_zero_obs in H.
    destruct H as (_ & Hbit & He & Hp & _).
    split; [exact Hbit |]. split; [exact He |].
    rewrite Hp. apply wrap64_small. lia.
  - intros H. apply delEvent_true_obs in H.
    destruct H as (Hdir & Hbit & He & Hp & _).
    assert (Hone : ndirs (cleared w w' fd) = 1).
    { unfold cleared. rewrite He.
      apply single_direction_cleared; assumption. }
    split; [exact Hone |]. rewrite Hp, Hone. apply wrap64_small.
    assert (1 <= ndirs (events_of w fd)); [| lia].
    apply truthy_true_iff in Hbit. unfold ndirs.
    destruct Hdir as [-> | ->].
    + rewrite truthy_land_READ in Hbit. rewrite Hbit.
      destruct (Z.testbit (events_of w fd) 2); lia.
    + rewrite truthy_land_WRITE in Hbit. rewrite Hbit.
      destruct (Z.testbit (events_of w fd) 0); lia.
  - intros H. apply cancelEvent_true_obs in H.
    destruct H as (Hdir & Hbit & He & Hp & _).
    assert (Hone : ndirs (cleared w w' fd) = 1).
    { unfold cleared. rewrite He.
      apply single_direction_cleared; assumption. }
    split; [exact Hone |]. rewrite Hp, Hone. apply wrap64_small.
    assert (1 <= ndirs (events_of w fd)); [| lia].
    apply truthy_true_iff in Hbit. unfold ndirs.
    destruct Hdir as [-> | ->].
    + rewrite truthy_land_READ in Hbit. rewrite Hbit.
      destruct (Z.testbit (events_of w fd) 2); lia.
    + rewrite truthy_land_WRITE in Hbit. rewrite Hbit.
      destruct (Z.testbit (events_of w fd) 0); lia.
  - intros H. apply cancelAll_true_obs in H.
    destruct H as (_ & _ & Hzero & Hp & _).
    split.
    + unfold cleared. rewrite Hzero. change (Z.lnot 0) with (-1).
      apply Z.land_m1_r.
    + apply Hp; lia.
  - intros event Hfd Hdata H.
    apply (idle_handle_event_obs event (Z.to_nat fd)) in H; [| exact Hdata].
    destruct H as (Hp & _). rewrite Z2Nat.id in Hp by exact Hfd.
    apply Hp; lia.
Qed.

Lemma mask_add_remove (e d : Z) :
  Z.land e d = 0 -> Z.land (Z.lor e d) (Z.lnot d) = e.
Proof.
  intros H. apply Z.bits_inj'. intros n Hn.
  assert (Hb : Z.testbit (Z.land e d) n = false)
    by (rewrite H; apply Z.bits_0).
  rewrite Z.land_spec in Hb.
  rewrite Z.land_spec, Z.lor_spec, Z.lnot_spec by exact Hn.
  destruct (Z.testbit e n), (Z.testbit d n); simpl in *; congruence.
Qed.

Lemma wrap64_inc_dec (p : Z) :
  0 <= p < 2 ^ 64 -> wrap64 (wrap64 (p + 1) - 1) = p.
Proof.
  intros Hp. unfold wrap64. rewrite Zminus_mod_idemp_l.
  replace (p + 1 - 1) with p by lia. apply Z.mod_small. exact Hp.
Qed.

(** Registering a direction in an empty slot and resetting the slot gives
    the context back. *)
Lemma context_add_reset (c : FdContext) (d : Z) (x : EventContext) :
  d = READ \/ d = WRITE ->
  Z.land (events c) d = 0 ->
  (if d =? READ then read c else write c) = emptyEventContext ->
  resetEventContext d
    (set_events
       (Z.land (events (setEventContext d x (set_events (Z.lor (events c) d) c)))
          (Z.lnot d))
       (setEventContext d x (set_events (Z.lor (events c) d) c)))
  = c.
Proof.
  intros Hd Hbit Hslot. rewrite events_setEventContext. simpl.
  rewrite (mask_add_remove _ _ Hbit).
  destruct c as [r wr f e]. simpl in *.
  destruct Hd as [-> | ->]; simpl in *; subst; reflexivity.
Qed.

(** C6. [addEvent(f, d)] on a direction that is not registered, followed by
    [delEvent(f, d)], gives back every fd context as it was observed before
    (mask and both slots) and the pending-event count; no task is
    scheduled and no coroutine is switched to in between. *)
Theorem addEvent_delEvent_restores (w w1 w2 : World) (f d : Z)
    (callback : option Callback)
    (Hcount : 0 <= pending w < 2 ^ 64)
    (Hadd : addEvent f d callback w = Ok (0, w1))
    (Hdel : delEvent f d w1 = Ok (true, w2)) :
  Z.land (events_of w f) d = 0
  /\ (forall g, fd_context_of w2 g = fd_context_of w g)
  /\ events_of w2 f = events_of w f
  /\ pending w2 = pending w
  /\ scheds w2 = scheds w
  /\ Fiber.switches (thr w2) = Fiber.switches (thr w).
Proof.
  pose proof (addEvent_zero_obs _ _ _ _ _ Hadd)
    as (_ & _ & _ & Hp1 & Hs1 & _ & Hsw1).
  pose proof (delEvent_true_obs _ _ _ _ Hdel)
    as (_ & _ & _ & Hp2 & _ & Hs2 & Ht2 & _).
  apply addEvent_zero_inv in Hadd.
  destruct Hadd as (l & x & Hfd & Hl & Hview & Hbit & Hdir & Hempty & _ & _
                    & Hi1 & _).
  apply delEvent_true_inv in Hdel.
  destruct Hdel as (c1 & _ & Hc1 & _ & _ & Hi2 & _).
  rewrite Hi1 in Hc1, Hi2. simpl in Hc1, Hi2.
  rewrite list_lookup_insert_eq in Hc1 by (eapply lookup_lt_Some; eauto).
  injection Hc1 as <-.
  rewrite list_insert_insert_eq in Hi2.
  unfold events_of in Hi2 at 1.
  rewrite context_add_reset in Hi2 by assumption.
  assert (Hall : forall g, fd_context_of w2 g = fd_context_of w g).
  { intros g. unfold fd_context_of at 1. rewrite Hi2. simpl.
    rewrite list_insert_id by exact Hl.
    unfold fd_context_of. apply Hview. }
  split; [exact Hbit |]. split; [exact Hall |].
  split; [unfold events_of; rewrite Hall; reflexivity |].
  split; [rewrite Hp2, Hp1; apply wrap64_inc_dec; exact Hcount |].
  split; [congruence |]. congruence.
Qed.

(** ** The claims at sample states *)

Lemma do_io_closed_is_EBADF_witness :
  exists w',
    do_io 5 READ SO_RCVTIMEO
      (with_hook
         (mkHookEnv true {[ 5 := mkFdCtx true true true false 100 100 ]} [])
         (sample_world [] [] [(7, 0)] []))
    = Ok (Returned (-1), w')
    /\ errno (krn w') = EBADF
    /\ io_calls (krn w') = 0%nat.
Proof.
  destruct (do_io_closed_is_EBADF
              (with_hook
                 (mkHookEnv true {[ 5 := mkFdCtx true true true false 100 100 ]}
                    [])
                 (sample_world [] [] [(7, 0)] []))
              5 READ SO_RCVTIMEO (mkFdCtx true true true false 100 100))
    as (w' & H & He & Hc & _).
  - reflexivity.
  - vm_compute. reflexivity.
  - reflexivity.
  - exists w'. split; [exact H |]. split; [exact He | exact Hc].
Defined.

Lemma fcntl_getfl_reflects_setfl_witness :
  exists w1 r2 w2,
    fcntl 5 F_SETFL 0 (sample_world [] [0; 2050] [] []) = Ok (0, w1)
    /\ fcntl 5 F_GETFL 0 w1 = Ok (r2, w2)
    /\ Z.testbit r2 11 = false.
Proof.
  destruct (fcntl_getfl_reflects_setfl (sample_world [] [0; 2050] [] [])
              5 0 0 2050 [] (mkFdCtx true false true false 100 UINT64_MAX))
    as (w1 & r2 & w2 & H1 & H2 & Hb & _).
  - vm_compute. reflexivity.
  - reflexivity.
  - reflexivity.
  - reflexivity.
  - exists w1, r2, w2. split; [exact H1 |]. split; [exact H2 | exact Hb].
Defined.

Lemma addEvent_registered_aborts_witness :
  addEvent 5 READ (Some (UserCb 8)) (sample_registered [0]) = AssertFail.
Proof.
  apply (addEvent_registered_aborts (sample_registered [0]) 5 READ
           (Some (UserCb 8))
           (mkFdContext (mkEventContext (Some 0%nat) None (Some (UserCb 7)))
              emptyEventContext 5 READ)).
  - lia.
  - reflexivity.
  - vm_compute. discriminate.
Defined.

Lemma addEvent_refused_no_effect_witness :
  exists w',
    addEvent 5 READ None (sample_world [-1] [] [] []) = Ok (-1, w')
    /\ pending w' = 0
    /\ events_of w' 5 = 0.
Proof.
  destruct (addEvent_refused_no_effect (sample_world [-1] [] [] []) 5 READ
              None (-1) []) as (w' & H & Hv & Hp & _).
  - lia.
  - vm_compute. lia.
  - reflexivity.
  - reflexivity.
  - lia.
  - exists w'. split; [exact H |]. split; [exact Hp |].
    unfold events_of. rewrite Hv. reflexivity.
Defined.

Lemma pending_count_follows_directions_witness :
  exists w',
    addEvent 5 READ (Some (UserCb 7)) (sample_world [0] [2; 0] [] [])
    = Ok (0, w')
    /\ pending w' = pending (sample_world [0] [2; 0] [] []) + 1
    /\ events_of w' 5 = READ.
Proof.
  assert (Hrun : exists w',
             addEvent 5 READ (Some (UserCb 7)) (sample_world [0] [2; 0] [] [])
             = Ok (0, w')).
  { eexists. vm_compute. reflexivity. }
  destruct Hrun as [w' Hrun]. exists w'. split; [exact Hrun |].
  assert (Hrange : ndirs (events_of (sample_world [0] [2; 0] [] []) 5)
                   <= pending (sample_world [0] [2; 0] [] []) < 2 ^ 64 - 1).
  { vm_compute. split; [discriminate | reflexivity]. }
  destruct (pending_count_follows_directions
              (sample_world [0] [2; 0] [] []) w' 5 READ Hrange) as [Hadd _].
  destruct (Hadd _ Hrun) as (_ & He & Hp).
  split; [exact Hp |]. rewrite He. reflexivity.
Defined.

Lemma addEvent_delEvent_restores_witness :
  exists w1 w2,
    addEvent 5 WRITE None (sample_world [0; 0] [2; 0] [] []) = Ok (0, w1)
    /\ delEvent 5 WRITE w1 = Ok (true, w2)
    /\ events_of w1 5 = WRITE
    /\ pending w1 = 1
    /\ events_of w2 5 = 0
    /\ pending w2 = 0
    /\ scheds w2 = scheds (sample_world [0; 0] [2; 0] [] []).
Proof.
  assert (Hadd : exists w1,
             addEvent 5 WRITE None (sample_world [0; 0] [2; 0] [] [])
             = Ok (0, w1)
             /\ events_of w1 5 = WRITE /\ pending w1 = 1
             /\ exists w2, delEvent 5 WRITE w1 = Ok (true, w2)).
  { eexists. split; [vm_compute; reflexivity |].
    split; [reflexivity |]. split; [reflexivity |].
    eexists. vm_compute. reflexivity. }
  destruct Hadd as (w1 & Hadd & He1 & Hp1 & w2 & Hdel).
  exists w1, w2.
  assert (Hcount : 0 <= pending (sample_world [0; 0] [2; 0] [] []) < 2 ^ 64).
  { vm_compute. split; [discriminate | reflexivity]. }
  destruct (addEvent_delEvent_restores _ w1 w2 5 WRITE None Hcount Hadd Hdel)
    as (_ & _ & He & Hp & Hs & _).
  split; [exact Hadd |]. split; [exact Hdel |].
  split; [exact He1 |]. split; [exact Hp1 |].
  split; [rewrite He; reflexivity |]. split; [rewrite Hp; reflexivity |].
  exact Hs.
Defined.

(** ** Timeouts of hooked calls *)

Lemma in_krn_frame {A : Type} (m : M Kernel A) (w : World) (a : A)
    (w' : World) :
  in_krn m w = Ok (a, w') ->
  thr w' = thr w /\ t_scheduler w' = t_scheduler w /\ scheds w' = scheds w
  /\ tmgr w' = tmgr w /\ iom w' = iom w /\ hook w' = hook w
  /\ m (krn w) = Ok (a, krn w').
Proof.
  intros H. apply zoom_Ok in H. destruct H as (k & Hk & ->).
  simpl. repeat split. exact Hk.
Qed.

Lemma in_thr_frame {A : Type} (m : M Fiber.Env A) (w : World) (a : A)
    (w' : World) :
  in_thr m w = Ok (a, w') ->
  krn w' = krn w /\ t_scheduler w' = t_scheduler w /\ scheds w' = scheds w
  /\ tmgr w' = tmgr w /\ iom w' = iom w /\ hook w' = hook w.
Proof.
  intros H. apply zoom_Ok in H. destruct H as (k & Hk & ->).
  simpl. repeat split.
Qed.

Lemma eintr_loop_frame (fuel : nat) :
  forall (n : Z) (w : World) (n' : Z) (w' : World),
    eintr_loop fuel n w = Ok (n', w') ->
    hook w' = hook w /\ tmgr w' = tmgr w /\ iom w' = iom w
    /\ thr w' = thr w /\ scheds w' = scheds w.
Proof.
  induction fuel as [| fuel IH]; intros n w n' w' H; simpl in H.
  - split_run H as w0 w1 Hg. unfold get in Hg. injection Hg as <- <-.
    destruct ((n =? -1) && (errno (krn w) =? EINTR)); [discriminate H |].
    injection H as _ <-. repeat split.
  - split_run H as w0 w1 Hg. unfold get in Hg. injection Hg as <- <-.
    destruct ((n =? -1) && (errno (krn w) =? EINTR)).
    + split_run H as n1 w2 Hk. apply in_krn_frame in Hk.
      destruct Hk as (Ht & _ & Hs & Htm & Hi & Hh & _).
      apply IH in H. destruct H as (Hh' & Htm' & Hi' & Ht' & Hs').
      repeat split; congruence.
    + injection H as _ <-. repeat split.
Qed.

Lemma timer_insert_elem (t : Timer) (l : list Timer) : t ∈ timer_insert t l.
Proof.
  induction l as [| x r IH]; simpl.
  - apply list_elem_of_here.
  - destruct (timer_ltb t x).
    + apply list_elem_of_here.
    + apply list_elem_of_further. exact IH.
Qed.

Lemma IOManager_tickle_frame (w : World) (u : unit) (w' : World) :
  IOManager_tickle w = Ok (u, w') ->
  hook w' = hook w /\ tmgr w' = tmgr w /\ iom w' = iom w
  /\ thr w' = thr w /\ scheds w' = scheds w
  /\ t_scheduler w' = t_scheduler w.
Proof.
  intros H. unfold IOManager_tickle in H.
  split_run H as w0 w1 Hg. unfold get in Hg. injection Hg as <- <-.
  split_run H as s w2 Hs. unfold load_sched in Hs.
  split_run Hs as w3 w4 Hg. unfold get in Hg. injection Hg as <- <-.
  apply deref_Ok in Hs. destruct Hs as [_ ->].
  destruct (m_idleThreadCount s >? 0).
  - apply in_krn_frame in H. destruct H as (? & ? & ? & ? & ? & ? & _).
    repeat split; assumption.
  - injection H as _ <-. repeat split.
Qed.

(** The timer a successful [addConditionTimer] left in the set *)
Lemma addConditionTimer_inv (ms : Z) (c : Callback) (weak_cond : nat)
    (recurring : bool) (w : World) (t : nat) (w' : World) :
  addConditionTimer ms c weak_cond recurring w = Ok (t, w') ->
  hook w' = hook w /\ iom w' = iom w /\ thr w' = thr w
  /\ scheds w' = scheds w /\ t_scheduler w' = t_scheduler w
  /\ exists tm, tm ∈ m_timers (tmgr w')
       /\ timer_ptr tm = t /\ m_cb tm = Some (OnTimerCb weak_cond c)
       /\ m_next tm = wrap64 (now_ms (krn w) + ms).
Proof.
  intros H. unfold addConditionTimer, addTimer in H.
  split_run H as w0 w1 Hg. unfold get in Hg. injection Hg as <- <-.
  split_run H as u1 w2 Hput. unfold put in Hput. injection Hput as _ <-.
  split_run H as u2 w3 Hfront.
  injection H as <- <-.
  assert (Hfr : hook w3 = hook w /\ tmgr w3
                  = mkTimerManager
                      (timer_insert
                         (mkTimer (timer_count (tmgr w)) recurring ms
                            (wrap64 (now_ms (krn w) + ms))
                            (Some (OnTimerCb weak_cond c)))
                         (m_timers (tmgr w)))
                      (S (timer_count (tmgr w))) (m_previouseTime (tmgr w))
                /\ iom w3 = iom w /\ thr w3 = thr w /\ scheds w3 = scheds w
                /\ t_scheduler w3 = t_scheduler w).
  { destruct (timer_insert _ _) as [| x r] eqn:E in Hfront.
    - injection Hfront as _ <-. rewrite E. repeat split.
    - destruct (Nat.eqb _ _) in Hfront.
      + apply IOManager_tickle_frame in Hfront.
        destruct Hfront as (? & Htm & ? & ? & ? & ?).
        rewrite Htm. simpl. rewrite E. repeat split; assumption.
      + injection Hfront as _ <-. rewrite E. repeat split. }
  destruct Hfr as (Hh & Htm & Hi & Ht & Hs & Hts).
  repeat (split; [assumption |]).
  eexists. split; [rewrite Htm; simpl; apply timer_insert_elem |].
  simpl. repeat split.
Qed.

Lemma cancelEvent_hook (fd event : Z) (w : World) (b : bool) (w' : World) :
  cancelEvent fd event w = Ok (b, w') -> hook w' = hook w.
Proof.
  intros H. unfold cancelEvent in H.
  split_run H as w0 w1 Hg. unfold get in Hg. injection Hg as <- <-.
  destruct (Z.of_nat (length (m_fdContexts (iom w))) <=? fd).
  { injection H as _ <-. reflexivity. }
  split_run H as c w2 Hc. apply fd_ctx_at_inv in Hc.
  destruct Hc as (_ & _ & ->).
  destruct (negb (truthy (Z.land (events c) event))).
  { injection H as _ <-. reflexivity. }
  split_run H as rt w3 Hk. apply in_krn_frame in Hk.
  destruct Hk as (_ & _ & _ & _ & _ & Hh3 & _).
  destruct (truthy rt).
  { injection H as _ <-. exact Hh3. }
  split_run H as u1 w4 Htr. apply triggerEvent_inv in Htr.
  destruct Htr as (c' & p & s & _ & _ & _ & _ & _ & _ & _ & Hh4 & _).
  split_run H as u2 w5 Hd. apply dec_pending_inv in Hd. subst w5.
  injection H as _ <-. simpl. congruence.
Qed.

(** The timer fires while the witness is alive and not yet cancelled: the
    callback marks it ETIMEDOUT and calls [cancelEvent]. *)
Lemma timeout_fires (ti : nat) (fd event : Z) (w : World) (u : unit)
    (w' : World) :
  tinfos (hook w) !! ti = Some (Some 0) ->
  run_cb (OnTimerCb ti (TimeoutCb ti fd event)) w = Ok (u, w') ->
  tinfos (hook w') !! ti = Some (Some ETIMEDOUT)
  /\ exists b,
       cancelEvent fd event
         (with_hook
            (mkHookEnv (t_hook_enable (hook w)) (m_datas (hook w))
               (<[ti := Some ETIMEDOUT]> (tinfos (hook w)))) w)
       = Ok (b, w').
Proof.
  intros Hti H.
  assert (Hlock : forall w0, tinfos (hook w0) !! ti = Some (Some 0) ->
                    lock_tinfo ti w0 = Ok (Some 0, w0)).
  { intros w0 H0. unfold lock_tinfo, bind, get, ret. rewrite H0.
    reflexivity. }
  simpl in H.
  rewrite (bind_Ok_intro _ _ _ _ _ (Hlock w Hti)) in H.
  rewrite (bind_Ok_intro _ _ _ _ _ (Hlock w Hti)) in H.
  change (truthy 0) with false in H. cbv iota in H.
  split_run H as u1 w1 Hset.
  unfold set_cancelled, set_tinfos, bind, get, modify in Hset.
  injection Hset as _ <-.
  split_run H as b w2 Hc. injection H as _ <-.
  split; [| exists b; exact Hc].
  apply cancelEvent_hook in Hc. rewrite Hc. simpl.
  apply list_lookup_insert_eq. eapply lookup_lt_Some. exact Hti.
Qed.

(** [do_io] resumed with the witness marked: it gives up with the mark as
    errno, without calling the original function again. *)
Lemma do_io_resume_cancelled (fr : Frame) (w : World) (c : Z) :
  tinfos (hook w) !! fr_tinfo fr = Some (Some c) ->
  c <> 0 ->
  exists w',
    do_io_resume fr w = Ok (Returned (-1), w')
    /\ errno (krn w') = c
    /\ io_calls (krn w') = io_calls (krn w)
    /\ io_rt (krn w') = io_rt (krn w)
    /\ tinfos (hook w') !! fr_tinfo fr = Some None.
Proof.
  intros Hti Hc. apply truthy_true_iff in Hc.
  assert (Hcancel : exists w1,
             cancel_if (fr_timer fr) w = Ok (tt, w1)
             /\ hook w1 = hook w /\ krn w1 = krn w).
  { unfold cancel_if. destruct (fr_timer fr) as [t |].
    - unfold Timer_cancel, bind, get, put, ret. simpl.
      destruct (existsb _ _); eexists; (split; [reflexivity |]);
        simpl; split; reflexivity.
    - eexists. split; [reflexivity |]. split; reflexivity. }
  destruct Hcancel as (w1 & Hcancel & Hh1 & Hk1).
  unfold do_io_resume.
  rewrite (bind_Ok_intro _ _ _ _ _ Hcancel).
  unfold bind at 1. unfold get at 1. cbv beta iota.
  rewrite Hh1, Hti. simpl.
  unfold bind at 1. unfold ret at 1. cbv beta iota. rewrite Hc.
  unfold write_errno, drop_tinfo, set_tinfos, bind, get, modify, ret.
  simpl. eexists. split; [reflexivity |]. simpl. rewrite Hk1, Hh1.
  repeat split.
  apply list_lookup_insert_eq. eapply lookup_lt_Some. exact Hti.
Qed.

Lemma land_lor_same (e d : Z) : Z.land (Z.lor e d) d = d.
Proof.
  apply Z.bits_inj'. intros n Hn. rewrite Z.land_spec, Z.lor_spec.
  destruct (Z.testbit e n), (Z.testbit d n); reflexivity.
Qed.

(** What [do_io] left behind when it suspended the coroutine from the
    label [retry]. *)
Lemma do_io_retry_yield_inv (fd event to : Z) (tinfo : nat) (w : World)
    (fr : Frame) (w1 : World) :
  do_io_retry fd event to tinfo w = Ok (Yielded fr, w1) ->
  fr_fd fr = fd /\ fr_event fr = event /\ fr_to fr = to
  /\ fr_tinfo fr = tinfo
  /\ tinfos (hook w1) = tinfos (hook w)
  /\ Z.land (events_of w1 fd) event = event
  /\ (to <> UINT64_MAX ->
      exists t tm,
        fr_timer fr = Some t /\ tm ∈ m_timers (tmgr w1)
        /\ timer_ptr tm = t
        /\ m_cb tm = Some (OnTimerCb tinfo (TimeoutCb tinfo fd event))).
Proof.
  intros H. unfold do_io_retry in H.
  split_run H as n0 w2 Hk. apply in_krn_frame in Hk.
  destruct Hk as (_ & _ & _ & _ & _ & Hh2 & _).
  split_run H as w0 w3 Hg. unfold get in Hg. injection Hg as <- <-.
  split_run H as n w4 Hloop. apply eintr_loop_frame in Hloop.
  destruct Hloop as (Hh4 & _).
  split_run H as w0 w5 Hg. unfold get in Hg. injection Hg as <- <-.
  destruct ((n =? -1) && (errno (krn w4) =? EAGAIN)).
  2:{ split_run H as u w6 Hd. unfold ret in H. discriminate H. }
  split_run H as iom_ptr w6 Hthis.
  unfold IOManager_GetThis, bind, get, ret in Hthis.
  injection Hthis as _ <-.
  split_run H as timer w7 Htimer.
  split_run H as p w8 Hp. apply deref_Ok in Hp. destruct Hp as [_ ->].
  split_run H as rt w9 Hadd.
  destruct (Z.eqb_spec rt 0) as [-> | Hne]; simpl in H.
  2:{ split_run H as u1 w10 Hc. split_run H as u2 w11 Hd.
      unfold ret in H. discriminate H. }
  pose proof (addEvent_zero_obs _ _ _ _ _ Hadd) as (_ & _ & He9 & _).
  apply addEvent_zero_inv in Hadd.
  destruct Hadd as (_ & _ & _ & _ & _ & _ & _ & _ & _ & _ & _ & _ & Htm9
                    & Hti9 & _).
  split_run H as cur w10 Hcur. apply in_thr_frame in Hcur.
  destruct Hcur as (_ & _ & _ & Htm10 & Hi10 & Hh10).
  split_run H as u3 w11 Hy. apply in_thr_frame in Hy.
  destruct Hy as (_ & _ & _ & Htm11 & Hi11 & Hh11).
  injection H as <- <-. simpl.
  assert (Htimer' :
            hook w7 = hook w4
            /\ (to <> UINT64_MAX ->
                exists t tm,
                  timer = Some t /\ tm ∈ m_timers (tmgr w7)
                  /\ timer_ptr tm = t
                  /\ m_cb tm
                     = Some (OnTimerCb tinfo (TimeoutCb tinfo fd event)))).
  { destruct (Z.eqb_spec to UINT64_MAX) as [Hto | Hto]; simpl in Htimer.
    - injection Htimer as _ <-. split; [reflexivity | congruence].
    - split_run Htimer as p1 w12 Hp1. apply deref_Ok in Hp1.
      destruct Hp1 as [_ ->].
      split_run Htimer as t w13 Hat. injection Htimer as <- <-.
      apply addConditionTimer_inv in Hat.
      destruct Hat as (Hh & _ & _ & _ & _ & tm & Hin & Hptr & Hcb & _).
      split; [exact Hh |]. intros _. exists t, tm.
      repeat split; assumption. }
  destruct Htimer' as (Hh7 & Htm7).
  repeat (split; [reflexivity |]).
  split; [rewrite Hh11, Hh10, Hti9, Hh7, Hh4, Hh2; reflexivity |].
  split.
  { assert (Hev : events_of w11 fd = events_of w9 fd)
      by (unfold events_of, fd_context_of; rewrite Hi11, Hi10; reflexivity).
    rewrite Hev, He9. apply land_lor_same. }
  intros Hto. destruct (Htm7 Hto) as (t & tm & Ht & Hin & Hptr & Hcb).
  exists t, tm. rewrite Htm11, Htm10, Htm9.
  repeat split; assumption.
Qed.

(** What [do_io] left behind when it suspended the coroutine. *)
Lemma do_io_yield_inv (fd event timeout_so : Z) (w : World) (fr : Frame)
    (w1 : World) :
  do_io fd event timeout_so w = Ok (Yielded fr, w1) ->
  fr_fd fr = fd /\ fr_event fr = event
  /\ (exists ctx, m_datas (hook w) !! fd = Some ctx
        /\ fr_to fr = getTimeout ctx timeout_so)
  /\ tinfos (hook w1) !! fr_tinfo fr = Some (Some 0)
  /\ Z.land (events_of w1 fd) event = event
  /\ (fr_to fr <> UINT64_MAX ->
      exists t tm,
        fr_timer fr = Some t /\ tm ∈ m_timers (tmgr w1)
        /\ timer_ptr tm = t
        /\ m_cb tm = Some (OnTimerCb (fr_tinfo fr)
                             (TimeoutCb (fr_tinfo fr) fd event))).
Proof.
  intros H. unfold do_io in H.
  split_run H as w0 w2 Hg. unfold get in Hg. injection Hg as <- <-.
  destruct (negb (t_hook_enable (hook w))).
  { split_run H as n w3 Hk. unfold ret in H. discriminate H. }
  split_run H as octx w3 Hget. unfold FdMgr_get, bind, get, ret in Hget.
  injection Hget as <- <-.
  destruct (m_datas (hook w) !! fd) as [ctx |] eqn:Hctx.
  2:{ split_run H as n w3 Hk. unfold ret in H. discriminate H. }
  destruct (isClose ctx).
  { split_run H as u w3 He. unfold ret in H. discriminate H. }
  destruct (negb (isSocket ctx) || userNonblock ctx).
  { split_run H as n w3 Hk. unfold ret in H. discriminate H. }
  split_run H as tinfo w3 Hnew.
  unfold new_tinfo, set_tinfos, bind, get, modify, ret in Hnew.
  injection Hnew as <- <-.
  apply do_io_retry_yield_inv in H.
  destruct H as (Hfd & Hev & Hto & Hti & Htis & Hreg & Htimer).
  simpl in Htis.
  split; [exact Hfd |]. split; [exact Hev |].
  split; [exists ctx; split; [reflexivity | exact Hto] |].
  split.
  { rewrite Htis, Hti. rewrite lookup_app_r by reflexivity.
    rewrite Nat.sub_diag. reflexivity. }
  split; [exact Hreg |].
  rewrite Hto, Hti. exact Htimer.
Qed.

(** C4. A hooked I/O call that suspended with a finite timeout, whose
    timer then fires while the witness is untouched, returns -1 with errno
    ETIMEDOUT when the coroutine is resumed: the timer that was armed
    carries the callback that marks the witness ETIMEDOUT and calls
    [cancelEvent] for the awaited direction, and the resumed hook reads
    the mark and gives up without calling the original function again.
    Between the three steps the rest of the state may have changed; only
    the witness, which no one else holds, is required to be as it was
    left. *)
Theorem do_io_timer_fired_is_ETIMEDOUT (w w1 w1' w2 w2' : World)
    (fd event timeout_so : Z) (fr : Frame)
    (Hsuspended : do_io fd event timeout_so w = Ok (Yielded fr, w1))
    (Hfinite : fr_to fr <> UINT64_MAX)
    (Hkept1 : tinfos (hook w1') !! fr_tinfo fr
              = tinfos (hook w1) !! fr_tinfo fr)
    (Hfired : run_cb (OnTimerCb (fr_tinfo fr)
                        (TimeoutCb (fr_tinfo fr) fd event)) w1'
              = Ok (tt, w2))
    (Hkept2 : tinfos (hook w2') !! fr_tinfo fr
              = tinfos (hook w2) !! fr_tinfo fr) :
  (exists t tm,
     fr_timer fr = Some t /\ tm ∈ m_timers (tmgr w1) /\ timer_ptr tm = t
     /\ m_cb tm = Some (OnTimerCb (fr_tinfo fr)
                          (TimeoutCb (fr_tinfo fr) fd event)))
  /\ Z.land (events_of w1 fd) event = event
  /\ tinfos (hook w2) !! fr_tinfo fr = Some (Some ETIMEDOUT)
  /\ (exists b,
        cancelEvent fd event
          (with_hook
             (mkHookEnv (t_hook_enable (hook w1')) (m_datas (hook w1'))
                (<[fr_tinfo fr := Some ETIMEDOUT]> (tinfos (hook w1')))) w1')
        = Ok (b, w2))
  /\ exists w3,
       do_io_resume fr w2' = Ok (Returned (-1), w3)
       /\ errno (krn w3) = ETIMEDOUT
       /\ io_calls (krn w3) = io_calls (krn w2').
Proof.
  apply do_io_yield_inv in Hsuspended.
  destruct Hsuspended as (_ & _ & _ & Hti & Hreg & Htimer).
  rewrite <- Hkept1 in Hti.
  destruct (timeout_fires _ _ _ _ _ _ Hti Hfired) as (Hmark & Hcancel).
  rewrite <- Hkept2 in Hmark.
  destruct (do_io_resume_cancelled fr w2' ETIMEDOUT Hmark)
    as (w3 & Hres & Herr & Hcalls & _); [discriminate |].
  split; [exact (Htimer Hfinite) |]. split; [exact Hreg |].
  split; [rewrite <- Hkept2; exact Hmark |]. split; [exact Hcancel |].
  exists w3. repeat split; assumption.
Qed.

Lemma do_io_timer_fired_is_ETIMEDOUT_witness :
  exists fr w1 w2 w3,
    do_io 5 READ SO_RCVTIMEO
      (sample_world [0; 0] [2; 0] [(-1, EAGAIN)] []) = Ok (Yielded fr, w1)
    /\ fr_to fr = 100
    /\ run_cb (OnTimerCb (fr_tinfo fr) (TimeoutCb (fr_tinfo fr) 5 READ)) w1
       = Ok (tt, w2)
    /\ m_tasks <$> scheds w2 !! 0%nat = Some [mkTask (Some 1%nat) None (-1)]
    /\ do_io_resume fr w2 = Ok (Returned (-1), w3)
    /\ errno (krn w3) = ETIMEDOUT
    /\ io_calls (krn w3) = 1%nat.
Proof.
  assert (Hrun : exists fr w1,
             do_io 5 READ SO_RCVTIMEO
               (sample_world [0; 0] [2; 0] [(-1, EAGAIN)] [])
             = Ok (Yielded fr, w1)
             /\ fr_to fr = 100
             /\ io_calls (krn w1) = 1%nat
             /\ exists w2,
                  run_cb (OnTimerCb (fr_tinfo fr)
                            (TimeoutCb (fr_tinfo fr) 5 READ)) w1
                  = Ok (tt, w2)
                  /\ io_calls (krn w2) = 1%nat
                  /\ m_tasks <$> scheds w2 !! 0%nat
                     = Some [mkTask (Some 1%nat) None (-1)]).
  { eexists. eexists. split; [vm_compute; reflexivity |].
    split; [reflexivity |]. split; [reflexivity |].
    eexists. split; [vm_compute; reflexivity |].
    split; reflexivity. }
  destruct Hrun as (fr & w1 & Hsusp & Hto & Hc1 & w2 & Hfire & Hc2 & Hq).
  assert (Hfinite : fr_to fr <> UINT64_MAX)
    by (rewrite Hto; discriminate).
  destruct (do_io_timer_fired_is_ETIMEDOUT _ w1 w1 w2 w2 5 READ SO_RCVTIMEO
              fr Hsusp Hfinite eq_refl Hfire eq_refl)
    as (_ & _ & _ & _ & w3 & Hres & Herr & Hcalls).
  exists fr, w1, w2, w3.
  split; [exact Hsusp |]. split; [exact Hto |]. split; [exact Hfire |].
  split; [exact Hq |]. split; [exact Hres |]. split; [exact Herr |].
  rewrite Hcalls. exact Hc2.
Defined.

(** ** The idle coroutine *)

(** Every wait of the inner loop is issued with the buffer size and the
    hard cap, whatever timers are pending and whatever [next_timeout]
    holds. *)
Lemma idle_wait_log (fuel : nat) :
  forall (next_timeout : Z) (buf : list epoll_event) (w : World)
         (r : Z * list epoll_event) (w' : World),
    idle_wait fuel next_timeout buf w = Ok (r, w') ->
    tmgr w' = tmgr w
    /\ exists k,
         epoll_wait_log (krn w')
         = epoll_wait_log (krn w) ++ replicate (S k) (MAX_EVNETS, MAX_TIMEOUT).
Proof.
  induction fuel as [| fuel IH]; intros nt buf w r w' H; simpl in H;
    [discriminate H |].
  split_run H as a w1 Hk.
  assert (Hlog : epoll_wait_log (krn w1)
                 = epoll_wait_log (krn w) ++ [(MAX_EVNETS, MAX_TIMEOUT)]
                 /\ tmgr w1 = tmgr w).
  { apply in_krn_frame in Hk. destruct Hk as (_ & _ & _ & Htm & _ & _ & Hk).
    unfold k_epoll_wait in Hk.
    destruct (epoll_wait_rt (krn w)); [discriminate Hk |].
    injection Hk as _ Hk. rewrite <- Hk. simpl. split; [reflexivity | exact Htm]. }
  destruct Hlog as [Hlog Htm1].
  split_run H as w0 w2 Hg. unfold get in Hg. injection Hg as <- <-.
  assert (Hrec : forall nt' buf',
             idle_wait fuel nt' buf' w1 = Ok (r, w') ->
             tmgr w' = tmgr w
             /\ exists k,
                  epoll_wait_log (krn w')
                  = epoll_wait_log (krn w)
                    ++ replicate (S k) (MAX_EVNETS, MAX_TIMEOUT)).
  { intros nt' buf' Hr. apply IH in Hr. destruct Hr as (Htm & k & Hk').
    split; [congruence |]. exists (S k). rewrite Hk', Hlog.
    rewrite <- app_assoc. reflexivity. }
  destruct (wa_rt a <? 0).
  - destruct (errno (krn w1) =? EINTR).
    + eapply Hrec. exact H.
    + injection H as _ <-. split; [exact Htm1 |].
      exists O. exact Hlog.
  - eapply Hrec. exact H.
Qed.

(** A wait that succeeds does not end the inner loop: on answers that are
    successes or interruptions only, the loop is still waiting when the
    answers run out. *)
Lemma idle_wait_never_dispatches (script : list WaitAnswer) :
  Forall (fun a => 0 <= wa_rt a \/ wa_errno a = EINTR) script ->
  forall (next_timeout : Z) (buf : list epoll_event) (w : World),
    epoll_wait_rt (krn w) = script ->
    idle_wait (length script) next_timeout buf w = Blocked.
Proof.
  induction 1 as [| a rest Ha Hrest IH]; intros nt buf w Hs; simpl;
    [reflexivity |].
  unfold bind at 1. unfold in_krn, zoom, k_epoll_wait. rewrite Hs.
  cbv beta iota. unfold bind at 1. unfold get at 1. cbv beta iota.
  simpl krn. simpl errno.
  destruct (Z.ltb_spec (wa_rt a) 0) as [Hneg | Hpos].
  - destruct Ha as [Ha | Ha]; [lia |]. rewrite Ha. simpl.
    apply IH. reflexivity.
  - apply IH. reflexivity.
Qed.

Lemma IOManager_stopping_spec (w : World) (s : Scheduler) :
  scheds w !! this (iom w) = Some s ->
  IOManager_stopping w
  = Ok ((pending w =? 0)
        && (m_stopping s
            && match m_tasks s with [] => true | _ => false end
            && (m_activeThreadCount s =? 0)), w).
Proof.
  intros Hs.
  unfold IOManager_stopping, Scheduler_stopping, load_sched, pending,
    bind, get, ret, deref.
  simpl. destruct (m_pendingEventCount (iom w) =? 0); simpl;
    [rewrite Hs |]; reflexivity.
Qed.

(** The overload with the timeout does what the reactor's check leaves
    out: it also answers [false] while a timer is pending. *)
Lemma IOManager_stopping_timeout_spec (w : World) (s : Scheduler) :
  scheds w !! this (iom w) = Some s ->
  exists timeout,
    getNextTimer w = Ok (timeout, w)
    /\ IOManager_stopping_timeout w
       = Ok ((timeout =? UINT64_MAX)
             && (pending w =? 0)
             && (m_stopping s
                 && match m_tasks s with [] => true | _ => false end
                 && (m_activeThreadCount s =? 0)), timeout, w).
Proof.
  intros Hs.
  unfold IOManager_stopping_timeout, getNextTimer, Scheduler_stopping,
    load_sched, pending, bind, get, ret, deref.
  eexists. split; [reflexivity |]. simpl.
  destruct (_ =? UINT64_MAX); simpl; [| reflexivity].
  destruct (m_pendingEventCount (iom w) =? 0); simpl;
    [rewrite Hs |]; reflexivity.
Qed.

(** C1, at a state with a timer due in 100 ms. The time to the next timer
    is 100 ms, yet the turn of the idle loop waits with the hard cap of
    5000 ms (and room for 256 events); and after an interrupted wait
    followed by a wait that reports a ready descriptor, the loop waits
    again instead of going on to dispatch. *)
Theorem idle_waits_with_hard_cap_only :
  getNextTimer (sample_with_timer false [wait_EBADF])
  = Ok (100, sample_with_timer false [wait_EBADF])
  /\ Z.min 100 MAX_TIMEOUT = 100
  /\ (exists buf w',
        idle_iteration idle_buffer (sample_with_timer false [wait_EBADF])
        = Ok (Some buf, w')
        /\ epoll_wait_log (krn w') = [(MAX_EVNETS, MAX_TIMEOUT)]
        /\ MAX_TIMEOUT = 5000 /\ MAX_EVNETS = 256)
  /\ idle_iteration idle_buffer
       (sample_with_timer false [wait_EINTR; wait_ready]) = Blocked.
Proof.
  split; [reflexivity |]. split; [reflexivity |]. split.
  - eexists. eexists. split; [vm_compute; reflexivity |].
    repeat split.
  - vm_compute. reflexivity.
Qed.

(** C2, at a state with no pending event, a stopping scheduler with an
    empty queue and no active thread, and one timer pending. The check
    that ends the reactor loop answers [true] and the loop is left, though
    a timer is pending; the overload that takes the timeout answers
    [false] there. *)
Theorem idle_stopping_ignores_timers :
  hasTimer (sample_with_timer true []) = Ok (true, sample_with_timer true [])
  /\ pending (sample_with_timer true []) = 0
  /\ Scheduler_stopping 0 (sample_with_timer true [])
     = Ok (true, sample_with_timer true [])
  /\ IOManager_stopping (sample_with_timer true [])
     = Ok (true, sample_with_timer true [])
  /\ idle_iteration idle_buffer (sample_with_timer true [])
     = Ok (None, sample_with_timer true [])
  /\ IOManager_stopping_timeout (sample_with_timer true [])
     = Ok (false, 100, sample_with_timer true []).
Proof. repeat split. Qed.

(** * Further properties of the code *)

(** ** fiber.cpp *)

Lemma resume_READY (e : Fiber.Env) (this : nat) (f : Fiber.Fiber)
    (p : nat) (pf : Fiber.Fiber) :
  Fiber.fibers e !! this = Some f ->
  (if Fiber.m_runInScheduler f then Fiber.t_scheduler_fiber e
   else Fiber.t_thread_fiber e) = Some p ->
  Fiber.fibers e !! p = Some pf ->
  Fiber.m_state f = Fiber.READY ->
  Fiber.resume this e
  = Ok (tt, Fiber.mkEnv (Fiber.s_fiber_id e)
              (<[this := Fiber.set_state Fiber.RUNNING f]> (Fiber.fibers e))
              (Some this) (Fiber.t_thread_fiber e)
              (Fiber.t_scheduler_fiber e)
              (Fiber.switches e ++ [(p, this)])).
Proof.
  intros Hthis Hpartner Hpf Hst.
  assert (Hp' : exists pf',
            <[this := Fiber.set_state Fiber.RUNNING f]> (Fiber.fibers e) !! p
            = Some pf').
  { destruct (decide (this = p)) as [<- | Hne].
    - eexists. apply list_lookup_insert_eq. eapply lookup_lt_Some; eauto.
    - exists pf. rewrite list_lookup_insert_ne by exact Hne. exact Hpf. }
  destruct Hp' as [pf' Hpf'].
  unfold Fiber.resume, Fiber.partner, Fiber.load, Fiber.store,
    Fiber.SetThis, Fiber.swapcontext, Fiber.set_fibers,
    bind, get, modify, assert, deref, ret, undefined.
  simpl. rewrite Hthis. simpl. rewrite Hst. simpl.
  rewrite Hpartner. simpl. rewrite Hpf'. reflexivity.
Qed.

Lemma resume_not_READY (e : Fiber.Env) (this : nat) (f : Fiber.Fiber) :
  Fiber.fibers e !! this = Some f ->
  Fiber.m_state f <> Fiber.READY ->
  Fiber.resume this e = AssertFail.
Proof.
  intros Hthis Hst.
  unfold Fiber.resume, Fiber.load, bind, get, assert, deref, ret.
  simpl. rewrite Hthis. simpl.
  destruct (Fiber.m_state f); [congruence | reflexivity | reflexivity].
Qed.

(** X1. [resume] on a READY coroutine makes it the current one, marks it
    RUNNING and switches from its partner to it, leaving every other
    coroutine's record as it was; on a TERM or RUNNING coroutine the
    assertion of [resume] aborts the run. *)
Theorem resume_transition (e : Fiber.Env) (this : nat) (f : Fiber.Fiber)
    (p : nat) (pf : Fiber.Fiber)
    (Hthis : Fiber.fibers e !! this = Some f)
    (Hpartner : (if Fiber.m_runInScheduler f then Fiber.t_scheduler_fiber e
                 else Fiber.t_thread_fiber e) = Some p)
    (Hpf : Fiber.fibers e !! p = Some pf) :
  (Fiber.m_state f = Fiber.READY ->
   Fiber.resume this e
   = Ok (tt, Fiber.mkEnv (Fiber.s_fiber_id e)
               (<[this := Fiber.set_state Fiber.RUNNING f]> (Fiber.fibers e))
               (Some this) (Fiber.t_thread_fiber e)
               (Fiber.t_scheduler_fiber e)
               (Fiber.switches e ++ [(p, this)])))
  /\ (Fiber.m_state f <> Fiber.READY -> Fiber.resume this e = AssertFail).
Proof.
  split.
  - apply (resume_READY e this f p pf); assumption.
  - apply (resume_not_READY e this f); assumption.
Qed.

Lemma resume_transition_witness :
  Fiber.resume 1 env_ready
  = Ok (tt, Fiber.mkEnv 2 [main_fiber; child_fiber Fiber.RUNNING]
              (Some 1%nat) (Some 0%nat) None [(0%nat, 1%nat)])
  /\ Fiber.resume 1 (env_child Fiber.TERM) = AssertFail.
Proof.
  split.
  - exact (proj1 (resume_transition env_ready 1 (child_fiber Fiber.READY) 0
                    main_fiber eq_refl eq_refl eq_refl) eq_refl).
  - apply (proj2 (resume_transition (env_child Fiber.TERM) 1
                    (child_fiber Fiber.TERM) 0 main_fiber
                    eq_refl eq_refl eq_refl)).
    discriminate.
Defined.

(** X2. [resume] of a READY coroutine followed by its [yield] gives every
    coroutine record back as it was; the two switches are recorded, and
    the current coroutine is the thread's main one, whichever coroutine
    was current before. *)
Theorem resume_yield_restores (e : Fiber.Env) (this : nat) (f : Fiber.Fiber)
    (p : nat) (pf : Fiber.Fiber)
    (Hthis : Fiber.fibers e !! this = Some f)
    (Hready : Fiber.m_state f = Fiber.READY)
    (Hpartner : (if Fiber.m_runInScheduler f then Fiber.t_scheduler_fiber e
                 else Fiber.t_thread_fiber e) = Some p)
    (Hpf : Fiber.fibers e !! p = Some pf) :
  (Fiber.resume this ;;; Fiber.yield this) e
  = Ok (tt, Fiber.mkEnv (Fiber.s_fiber_id e) (Fiber.fibers e)
              (Fiber.t_thread_fiber e) (Fiber.t_thread_fiber e)
              (Fiber.t_scheduler_fiber e)
              (Fiber.switches e ++ [(p, this); (this, p)])).
Proof.
  pose proof (resume_READY e this f p pf Hthis Hpartner Hpf Hready) as Hres.
  rewrite (bind_Ok_intro _ _ _ _ _ Hres).
  assert (Hlt : (this < length (Fiber.fibers e))%nat)
    by (eapply lookup_lt_Some; eauto).
  assert (Hp' : exists pf',
            <[this := Fiber.set_state Fiber.RUNNING f]> (Fiber.fibers e) !! p
            = Some pf').
  { destruct (decide (this = p)) as [<- | Hne].
    - eexists. apply list_lookup_insert_eq. exact Hlt.
    - exists pf. rewrite list_lookup_insert_ne by exact Hne. exact Hpf. }
  destruct Hp' as [pf' Hpf'].
  erewrite yield_RUNNING.
  - simpl. rewrite list_insert_insert_eq.
    replace (Fiber.set_state Fiber.READY (Fiber.set_state Fiber.RUNNING f))
      with f by (destruct f; simpl in *; subst; reflexivity).
    rewrite list_insert_id by exact Hthis.
    rewrite <- app_assoc. reflexivity.
  - simpl. apply list_lookup_insert_eq. exact Hlt.
  - simpl. exact Hpartner.
  - simpl. exact Hpf'.
  - reflexivity.
Qed.

Lemma resume_yield_restores_witness :
  (Fiber.resume 1 ;;; Fiber.yield 1) env_ready
  = Ok (tt, Fiber.mkEnv 2 [main_fiber; child_fiber Fiber.READY]
              (Some 0%nat) (Some 0%nat) None
              [(0%nat, 1%nat); (1%nat, 0%nat)]).
Proof.
  exact (resume_yield_restores env_ready 1 (child_fiber Fiber.READY) 0
           main_fiber eq_refl eq_refl eq_refl eq_refl).
Defined.

(** X3. [Fiber::GetThis] answers the current coroutine and is idempotent;
    on a thread that has none yet it creates the main coroutine, RUNNING
    and without a stack, takes its id from the counter and makes it both
    the current and the main coroutine of the thread; it never touches a
    coroutine that exists. *)
Theorem GetThis_creates_main_once (e : Fiber.Env) :
  exists p e1,
    Fiber.GetThis e = Ok (p, e1)
    /\ Fiber.GetThis e1 = Ok (p, e1)
    /\ Fiber.t_fiber e1 = Some p
    /\ (forall q f, Fiber.fibers e !! q = Some f ->
                    Fiber.fibers e1 !! q = Some f)
    /\ (forall q, Fiber.t_fiber e = Some q -> p = q /\ e1 = e)
    /\ (Fiber.t_fiber e = None ->
        p = length (Fiber.fibers e)
        /\ Fiber.fibers e1 !! p
           = Some (Fiber.mkFiber (Fiber.s_fiber_id e) false Fiber.RUNNING
                     None false)
        /\ Fiber.t_thread_fiber e1 = Some p
        /\ Fiber.s_fiber_id e1 = Fiber.wrap_id (Fiber.s_fiber_id e + 1)).
Proof.
  unfold Fiber.GetThis, bind, get, put, ret.
  destruct (Fiber.t_fiber e) as [q |] eqn:Hq; simpl.
  - exists q, e. rewrite Hq.
    split; [reflexivity |]. split; [reflexivity |]. split; [reflexivity |].
    split; [tauto |].
    split; [intros q' Hq'; split; congruence | discriminate].
  - eexists. eexists. split; [reflexivity |]. simpl.
    split; [reflexivity |]. split; [reflexivity |].
    split; [intros q f Hf; apply lookup_app_l_Some; exact Hf |].
    split; [discriminate |]. intros _.
    split; [reflexivity |].
    split; [rewrite lookup_app_r by reflexivity;
            rewrite Nat.sub_diag; reflexivity |].
    split; reflexivity.
Qed.

(** X4. [reset] makes a coroutine READY with the new callback whatever its
    state was (the state is only logged, not asserted), so a coroutine that
    [resume] refuses because it is TERM is resumed after a [reset]. *)
Theorem reset_then_resume (e : Fiber.Env) (this : nat) (f : Fiber.Fiber)
    (c : Callback) (p : nat) (pf : Fiber.Fiber)
    (Hthis : Fiber.fibers e !! this = Some f)
    (Hpartner : (if Fiber.m_runInScheduler f then Fiber.t_scheduler_fiber e
                 else Fiber.t_thread_fiber e) = Some p)
    (Hpf : Fiber.fibers e !! p = Some pf)
    (Hne : p <> this) :
  exists e',
    (Fiber.reset this c ;;; Fiber.resume this) e = Ok (tt, e')
    /\ Fiber.fibers e' !! this
       = Some (Fiber.mkFiber (Fiber.m_id f) (Fiber.m_stack f) Fiber.RUNNING
                 (Some c) (Fiber.m_runInScheduler f))
    /\ Fiber.t_fiber e' = Some this
    /\ Fiber.switches e' = Fiber.switches e ++ [(p, this)]
    /\ (forall q, q <> this -> Fiber.fibers e' !! q = Fiber.fibers e !! q).
Proof.
  assert (Hlt : (this < length (Fiber.fibers e))%nat)
    by (eapply lookup_lt_Some; eauto).
  assert (Hreset : Fiber.reset this c e
                   = Ok (tt, Fiber.set_fibers
                               (<[this := Fiber.set_state Fiber.READY
                                            (Fiber.set_cb (Some c) f)]>
                                  (Fiber.fibers e)) e)).
  { unfold Fiber.reset, Fiber.load, Fiber.store, bind, get, modify, deref,
      ret. simpl. rewrite Hthis. reflexivity. }
  rewrite (bind_Ok_intro _ _ _ _ _ Hreset).
  pose proof (resume_READY
                (Fiber.set_fibers
                   (<[this := Fiber.set_state Fiber.READY
                                (Fiber.set_cb (Some c) f)]>
                      (Fiber.fibers e)) e)
                this
                (Fiber.set_state Fiber.READY (Fiber.set_cb (Some c) f))
                p pf) as Hres.
  simpl in Hres.
  rewrite list_lookup_insert_eq in Hres by exact Hlt.
  rewrite list_lookup_insert_ne in Hres by congruence.
  specialize (Hres eq_refl Hpartner Hpf eq_refl).
  rewrite Hres. eexists. split; [reflexivity |]. simpl.
  rewrite list_insert_insert_eq.
  split; [apply list_lookup_insert_eq; exact Hlt |].
  split; [reflexivity |]. split; [reflexivity |].
  intros q Hq. apply list_lookup_insert_ne. congruence.
Qed.

Lemma reset_then_resume_witness :
  Fiber.resume 1 (env_child Fiber.TERM) = AssertFail
  /\ exists e',
       (Fiber.reset 1 (UserCb 5) ;;; Fiber.resume 1) (env_child Fiber.TERM)
       = Ok (tt, e')
       /\ Fiber.fibers e' !! 1%nat
          = Some (Fiber.mkFiber 1 true Fiber.RUNNING (Some (UserCb 5)) false).
Proof.
  split; [reflexivity |].
  destruct (reset_then_resume (env_child Fiber.TERM) 1
              (child_fiber Fiber.TERM) (UserCb 5) 0 main_fiber
              eq_refl eq_refl eq_refl) as (e' & H & Hf & _).
  - discriminate.
  - exists e'. split; [exact H | exact Hf].
Defined.

(** X5. When the function of a coroutine returns, [MainFunc] drops the
    callback, marks the coroutine TERM and yields to its partner; the
    coroutine is finished for good, a later [resume] of it aborts. *)
Theorem finished_coroutine_is_TERM (e : Fiber.Env) (cur : nat)
    (f : Fiber.Fiber) (p : nat) (pf : Fiber.Fiber)
    (Hcur : Fiber.t_fiber e = Some cur)
    (Hf : Fiber.fibers e !! cur = Some f)
    (Hpartner : (if Fiber.m_runInScheduler f then Fiber.t_scheduler_fiber e
                 else Fiber.t_thread_fiber e) = Some p)
    (Hpf : Fiber.fibers e !! p = Some pf)
    (Hne : p <> cur) :
  exists e',
    Fiber.MainFunc_exit e = Ok (tt, e')
    /\ Fiber.fibers e' !! cur
       = Some (Fiber.mkFiber (Fiber.m_id f) (Fiber.m_stack f) Fiber.TERM None
                 (Fiber.m_runInScheduler f))
    /\ Fiber.t_fiber e' = Fiber.t_thread_fiber e
    /\ Fiber.switches e' = Fiber.switches e ++ [(cur, p)]
    /\ Fiber.resume cur e' = AssertFail
    /\ Fiber.yield cur e' <> AssertFail.
Proof.
  assert (Hlt : (cur < length (Fiber.fibers e))%nat)
    by (eapply lookup_lt_Some; eauto).
  set (f' := Fiber.set_state Fiber.TERM (Fiber.set_cb None f)).
  set (e1 := Fiber.set_fibers (<[cur := f']> (Fiber.fibers e)) e).
  assert (Hf1 : Fiber.fibers e1 !! cur = Some f')
    by (apply list_lookup_insert_eq; exact Hlt).
  assert (Hp1 : Fiber.fibers e1 !! p = Some pf)
    by (unfold e1; simpl; rewrite list_lookup_insert_ne by congruence;
        exact Hpf).
  assert (Hy : Fiber.yield cur e1
               = Ok (tt, Fiber.mkEnv (Fiber.s_fiber_id e1) (Fiber.fibers e1)
                           (Fiber.t_thread_fiber e1) (Fiber.t_thread_fiber e1)
                           (Fiber.t_scheduler_fiber e1)
                           (Fiber.switches e1 ++ [(cur, p)]))).
  { apply (yield_TERM e1 cur f' p pf Hf1 Hpartner Hp1). reflexivity. }
  assert (Hrun : Fiber.MainFunc_exit e
                 = Ok (tt, Fiber.mkEnv (Fiber.s_fiber_id e1) (Fiber.fibers e1)
                             (Fiber.t_thread_fiber e1)
                             (Fiber.t_thread_fiber e1)
                             (Fiber.t_scheduler_fiber e1)
                             (Fiber.switches e1 ++ [(cur, p)]))).
  { unfold Fiber.MainFunc_exit.
    assert (Hg : Fiber.GetThis e = Ok (cur, e))
      by (unfold Fiber.GetThis, bind, get, ret; simpl; rewrite Hcur;
          reflexivity).
    rewrite (bind_Ok_intro _ _ _ _ _ Hg).
    assert (Hl : Fiber.load cur e = Ok (f, e))
      by (unfold Fiber.load, bind, get, deref; simpl; rewrite Hf;
          reflexivity).
    rewrite (bind_Ok_intro _ _ _ _ _ Hl).
    assert (Hs : Fiber.store cur f' e = Ok (tt, e1)) by reflexivity.
    rewrite (bind_Ok_intro _ _ _ _ _ Hs). exact Hy. }
  eexists. split; [exact Hrun |]. simpl.
  split; [exact Hf1 |]. split; [reflexivity |]. split; [reflexivity |].
  split.
  - eapply resume_not_READY; [simpl; exact Hf1 | discriminate].
  - erewrite yield_TERM; [discriminate | simpl; exact Hf1 | exact Hpartner
                         | simpl; exact Hp1 | reflexivity].
Qed.

Lemma finished_coroutine_is_TERM_witness :
  exists e',
    Fiber.MainFunc_exit (env_child Fiber.RUNNING) = Ok (tt, e')
    /\ Fiber.fibers e' !! 1%nat
       = Some (Fiber.mkFiber 1 true Fiber.TERM None false)
    /\ Fiber.resume 1 e' = AssertFail.
Proof.
  destruct (finished_coroutine_is_TERM (env_child Fiber.RUNNING) 1
              (child_fiber Fiber.RUNNING) 0 main_fiber
              eq_refl eq_refl eq_refl eq_refl)
    as (e' & H & Hf & _ & _ & Hr & _).
  - discriminate.
  - exists e'. split; [exact H |]. split; [exact Hf | exact Hr].
Defined.

(** ** scheduler.cc *)

Lemma scan_tasks_spec (tid : Z) (l : list ScheduleTask) :
  Forall (fun x => pinned_elsewhere tid x = true) (fst (scan_tasks tid l))
  /\ match snd (scan_tasks tid l) with
     | Some (t, rest) =>
         l = fst (scan_tasks tid l) ++ t :: rest
         /\ pinned_elsewhere tid t = false
     | None => l = fst (scan_tasks tid l)
     end.
Proof.
  induction l as [| x r IH]; simpl.
  - split; [constructor | reflexivity].
  - destruct (pinned_elsewhere tid x) eqn:Hx; simpl.
    + destruct IH as [IH1 IH2]. split; [constructor; assumption |].
      destruct (snd (scan_tasks tid r)) as [[t rest] |].
      * destruct IH2 as [Hr Ht]. split; [| exact Ht].
        simpl. f_equal. exact Hr.
      * f_equal. exact IH2.
    + split; [constructor |]. split; [reflexivity | exact Hx].
Qed.

Lemma nonempty_app {A : Type} (l r : list A) :
  nonempty l || nonempty r = nonempty (l ++ r).
Proof. destruct l, r; reflexivity. Qed.

(** X6. The scan at the head of the loop of [Scheduler::run] takes the
    first task of the queue that is not pinned to another thread: every
    task before it is pinned elsewhere and stays queued in order, the task
    itself leaves the queue, the count of active threads goes up by one,
    and the worker tickles exactly when it leaves the queue non-empty.
    The task taken holds a callback or a coroutine. *)
Theorem run_takes_first_eligible (p : nat) (tid : Z) (w w' : World)
    (t : ScheduleTask) (tickle_me : bool)
    (Hrun : Scheduler_run_take p tid w = Ok ((Some t, tickle_me), w')) :
  exists s skipped rest,
    scheds w !! p = Some s
    /\ m_tasks s = skipped ++ t :: rest
    /\ Forall (fun x => task_thread x <> -1 /\ task_thread x <> tid) skipped
    /\ (task_thread t = -1 \/ task_thread t = tid)
    /\ (task_fiber t <> None \/ task_cb t <> None)
    /\ scheds w'
       = <[p := mkScheduler (m_stopping s) (skipped ++ rest)
                  (wrap64 (m_activeThreadCount s + 1))
                  (m_idleThreadCount s)]> (scheds w)
    /\ tickle_me = nonempty (skipped ++ rest)
    /\ iom w' = iom w /\ thr w' = thr w /\ krn w' = krn w
    /\ tmgr w' = tmgr w /\ hook w' = hook w.
Proof.
  unfold Scheduler_run_take in Hrun.
  split_run Hrun as s w1 Hload.
  unfold load_sched in Hload. split_run Hload as w0 w2 Hg.
  unfold get in Hg. injection Hg as <- <-.
  apply deref_Ok in Hload. destruct Hload as [Hs ->].
  pose proof (scan_tasks_spec tid (m_tasks s)) as [Hskip Hfound].
  destruct (scan_tasks tid (m_tasks s)) as [skipped [[t0 rest] |]];
    simpl in Hskip, Hfound.
  2:{ unfold ret in Hrun. discriminate Hrun. }
  destruct Hfound as [Hq Ht0].
  split_run Hrun as u1 w1 Ha. apply assert_Ok in Ha. destruct Ha as [Hwork ->].
  split_run Hrun as u2 w2 Hst.
  assert (Hw2 : w2 = w).
  { destruct (task_fiber t0) as [f |].
    - split_run Hst as st w3 Hgs. apply getState_frame in Hgs.
      apply assert_Ok in Hst. destruct Hst as [_ ->].
      destruct Hgs as (Hi & Hsc & Htm & Hh & Hk & Hts & Hth).
      destruct w, w3; simpl in *; congruence.
    - unfold ret in Hst. injection Hst as _ <-. reflexivity. }
  subst w2.
  split_run Hrun as u3 w3 Hm. unfold modify in Hm. injection Hm as _ <-.
  unfold ret in Hrun. injection Hrun as <- <- <-.
  exists s, skipped, rest.
  split; [exact Hs |]. split; [exact Hq |].
  split.
  { eapply Forall_impl; [exact Hskip |]. intros x Hx.
    unfold pinned_elsewhere in Hx. apply andb_true_iff in Hx.
    destruct Hx as [H1 H2]. apply negb_true_iff in H1, H2. lia. }
  split.
  { unfold pinned_elsewhere in Ht0. apply andb_false_iff in Ht0.
    destruct Ht0 as [H1 | H1]; apply negb_false_iff in H1; lia. }
  split.
  { destruct (task_fiber t0), (task_cb t0); try discriminate Hwork;
      (left; discriminate) || (right; discriminate). }
  split; [reflexivity |]. split; [apply nonempty_app |].
  repeat split.
Qed.

Lemma run_takes_first_eligible_witness :
  exists w',
    Scheduler_run_take 0 7 (sample_with_queue sample_queue)
    = Ok ((Some (mkTask None (Some (UserCb 2)) (-1)), true), w')
    /\ m_tasks <$> scheds w' !! 0%nat
       = Some [mkTask None (Some (UserCb 1)) 9;
               mkTask None (Some (UserCb 3)) 7]
    /\ m_activeThreadCount <$> scheds w' !! 0%nat = Some 1.
Proof.
  assert (Hrun : exists w',
             Scheduler_run_take 0 7 (sample_with_queue sample_queue)
             = Ok ((Some (mkTask None (Some (UserCb 2)) (-1)), true), w')).
  { eexists. vm_compute. reflexivity. }
  destruct Hrun as [w' Hrun]. exists w'. split; [exact Hrun |].
  destruct (run_takes_first_eligible _ _ _ _ _ _ Hrun)
    as (s & skipped & rest & Hs & Hq & _ & _ & _ & Hw' & _).
  injection Hs as <-. simpl in Hq.
  assert (Hsk : skipped = [mkTask None (Some (UserCb 1)) 9]
                /\ rest = [mkTask None (Some (UserCb 3)) 7]).
  { destruct skipped as [| a [| b [| c sk]]]; simpl in Hq;
      try discriminate Hq.
    - inversion Hq; subst. split; reflexivity.
    - destruct sk; discriminate Hq. }
  destruct Hsk as [-> ->]. rewrite Hw'. split; reflexivity.
Defined.

(** X7. When the scan of [Scheduler::run] takes nothing, the queue holds
    only tasks pinned to other threads and is left as it was, no counter
    moves, and the worker tickles exactly when the queue is non-empty. *)
Theorem run_takes_nothing (p : nat) (tid : Z) (w w' : World)
    (tickle_me : bool)
    (Hrun : Scheduler_run_take p tid w = Ok ((None, tickle_me), w')) :
  w' = w
  /\ exists s,
       scheds w !! p = Some s
       /\ Forall (fun x => task_thread x <> -1 /\ task_thread x <> tid)
            (m_tasks s)
       /\ tickle_me = nonempty (m_tasks s).
Proof.
  unfold Scheduler_run_take in Hrun.
  split_run Hrun as s w1 Hload.
  unfold load_sched in Hload. split_run Hload as w0 w2 Hg.
  unfold get in Hg. injection Hg as <- <-.
  apply deref_Ok in Hload. destruct Hload as [Hs ->].
  pose proof (scan_tasks_spec tid (m_tasks s)) as [Hskip Hfound].
  destruct (scan_tasks tid (m_tasks s)) as [skipped [[t0 rest] |]];
    simpl in Hskip, Hfound.
  { split_run Hrun as u1 w1 Ha. split_run Hrun as u2 w2 Hst.
    split_run Hrun as u3 w3 Hm. unfold ret in Hrun. discriminate Hrun. }
  unfold ret in Hrun. injection Hrun as <- <-.
  split; [reflexivity |]. exists s. split; [exact Hs |].
  rewrite Hfound. split; [| reflexivity].
  eapply Forall_impl; [exact Hskip |]. intros x Hx.
  unfold pinned_elsewhere in Hx. apply andb_true_iff in Hx.
  destruct Hx as [H1 H2]. apply negb_true_iff in H1, H2. lia.
Qed.

Lemma run_takes_nothing_witness :
  Scheduler_run_take 0 7
    (sample_with_queue [mkTask None (Some (UserCb 1)) 9])
  = Ok ((None, true), sample_with_queue [mkTask None (Some (UserCb 1)) 9])
  /\ Scheduler_run_take 0 7 (sample_with_queue []) 
     = Ok ((None, false), sample_with_queue []).
Proof.
  assert (H1 : exists w',
             Scheduler_run_take 0 7
               (sample_with_queue [mkTask None (Some (UserCb 1)) 9])
             = Ok ((None, true), w')).
  { eexists. vm_compute. reflexivity. }
  assert (H2 : exists w',
             Scheduler_run_take 0 7 (sample_with_queue [])
             = Ok ((None, false), w')).
  { eexists. vm_compute. reflexivity. }
  destruct H1 as [w1 H1]. destruct H2 as [w2 H2].
  pose proof (run_takes_nothing _ _ _ _ _ H1) as [E1 _].
  pose proof (run_takes_nothing _ _ _ _ _ H2) as [E2 _].
  rewrite <- E1 at 2. rewrite <- E2 at 2. split; assumption.
Defined.

(** ** iomanager.cc: removing what is not there, and a kernel that refuses *)

Lemma fd_ctx_at_run (fd : Z) (w : World) (c : FdContext) :
  0 <= fd -> m_fdContexts (iom w) !! Z.to_nat fd = Some c ->
  fd_ctx_at fd w = Ok (c, w).
Proof.
  intros Hfd Hc. unfold fd_ctx_at, bind, get, deref.
  destruct (Z.ltb_spec fd 0) as [Hneg | _]; [lia |].
  rewrite Hc. reflexivity.
Qed.

Lemma table_lookup_view (w : World) (fd : Z) :
  0 <= fd ->
  (Z.of_nat (length (m_fdContexts (iom w))) <=? fd) = false ->
  m_fdContexts (iom w) !! Z.to_nat fd = Some (fd_context_of w fd).
Proof.
  intros Hfd Hlen. apply Z.leb_gt in Hlen.
  destruct (lookup_lt_is_Some_2 (m_fdContexts (iom w)) (Z.to_nat fd))
    as [c Hc]; [lia |].
  unfold fd_context_of. rewrite Hc. reflexivity.
Qed.

Lemma events_of_beyond (w : World) (fd : Z) :
  (Z.of_nat (length (m_fdContexts (iom w))) <=? fd) = true ->
  events_of w fd = 0.
Proof.
  intros Hlen. apply Z.leb_le in Hlen. unfold events_of, fd_context_of.
  rewrite lookup_ge_None_2 by lia. reflexivity.
Qed.

(** X8. Removing a direction that is not registered does nothing:
    [delEvent] and [cancelEvent] on a descriptor whose mask lacks the
    direction, and [cancelAll] on a descriptor with an empty mask, return
    [false] and leave the whole state as it was; the kernel is not called
    and nothing is scheduled. A descriptor beyond the table counts as one
    with an empty mask. *)
Theorem removal_of_unregistered_is_noop (w : World) (fd event : Z)
    (Hfd : 0 <= fd) :
  (Z.land (events_of w fd) event = 0 ->
   delEvent fd event w = Ok (false, w)
   /\ cancelEvent fd event w = Ok (false, w))
  /\ (events_of w fd = 0 -> cancelAll fd w = Ok (false, w)).
Proof.
  destruct (Z.of_nat (length (m_fdContexts (iom w))) <=? fd) eqn:Hlen.
  - pose proof (events_of_beyond w fd Hlen) as _.
    unfold delEvent, cancelEvent, cancelAll, bind, get. simpl.
    rewrite Hlen. repeat split.
  - pose proof (table_lookup_view w fd Hfd Hlen) as Hc.
    pose proof (fd_ctx_at_run fd w _ Hfd Hc) as Hat.
    split; [intros H0; split | intros H0].
    + unfold delEvent. unfold bind at 1. unfold get at 1. cbv beta iota.
      rewrite Hlen. rewrite (bind_Ok_intro _ _ _ _ _ Hat).
      fold (events_of w fd). rewrite H0. reflexivity.
    + unfold cancelEvent. unfold bind at 1. unfold get at 1. cbv beta iota.
      rewrite Hlen. rewrite (bind_Ok_intro _ _ _ _ _ Hat).
      fold (events_of w fd). rewrite H0. reflexivity.
    + unfold cancelAll. unfold bind at 1. unfold get at 1. cbv beta iota.
      rewrite Hlen. rewrite (bind_Ok_intro _ _ _ _ _ Hat).
      fold (events_of w fd). rewrite H0. reflexivity.
Qed.

Lemma removal_of_unregistered_is_noop_witness :
  delEvent 5 READ (sample_world [] [] [] [])
  = Ok (false, sample_world [] [] [] [])
  /\ cancelEvent 5 WRITE (sample_registered [])
     = Ok (false, sample_registered [])
  /\ cancelAll 40 (sample_registered []) = Ok (false, sample_registered []).
Proof.
  split; [| split].
  - exact (proj1 (proj1 (removal_of_unregistered_is_noop
                           (sample_world [] [] [] []) 5 READ ltac:(lia))
                    eq_refl)).
  - exact (proj2 (proj1 (removal_of_unregistered_is_noop
                           (sample_registered []) 5 WRITE ltac:(lia))
                    eq_refl)).
  - exact (proj2 (removal_of_unregistered_is_noop
                    (sample_registered []) 40 READ ltac:(lia)) eq_refl).
Defined.

Lemma k_epoll_ctl_run (op fd ev : Z) (w : World) (rt : Z) (rest : list Z) :
  epoll_ctl_rt (krn w) = rt :: rest ->
  in_krn (k_epoll_ctl op fd ev) w
  = Ok (rt, with_krn
              (mkKernel (errno (krn w)) (now_ms (krn w)) rest
                 (epoll_ctl_log (krn w) ++ [(op, fd, ev)])
                 (epoll_wait_rt (krn w)) (epoll_wait_log (krn w))
                 (fcntl_rt (krn w)) (fcntl_log (krn w)) (io_rt (krn w))
                 (io_calls (krn w)) (pipe_bytes (krn w))) w).
Proof.
  intros Hs. unfold in_krn, zoom, k_epoll_ctl. rewrite Hs. reflexivity.
Qed.

(** X9. When the kernel refuses the change, [delEvent], [cancelEvent] and
    [cancelAll] return [false] and the library's records stay as they
    were: the table of contexts, the pending count and every queue are
    untouched and nothing is triggered. The one call made is
    [epoll_ctl] with MOD and the remaining mask when another direction
    stays registered, with DEL otherwise; [cancelAll] always asks for DEL
    with an empty mask. *)
Theorem refused_removal_keeps_registration (w : World) (fd event rt : Z)
    (rest : list Z) (c : FdContext)
    (Hfd : 0 <= fd)
    (Hctx : m_fdContexts (iom w) !! Z.to_nat fd = Some c)
    (Hreg : Z.land (events c) event <> 0)
    (Hscript : epoll_ctl_rt (krn w) = rt :: rest)
    (Hrt : rt <> 0) :
  let left_events := Z.land (events c) (Z.lnot event) in
  let op := if truthy left_events then EPOLL_CTL_MOD else EPOLL_CTL_DEL in
  (exists w',
     delEvent fd event w = Ok (false, w')
     /\ cancelEvent fd event w = Ok (false, w')
     /\ iom w' = iom w /\ scheds w' = scheds w /\ thr w' = thr w
     /\ tmgr w' = tmgr w /\ hook w' = hook w
     /\ epoll_ctl_log (krn w')
        = epoll_ctl_log (krn w) ++ [(op, fd, Z.lor EPOLLET left_events)])
  /\ (exists w',
        cancelAll fd w = Ok (false, w')
        /\ iom w' = iom w /\ scheds w' = scheds w /\ thr w' = thr w
        /\ tmgr w' = tmgr w /\ hook w' = hook w
        /\ epoll_ctl_log (krn w')
           = epoll_ctl_log (krn w) ++ [(EPOLL_CTL_DEL, fd, 0)]).
Proof.
  intros left_events op.
  assert (Hlen : (Z.of_nat (length (m_fdContexts (iom w))) <=? fd) = false).
  { apply Z.leb_gt. apply lookup_lt_Some in Hctx. lia. }
  pose proof (fd_ctx_at_run fd w c Hfd Hctx) as Hat.
  assert (Hbit : truthy (Z.land (events c) event) = true)
    by (apply truthy_true_iff; exact Hreg).
  assert (Hany : truthy (events c) = true).
  { apply truthy_true_iff. intros H0. apply Hreg. rewrite H0.
    apply Z.land_0_l. }
  assert (Hno : truthy rt = true) by (apply truthy_true_iff; exact Hrt).
  split.
  - eexists. split; [| split].
    + unfold delEvent. unfold bind at 1. unfold get at 1. cbv beta iota.
      rewrite Hlen. rewrite (bind_Ok_intro _ _ _ _ _ Hat).
      rewrite Hbit. change (negb true) with false. cbv beta iota zeta.
      rewrite (bind_Ok_intro _ _ _ _ _
                 (k_epoll_ctl_run _ _ _ _ _ _ Hscript)).
      rewrite Hno. reflexivity.
    + unfold cancelEvent. unfold bind at 1. unfold get at 1. cbv beta iota.
      rewrite Hlen. rewrite (bind_Ok_intro _ _ _ _ _ Hat).
      rewrite Hbit. change (negb true) with false. cbv beta iota zeta.
      rewrite (bind_Ok_intro _ _ _ _ _
                 (k_epoll_ctl_run _ _ _ _ _ _ Hscript)).
      rewrite Hno. reflexivity.
    + simpl. repeat split.
  - eexists. split.
    + unfold cancelAll. unfold bind at 1. unfold get at 1. cbv beta iota.
      rewrite Hlen. rewrite (bind_Ok_intro _ _ _ _ _ Hat).
      rewrite Hany. change (negb true) with false. cbv beta iota zeta.
      rewrite (bind_Ok_intro _ _ _ _ _
                 (k_epoll_ctl_run _ _ _ _ _ _ Hscript)).
      rewrite Hno. reflexivity.
    + simpl. repeat split.
Qed.

Lemma refused_removal_keeps_registration_witness :
  exists w',
    delEvent 5 READ (sample_registered [-1]) = Ok (false, w')
    /\ cancelEvent 5 READ (sample_registered [-1]) = Ok (false, w')
    /\ iom w' = iom (sample_registered [-1])
    /\ epoll_ctl_log (krn w') = [(EPOLL_CTL_DEL, 5, EPOLLET)].
Proof.
  destruct (refused_removal_keeps_registration (sample_registered [-1]) 5
              READ (-1) []
              (mkFdContext (mkEventContext (Some 0%nat) None (Some (UserCb 7)))
                 emptyEventContext 5 READ))
    as [(w' & Hd & Hc & Hi & _ & _ & _ & _ & Hlog) _].
  - lia.
  - reflexivity.
  - discriminate.
  - reflexivity.
  - discriminate.
  - exists w'. split; [exact Hd |]. split; [exact Hc |].
    split; [exact Hi | exact Hlog].
Defined.

(** ** iomanager.cc: what a successful [addEvent] leaves behind *)

Lemma fcntl_GETFL_inv (fd a : Z) (w : World) (r : Z) (w' : World) :
  fcntl fd F_GETFL a w = Ok (r, w') ->
  hook w' = hook w /\ epoll_ctl_log (krn w') = epoll_ctl_log (krn w).
Proof.
  intros H.
  unfold fcntl, FdMgr_get, setUserNonblock, in_krn, zoom, k_fcntl_f,
    bind, get, modify, ret in H.
  crush_run H; simpl; repeat split.
Qed.



Lemma fcntl_SETFL_inv (fd a : Z) (w : World) (r : Z) (w' : World) :
  fcntl fd F_SETFL a w = Ok (r, w') ->
  epoll_ctl_log (krn w') = epoll_ctl_log (krn w)
  /\ t_hook_enable (hook w') = t_hook_enable (hook w)
  /\ m_datas (hook w')
     = match m_datas (hook w) !! fd with
       | Some ctx =>
           if isClose ctx || negb (isSocket ctx) then m_datas (hook w)
           else <[fd := marked (truthy (Z.land a O_NONBLOCK)) ctx]>
                  (m_datas (hook w))
       | None => m_datas (hook w)
       end.
Proof.
  intros H.
  unfold fcntl, FdMgr_get, setUserNonblock, in_krn, zoom, k_fcntl_f,
    bind, get, modify, ret in H.
  change (F_SETFL =? F_SETFL) with true in H. cbv iota in H.
  crush_run H; simpl;
    repeat match goal with
           | E : ?l = _ |- context [?l] => rewrite E
           end; repeat split.
Qed.

Lemma setnonblocking_marks (fd : Z) (w : World) (r : Z) (w' : World) :
  setnonblocking fd w = Ok (r, w') ->
  epoll_ctl_log (krn w') = epoll_ctl_log (krn w)
  /\ t_hook_enable (hook w') = t_hook_enable (hook w)
  /\ m_datas (hook w')
     = match m_datas (hook w) !! fd with
       | Some ctx =>
           if isClose ctx || negb (isSocket ctx) then m_datas (hook w)
           else <[fd := marked true ctx]> (m_datas (hook w))
       | None => m_datas (hook w)
       end.
Proof.
  intros H. unfold setnonblocking in H.
  split_run H as old w1 Hget. apply fcntl_GETFL_inv in Hget.
  destruct Hget as [Hh1 Hl1].
  split_run H as r2 w2 Hset. apply fcntl_SETFL_inv in Hset.
  destruct Hset as (Hl2 & He2 & Hd2).
  unfold ret in H. injection H as _ <-.
  rewrite Hh1 in *. rewrite land_lor_same in Hd2.
  change (truthy O_NONBLOCK) with true in Hd2.
  split; [congruence |]. split; [exact He2 | exact Hd2].
Qed.

(** What [addEvent] did when it returned 0, with the slot it filled, the
    call it made and what it did to the hooks' table. *)
Lemma addEvent_zero_full (fd event : Z) (callback : option Callback)
    (w w' : World) :
  addEvent fd event callback w = Ok (0, w') ->
  exists l,
    l !! Z.to_nat fd = Some (fd_context_of w fd)
    /\ 0 <= fd
    /\ (forall g : nat, default (newFdContext g) (l !! g)
          = default (newFdContext g) (m_fdContexts (iom w) !! g))
    /\ Z.land (events_of w fd) event = 0
    /\ (event = READ \/ event = WRITE)
    /\ (if event =? READ then read (fd_context_of w fd)
        else write (fd_context_of w fd)) = emptyEventContext
    /\ (l = m_fdContexts (iom w)
        \/ (l = resized (Z.to_nat (3 * fd / 2)) (m_fdContexts (iom w))
            /\ (length (m_fdContexts (iom w))
                <= Z.to_nat (3 * fd / 2))%nat))
    /\ iom w'
       = mkIOManager (this (iom w)) (m_tickleFds (iom w))
           (wrap64 (m_pendingEventCount (iom w) + 1))
           (<[Z.to_nat fd :=
                setEventContext event
                  (mkEventContext (t_scheduler w)
                     (match callback with
                      | Some _ => None
                      | None => Fiber.t_fiber (thr w')
                      end) callback)
                  (set_events (Z.lor (events_of w fd) event)
                     (fd_context_of w fd))]> l)
    /\ (callback = None -> Fiber.t_fiber (thr w') <> None)
    /\ epoll_ctl_log (krn w')
       = epoll_ctl_log (krn w)
         ++ [(if truthy (events_of w fd) then EPOLL_CTL_MOD
              else EPOLL_CTL_ADD, fd,
              Z.lor (Z.lor EPOLLET (events_of w fd)) event)]
    /\ t_hook_enable (hook w') = t_hook_enable (hook w)
    /\ m_datas (hook w')
       = match m_datas (hook w) !! fd with
         | Some ctx =>
             if isClose ctx || negb (isSocket ctx) then m_datas (hook w)
             else <[fd := marked true ctx]> (m_datas (hook w))
         | None => m_datas (hook w)
         end.
Proof.
  intros H. unfold addEvent in H.
  split_run H as w0 w1 Hg. unfold get in Hg. injection Hg as <- <-.
  split_run H as u1 wa Hif.
  split_run H as c wb Hat.
  destruct (addEvent_locate_inv w fd u1 wa c wb Hif Hat)
    as (Hfd & -> & l & -> & Hl & Hview & Hgrown).
  split_run H as u2 w2 Hbit. apply assert_Ok in Hbit.
  destruct Hbit as [Hbit ->].
  apply negb_true_iff, truthy_false_iff in Hbit.
  split_run H as rt w3 Hk. apply k_epoll_ctl_inv in Hk.
  destruct Hk as (Hi3 & Hs3 & Ht3 & Htm3 & Hh3 & Hts3 & _ & _ & _ & Hlog3).
  destruct (truthy rt); [discriminate H |].
  split_run H as r4 w4 Hnb.
  pose proof (setnonblocking_marks _ _ _ _ Hnb) as (Hlog4 & Hen4 & Hd4).
  apply setnonblocking_frame in Hnb.
  destruct Hnb as (Hi4 & Hs4 & Ht4 & Htm4 & Hts4 & Hti4 & _).
  split_run H as u5 w5 Hinc. apply inc_pending_inv in Hinc. subst w5.
  split_run H as u6 w6 Hst. unfold store_fd_ctx, modify in Hst.
  injection Hst as _ <-.
  split_run H as x0 w7 Hev. apply getEventContext_inv in Hev.
  destruct Hev as [-> Hev].
  split_run H as u8 w8 Hempty. apply assert_Ok in Hempty.
  destruct Hempty as [Hempty ->].
  split_run H as sch w9 Hsch. unfold Scheduler_GetThis, bind, get, ret in Hsch.
  injection Hsch as <- <-.
  assert (Hdir : event = READ \/ event = WRITE)
    by (destruct Hev as [[-> _] | [-> _]]; auto).
  assert (Hx0 : (if event =? READ then read (fd_context_of w fd)
                 else write (fd_context_of w fd)) = emptyEventContext).
  { destruct Hev as [[-> ->] | [-> ->]]; simpl in *;
      match goal with
      | |- ?e = _ => destruct e as [[?|] [?|] [?|]]; try discriminate Hempty
      end; reflexivity. }
  simpl in *. rewrite Hi4, Hi3 in *. simpl in *.
  rewrite Hh3 in Hd4, Hen4.
  destruct callback as [f |].
  - split_run H as u10 w10 Hst. unfold store_fd_ctx, modify in Hst.
    injection Hst as _ <-. injection H as <-.
    exists l. simpl. rewrite ?Hts4, ?Hts3. unfold events_of.
    split; [exact Hl |]. split; [exact Hfd |]. split; [exact Hview |].
    split; [exact Hbit |]. split; [exact Hdir |]. split; [exact Hx0 |].
    split; [exact Hgrown |].
    split; [rewrite list_insert_insert_eq; reflexivity |].
    split; [discriminate |].
    split; [rewrite Hlog4; exact Hlog3 |].
    split; [exact Hen4 | exact Hd4].
  - split_run H as cur w10 Hcur. apply GetThis_frame in Hcur.
    destruct Hcur as (Hi10 & Hs10 & Htm10 & Hh10 & Hk10 & Hts10 & Hsw10
                      & Hcur).
    simpl in *.
    split_run H as u11 w11 Hst. unfold store_fd_ctx, modify in Hst.
    injection Hst as _ <-.
    split_run H as st w12 Hgs. apply getState_frame in Hgs.
    destruct Hgs as (Hi12 & Hs12 & Htm12 & Hh12 & Hk12 & Hts12 & Ht12).
    simpl in *.
    split_run H as u13 w13 Has. apply assert_Ok in Has.
    destruct Has as [_ ->]. injection H as <-.
    exists l. simpl.
    rewrite ?Hi12, ?Hi10. simpl. rewrite ?Hts10, ?Hts4, ?Hts3.
    rewrite Ht12, Hcur, Hh12, Hh10, Hk12, Hk10.
    unfold events_of.
    split; [exact Hl |]. split; [exact Hfd |]. split; [exact Hview |].
    split; [exact Hbit |]. split; [exact Hdir |]. split; [exact Hx0 |].
    split; [exact Hgrown |].
    split; [rewrite list_insert_insert_eq; reflexivity |].
    split; [discriminate |].
    split; [rewrite Hlog4; exact Hlog3 |].
    split; [exact Hen4 | exact Hd4].
Qed.

(** X10. [cancelEvent] hands the waiter over exactly once: after
    [addEvent] registered a direction, [cancelEvent] on it appends one
    unpinned task to the queue of the scheduler that was current at
    registration, holding the callback that was given or else the
    coroutine that registered, and gives back every fd context and the
    pending count as they were before the registration. *)
Theorem cancelEvent_schedules_registered_work (w w1 w2 : World) (fd d : Z)
    (callback : option Callback)
    (Hcount : 0 <= pending w < 2 ^ 64)
    (Hadd : addEvent fd d callback w = Ok (0, w1))
    (Hcancel : cancelEvent fd d w1 = Ok (true, w2)) :
  exists p s,
    t_scheduler w = Some p
    /\ scheds w !! p = Some s
    /\ scheds w2
       = <[p := mkScheduler (m_stopping s)
                  (m_tasks s
                   ++ [match callback with
                       | Some k => mkTask None (Some k) (-1)
                       | None => mkTask (Fiber.t_fiber (thr w1)) None (-1)
                       end])
                  (m_activeThreadCount s) (m_idleThreadCount s)]>
           (scheds w)
    /\ (callback = None -> Fiber.t_fiber (thr w1) <> None)
    /\ (forall g, fd_context_of w2 g = fd_context_of w g)
    /\ pending w2 = pending w.
Proof.
  pose proof (addEvent_zero_obs _ _ _ _ _ Hadd)
    as (_ & _ & _ & Hp1 & Hs1 & _).
  pose proof (cancelEvent_true_obs _ _ _ _ Hcancel)
    as (_ & _ & _ & Hp2 & _).
  apply addEvent_zero_full in Hadd.
  destruct Hadd as (l & Hl & Hfd & Hview & Hbit & Hdir & Hempty & _ & Hi1
                    & Hfib & _).
  apply cancelEvent_true_inv in Hcancel.
  destruct Hcancel as (c1 & p & s & _ & Hc1 & _ & _ & Hi2 & _ & _ & _ & Hp
                       & Hsp & Hs2).
  rewrite Hi1 in Hc1, Hi2. simpl in Hc1, Hi2.
  rewrite list_lookup_insert_eq in Hc1 by (eapply lookup_lt_Some; eauto).
  injection Hc1 as <-.
  rewrite list_insert_insert_eq in Hi2.
  unfold events_of in Hi2 at 1.
  rewrite context_add_reset in Hi2 by assumption.
  assert (Hslot : (if d =? READ
                   then read (setEventContext d
                                (mkEventContext (t_scheduler w)
                                   (match callback with
                                    | Some _ => None
                                    | None => Fiber.t_fiber (thr w1)
                                    end) callback)
                                (set_events (Z.lor (events_of w fd) d)
                                   (fd_context_of w fd)))
                   else write (setEventContext d
                                 (mkEventContext (t_scheduler w)
                                    (match callback with
                                     | Some _ => None
                                     | None => Fiber.t_fiber (thr w1)
                                     end) callback)
                                 (set_events (Z.lor (events_of w fd) d)
                                    (fd_context_of w fd))))
                  = mkEventContext (t_scheduler w)
                      (match callback with
                       | Some _ => None
                       | None => Fiber.t_fiber (thr w1)
                       end) callback).
  { destruct Hdir as [-> | ->]; reflexivity. }
  rewrite Hslot in Hp, Hs2. simpl in Hp, Hs2.
  exists p, s. split; [exact Hp |].
  split; [rewrite <- Hs1; exact Hsp |].
  split.
  { rewrite Hs2, Hs1. destruct callback; reflexivity. }
  split; [exact Hfib |].
  split.
  { intros g. unfold fd_context_of at 1. rewrite Hi2. simpl.
    rewrite list_insert_id by exact Hl.
    unfold fd_context_of. apply Hview. }
  rewrite Hp2, Hp1. apply wrap64_inc_dec. exact Hcount.
Qed.

Lemma cancelEvent_schedules_registered_work_witness :
  exists w1 w2,
    addEvent 5 READ None (sample_world [0; 0] [2; 0] [] []) = Ok (0, w1)
    /\ cancelEvent 5 READ w1 = Ok (true, w2)
    /\ m_tasks <$> scheds w2 !! 0%nat = Some [mkTask (Some 1%nat) None (-1)]
    /\ pending w2 = 0.
Proof.
  assert (Hrun : exists w1 w2,
             addEvent 5 READ None (sample_world [0; 0] [2; 0] [] [])
             = Ok (0, w1)
             /\ cancelEvent 5 READ w1 = Ok (true, w2)
             /\ Fiber.t_fiber (thr w1) = Some 1%nat).
  { eexists. eexists. split; [vm_compute; reflexivity |].
    split; [vm_compute; reflexivity | reflexivity]. }
  destruct Hrun as (w1 & w2 & Ha & Hc & Hcur).
  assert (Hcount : 0 <= pending (sample_world [0; 0] [2; 0] [] []) < 2 ^ 64)
    by (vm_compute; split; [discriminate | reflexivity]).
  destruct (cancelEvent_schedules_registered_work
              (sample_world [0; 0] [2; 0] [] []) w1 w2 5 READ None
              Hcount Ha Hc)
    as (p & s & Hp & Hs & Hq & _ & _ & Hpend).
  exists w1, w2. split; [exact Ha |]. split; [exact Hc |].
  injection Hp as <-. injection Hs as <-.
  split; [rewrite Hq, Hcur; reflexivity | exact Hpend].
Defined.

(** ** iomanager.cc: the mask of a context and its two slots *)

Lemma ctx_inv_new (i : nat) : ctx_inv (newFdContext i).
Proof. repeat split. Qed.

Lemma ctx_inv_add (c : FdContext) (d : Z) (x : EventContext) :
  ctx_inv c -> d = READ \/ d = WRITE -> Z.land (events c) d = 0 ->
  populated x = true ->
  ctx_inv (setEventContext d x (set_events (Z.lor (events c) d) c)).
Proof.
  intros (He & Hr & Hw) Hd Hbit Hx. destruct c as [r wr f e].
  simpl in *. subst e.
  destruct (populated r) eqn:Hpr, (populated wr) eqn:Hpw;
    destruct Hd as [-> | ->]; simpl in *; try discriminate Hbit;
    unfold ctx_inv; simpl; rewrite ?Hx, ?Hpr, ?Hpw;
    (split; [reflexivity |]); split; intros; auto; congruence.
Qed.

Lemma ctx_inv_remove (c : FdContext) (d : Z) :
  ctx_inv c -> d = READ \/ d = WRITE -> Z.land (events c) d <> 0 ->
  ctx_inv (resetEventContext d (set_events (Z.land (events c) (Z.lnot d)) c)).
Proof.
  intros (He & Hr & Hw) Hd Hbit. destruct c as [r wr f e].
  simpl in *. subst e.
  destruct (populated r) eqn:Hpr, (populated wr) eqn:Hpw;
    destruct Hd as [-> | ->]; simpl in *; try (exfalso; apply Hbit; reflexivity);
    unfold ctx_inv, resetEventContext; simpl; rewrite ?Hpr, ?Hpw;
    (split; [reflexivity |]); split; intros; auto; congruence.
Qed.

(** A registered direction has work in its slot. *)
Lemma ctx_inv_registered (c : FdContext) (d : Z) :
  ctx_inv c -> d = READ \/ d = WRITE -> Z.land (events c) d <> 0 ->
  populated (if d =? READ then read c else write c) = true.
Proof.
  intros (He & _ & _) Hd Hbit. destruct c as [r wr f e].
  simpl in *. subst e.
  destruct (populated r) eqn:Hpr, (populated wr) eqn:Hpw;
    destruct Hd as [-> | ->]; simpl in *; try assumption;
    exfalso; apply Hbit; reflexivity.
Qed.

Lemma Forall_ctx_inv_insert (l : list FdContext) (i : nat) (c : FdContext) :
  (forall j x, l !! j = Some x -> ctx_inv x) -> ctx_inv c ->
  forall j x, <[i := c]> l !! j = Some x -> ctx_inv x.
Proof.
  intros Hl Hc j x Hj. destruct (decide (i = j)) as [<- | Hne].
  - destruct (decide (i < length l)%nat) as [Hlt | Hge].
    + rewrite list_lookup_insert_eq in Hj by exact Hlt. congruence.
    + rewrite list_insert_ge in Hj by lia. eapply Hl; eauto.
  - rewrite list_lookup_insert_ne in Hj by exact Hne. eapply Hl; eauto.
Qed.

Lemma Forall_ctx_inv_resized (l : list FdContext) (n : nat) :
  (forall j x, l !! j = Some x -> ctx_inv x) ->
  forall j x, resized n l !! j = Some x -> ctx_inv x.
Proof.
  intros Hl j x Hj. unfold resized in Hj.
  apply lookup_app_Some in Hj. destruct Hj as [Hj | [_ Hj]].
  - apply lookup_take_Some in Hj. destruct Hj as [Hj _]. eapply Hl; eauto.
  - rewrite list_lookup_fmap in Hj.
    destruct (seq (length l) (n - length l) !! (j - length (take n l))%nat)
      as [k |]; [| discriminate Hj].
    simpl in Hj. injection Hj as <-. apply ctx_inv_new.
Qed.

(** One firing, with the context it emptied and the waiter it woke. *)
Lemma fire_full (fd D : Z) (w : World) (u : unit) (w' : World) :
  (triggerEvent fd D ;;; dec_pending) w = Ok (u, w') ->
  exists c,
    0 <= fd
    /\ m_fdContexts (iom w) !! Z.to_nat fd = Some c
    /\ Z.land (events c) D <> 0
    /\ (D = READ \/ D = WRITE)
    /\ iom w'
       = mkIOManager (this (iom w)) (m_tickleFds (iom w))
           (wrap64 (m_pendingEventCount (iom w) - 1))
           (<[Z.to_nat fd :=
                resetEventContext D
                  (set_events (Z.land (events c) (Z.lnot D)) c)]>
              (m_fdContexts (iom w)))
    /\ scheds w' = wake (slot_of D c) (scheds w)
    /\ scheduler (slot_of D c) <> None
    /\ thr w' = thr w /\ tmgr w' = tmgr w /\ hook w' = hook w.
Proof.
  intros H. split_run H as u1 w1 Htr. apply triggerEvent_inv in Htr.
  destruct Htr as (c & p & s & Hfd & Hc & Hbit & Hdir & Hi & Ht & Htm & Hh
                   & _ & _ & _ & _ & Hp & Hsp & Hs).
  apply dec_pending_inv in H. subst w'. exists c. simpl.
  split; [exact Hfd |]. split; [exact Hc |]. split; [exact Hbit |].
  split; [exact Hdir |]. split; [rewrite Hi; reflexivity |].
  split.
  { unfold wake, enqueue, slot_of, task_of. rewrite Hp, Hsp. exact Hs. }
  split; [unfold slot_of; rewrite Hp; discriminate |].
  repeat split; assumption.
Qed.

Lemma fire_if_full (b : bool) (fd D : Z) (w : World) (u : unit)
    (w' : World) (c : FdContext) :
  m_fdContexts (iom w) !! Z.to_nat fd = Some c ->
  (if b then triggerEvent fd D ;;; dec_pending else ret tt) w = Ok (u, w') ->
  (b = true -> Z.land (events c) D <> 0 /\ (D = READ \/ D = WRITE))
  /\ m_fdContexts (iom w')
     = (if b
        then <[Z.to_nat fd :=
                 resetEventContext D
                   (set_events (Z.land (events c) (Z.lnot D)) c)]>
               (m_fdContexts (iom w))
        else m_fdContexts (iom w))
  /\ scheds w' = (if b then wake (slot_of D c) (scheds w) else scheds w)
  /\ thr w' = thr w /\ tmgr w' = tmgr w /\ hook w' = hook w.
Proof.
  intros Hc H. destruct b.
  - apply fire_full in H.
    destruct H as (c' & _ & Hc' & Hbit & Hdir & Hi & Hs & _ & Ht & Htm & Hh).
    rewrite Hc in Hc'. injection Hc' as <-.
    split; [intros _; split; assumption |].
    split; [rewrite Hi; reflexivity |]. repeat split; assumption.
  - injection H as _ <-. split; [discriminate |]. repeat split.
Qed.

Lemma delEvent_false_inv (fd event : Z) (w w' : World) :
  delEvent fd event w = Ok (false, w') ->
  iom w' = iom w /\ scheds w' = scheds w.
Proof.
  intros H. unfold delEvent in H.
  split_run H as w0 w1 Hg. unfold get in Hg. injection Hg as <- <-.
  destruct (Z.of_nat (length (m_fdContexts (iom w))) <=? fd).
  { injection H as <-. split; reflexivity. }
  split_run H as c w2 Hc. apply fd_ctx_at_inv in Hc.
  destruct Hc as (_ & _ & ->).
  destruct (truthy (Z.land (events c) event)); simpl in H.
  2:{ injection H as <-. split; reflexivity. }
  split_run H as rt w3 Hk. apply k_epoll_ctl_inv in Hk.
  destruct Hk as (Hi & Hs & _).
  destruct (truthy rt).
  { injection H as <-. split; assumption. }
  split_run H as u1 w4 Hd. split_run H as u2 w5 Hst.
  split_run H as x w6 Hev. split_run H as u3 w7 Hst2.
  unfold ret in H. discriminate H.
Qed.

Lemma cancelEvent_false_inv (fd event : Z) (w w' : World) :
  cancelEvent fd event w = Ok (false, w') ->
  iom w' = iom w /\ scheds w' = scheds w.
Proof.
  intros H. unfold cancelEvent in H.
  split_run H as w0 w1 Hg. unfold get in Hg. injection Hg as <- <-.
  destruct (Z.of_nat (length (m_fdContexts (iom w))) <=? fd).
  { injection H as <-. split; reflexivity. }
  split_run H as c w2 Hc. apply fd_ctx_at_inv in Hc.
  destruct Hc as (_ & _ & ->).
  destruct (truthy (Z.land (events c) event)); simpl in H.
  2:{ injection H as <-. split; reflexivity. }
  split_run H as rt w3 Hk. apply k_epoll_ctl_inv in Hk.
  destruct Hk as (Hi & Hs & _).
  destruct (truthy rt).
  { injection H as <-. split; assumption. }
  split_run H as u1 w4 Htr. split_run H as u2 w5 Hd.
  unfold ret in H. discriminate H.
Qed.

(** What [cancelAll] did, whatever it returned. *)
Lemma cancelAll_inv (fd : Z) (w : World) (b : bool) (w' : World) :
  cancelAll fd w = Ok (b, w') ->
  (b = false /\ iom w' = iom w /\ scheds w' = scheds w
   /\ thr w' = thr w /\ tmgr w' = tmgr w /\ hook w' = hook w)
  \/ (b = true
      /\ exists c,
           0 <= fd
           /\ m_fdContexts (iom w) !! Z.to_nat fd = Some c
           /\ events c <> 0
           /\ (truthy (Z.land (events c) READ) = true \/
               truthy (Z.land (events c) WRITE) = true)
           /\ m_fdContexts (iom w')
              = <[Z.to_nat fd :=
                    (if truthy (Z.land (events c) WRITE)
                     then fired WRITE else id)
                      ((if truthy (Z.land (events c) READ)
                        then fired READ else id) c)]>
                  (m_fdContexts (iom w))
           /\ scheds w'
              = wake_if (truthy (Z.land (events c) WRITE)) (write c)
                  (wake_if (truthy (Z.land (events c) READ)) (read c)
                     (scheds w))
           /\ thr w' = thr w /\ tmgr w' = tmgr w /\ hook w' = hook w).
Proof.
  intros H. unfold cancelAll in H.
  split_run H as w0 w1 Hg. unfold get in Hg. injection Hg as <- <-.
  destruct (Z.of_nat (length (m_fdContexts (iom w))) <=? fd).
  { injection H as <- <-. left. repeat split. }
  split_run H as c w2 Hc. apply fd_ctx_at_inv in Hc.
  destruct Hc as (Hfd & Hc & ->).
  destruct (truthy (events c)) eqn:Hany; simpl in H.
  2:{ injection H as <- <-. left. repeat split. }
  split_run H as rt w3 Hk. apply k_epoll_ctl_inv in Hk.
  destruct Hk as (Hi3 & Hs3 & Ht3 & Htm3 & Hh3 & _).
  destruct (truthy rt).
  { injection H as <- <-. left. repeat split; assumption. }
  assert (Hlt : (Z.to_nat fd < length (m_fdContexts (iom w)))%nat)
    by (eapply lookup_lt_Some; eauto).
  split_run H as u4 w4 HR.
  split_run HR as c4 w4' Hc4. apply fd_ctx_at_inv in Hc4.
  destruct Hc4 as (_ & Hc4 & ->).
  rewrite Hi3, Hc in Hc4. injection Hc4 as <-.
  assert (Hc3 : m_fdContexts (iom w3) !! Z.to_nat fd = Some c)
    by (rewrite Hi3; exact Hc).
  apply (fire_if_full _ _ _ _ _ _ c Hc3) in HR.
  destruct HR as (HbR & HtR & HsR & HthR & HtmR & HhR).
  rewrite Hi3 in HtR. rewrite Hs3 in HsR.
  remember (truthy (Z.land (events c) READ)) as bR eqn:EbR in *.
  set (c1 := (if bR then fired READ else id) c).
  assert (Hc1 : m_fdContexts (iom w4) !! Z.to_nat fd = Some c1).
  { rewrite HtR. unfold c1. destruct bR.
    - apply list_lookup_insert_eq. exact Hlt.
    - exact Hc. }
  assert (Hw1 : write c1 = write c /\
                truthy (Z.land (events c1) WRITE)
                = truthy (Z.land (events c) WRITE)).
  { unfold c1. destruct bR; [| split; reflexivity].
    split; [reflexivity |]. unfold fired, resetEventContext.
    rewrite events_setEventContext. simpl.
    rewrite !truthy_land_WRITE. mask_bits.
    change (0 =? 2) with false. cbn [negb]. apply andb_true_r. }
  destruct Hw1 as [Hw1 Hb1].
  split_run H as u5 w5 HW.
  split_run HW as c5 w5' Hc5. apply fd_ctx_at_inv in Hc5.
  destruct Hc5 as (_ & Hc5 & ->).
  rewrite Hc1 in Hc5. injection Hc5 as <-.
  apply (fire_if_full _ _ _ _ _ _ c1 Hc1) in HW.
  destruct HW as (HbW & HtW & HsW & HthW & HtmW & HhW).
  rewrite Hb1 in *.
  remember (truthy (Z.land (events c) WRITE)) as bW eqn:EbW in *.
  split_run H as c6 w6 Hc6. apply fd_ctx_at_inv in Hc6.
  destruct Hc6 as (_ & Hc6 & ->).
  split_run H as u7 w7 Hz. apply assert_Ok in Hz. destruct Hz as [Hz ->].
  injection H as <- <-. right. split; [reflexivity |].
  exists c. rewrite <- EbR, <- EbW.
  split; [exact Hfd |]. split; [exact Hc |].
  split; [apply truthy_true_iff; exact Hany |].
  split.
  { destruct bR; [left; reflexivity |].
    destruct bW; [right; reflexivity |].
    exfalso. rewrite HtW, HtR, Hc in Hc6. injection Hc6 as <-.
    apply Z.eqb_eq in Hz. apply truthy_true_iff in Hany. contradiction. }
  split.
  { rewrite HtW, HtR. fold c1.
    destruct bW, bR; simpl; unfold fired;
      rewrite ?list_insert_insert_eq, ?list_insert_id by assumption;
      try reflexivity. }
  split.
  { rewrite HsW, HsR. unfold wake_if, slot_of. simpl. rewrite Hw1.
    destruct bW, bR; reflexivity. }
  repeat split; congruence.
Qed.

(** What [addEvent] did to the table, whatever it returned. *)
Lemma addEvent_result (fd event : Z) (callback : option Callback)
    (w : World) (r : Z) (w' : World) :
  addEvent fd event callback w = Ok (r, w') ->
  r = 0
  \/ (r = -1
      /\ pending w' = pending w /\ scheds w' = scheds w
      /\ 0 <= fd
      /\ (Z.to_nat fd < length (m_fdContexts (iom w')))%nat
      /\ (m_fdContexts (iom w') = m_fdContexts (iom w)
          \/ m_fdContexts (iom w')
             = resized (Z.to_nat (3 * fd / 2)) (m_fdContexts (iom w)))).
Proof.
  intros H. unfold addEvent in H.
  split_run H as w0 w1 Hg. unfold get in Hg. injection Hg as <- <-.
  split_run H as u1 wa Hif.
  split_run H as c wb Hat.
  destruct (addEvent_locate_inv w fd u1 wa c wb Hif Hat)
    as (Hfd & -> & l & -> & Hl & Hview & Hgrown).
  split_run H as u2 w2 Hbit. apply assert_Ok in Hbit.
  destruct Hbit as [Hbit ->].
  split_run H as rt w3 Hk. apply k_epoll_ctl_inv in Hk.
  destruct Hk as (Hi3 & Hs3 & _).
  destruct (truthy rt).
  { injection H as <- <-. right. split; [reflexivity |].
    unfold pending. rewrite Hi3, Hs3. simpl.
    split; [reflexivity |]. split; [reflexivity |].
    split; [exact Hfd |].
    split; [eapply lookup_lt_Some; exact Hl |].
    destruct Hgrown as [-> | [-> _]]; [left | right]; reflexivity. }
  left.
  split_run H as r4 w4 Hnb. split_run H as u5 w5 Hinc.
  split_run H as u6 w6 Hst. split_run H as x0 w7 Hev.
  split_run H as u8 w8 Hempty. split_run H as sch w9 Hsch.
  destruct callback as [f |].
  - split_run H as u10 w10 Hst2. injection H as <- _. reflexivity.
  - split_run H as cur w10 Hcur. split_run H as u11 w11 Hst2.
    split_run H as st w12 Hgs. split_run H as u13 w13 Has.
    injection H as <- _. reflexivity.
Qed.

Lemma ctx_inv_fired (c : FdContext) (d : Z) :
  ctx_inv c -> d = READ \/ d = WRITE ->
  truthy (Z.land (events c) d) = true -> ctx_inv (fired d c).
Proof.
  intros Hc Hd Hb. apply ctx_inv_remove; try assumption.
  apply truthy_true_iff. exact Hb.
Qed.

Lemma fired_READ_keeps_WRITE (c : FdContext) :
  truthy (Z.land (events (fired READ c)) WRITE)
  = truthy (Z.land (events c) WRITE).
Proof.
  unfold fired, resetEventContext. rewrite events_setEventContext. simpl.
  rewrite !truthy_land_WRITE. mask_bits.
  change (0 =? 2) with false. cbn [negb]. apply andb_true_r.
Qed.

Lemma table_inv_initial (w : World) (n : nat) :
  m_fdContexts (iom w) = resized n [] -> table_inv w.
Proof.
  intros Ht i c Hc. rewrite Ht in Hc.
  eapply (Forall_ctx_inv_resized [] n); [| exact Hc].
  intros j x Hj. rewrite lookup_nil in Hj. discriminate Hj.
Qed.

(** [cancelAll] keeps the relation between masks and slots. *)
Lemma cancelAll_keeps_table_inv (w w' : World) (fd : Z) (b : bool) :
  table_inv w -> cancelAll fd w = Ok (b, w') -> table_inv w'.
Proof.
  unfold table_inv. intros Hinv H. apply cancelAll_inv in H.
  destruct H as [(_ & -> & _) | (_ & c & _ & Hc & _ & _ & Ht & _)];
    [exact Hinv |].
  rewrite Ht. apply Forall_ctx_inv_insert; [exact Hinv |].
  pose proof (Hinv _ _ Hc) as Hcinv.
  destruct (truthy (Z.land (events c) READ)) eqn:ER.
  - pose proof (ctx_inv_fired c READ Hcinv (or_introl eq_refl) ER) as H1.
    rewrite <- (fired_READ_keeps_WRITE c).
    destruct (truthy (Z.land (events (fired READ c)) WRITE)) eqn:EW.
    + apply ctx_inv_fired; auto.
    + exact H1.
  - destruct (truthy (Z.land (events c) WRITE)) eqn:EW.
    + apply ctx_inv_fired; auto.
    + exact Hcinv.
Qed.

(** X11. The mask of every fd context and its two slots stay in step:
    a direction is in the mask exactly when its slot holds a callback or
    a coroutine, and a slot outside the mask is entirely empty. The
    relation holds for the table the constructor allocates and is kept by
    [addEvent], [delEvent], [cancelEvent] and [cancelAll], whatever they
    return. *)
Theorem slots_follow_mask (w w' : World) (fd d : Z) (Hinv : table_inv w) :
  (forall callback r, addEvent fd d callback w = Ok (r, w') -> table_inv w')
  /\ (forall b, delEvent fd d w = Ok (b, w') -> table_inv w')
  /\ (forall b, cancelEvent fd d w = Ok (b, w') -> table_inv w')
  /\ (forall b, cancelAll fd w = Ok (b, w') -> table_inv w').
Proof.
  split; [| split; [| split]].
  - unfold table_inv in *. intros callback r H.
    destruct (addEvent_result _ _ _ _ _ _ H)
      as [-> | (_ & _ & _ & _ & _ & [Ht | Ht])].
    + apply addEvent_zero_full in H.
      destruct H as (l & Hl & _ & _ & Hbit & Hdir & _ & Hgrown & Hi & Hfib
                     & _).
      assert (Hlinv : forall j x, l !! j = Some x -> ctx_inv x).
      { destruct Hgrown as [-> | [-> _]];
          [exact Hinv | apply Forall_ctx_inv_resized; exact Hinv]. }
      rewrite Hi. simpl. apply Forall_ctx_inv_insert; [exact Hlinv |].
      apply ctx_inv_add.
      * eapply Hlinv; eauto.
      * exact Hdir.
      * exact Hbit.
      * destruct callback as [k |]; [reflexivity |].
        destruct (Fiber.t_fiber (thr w')) eqn:E; [reflexivity |].
        exfalso. apply Hfib; reflexivity.
    + rewrite Ht. exact Hinv.
    + rewrite Ht. apply Forall_ctx_inv_resized. exact Hinv.
  - unfold table_inv in *. intros [|] H.
    + apply delEvent_true_inv in H.
      destruct H as (c & _ & Hc & Hbit & Hdir & Hi & _).
      rewrite Hi. simpl. apply Forall_ctx_inv_insert; [exact Hinv |].
      apply ctx_inv_remove; eauto.
    + apply delEvent_false_inv in H. destruct H as [-> _]. exact Hinv.
  - unfold table_inv in *. intros [|] H.
    + apply cancelEvent_true_inv in H.
      destruct H as (c & p & s & _ & Hc & Hbit & Hdir & Hi & _).
      rewrite Hi. simpl. apply Forall_ctx_inv_insert; [exact Hinv |].
      apply ctx_inv_remove; eauto.
    + apply cancelEvent_false_inv in H. destruct H as [-> _]. exact Hinv.
  - intros b H. exact (cancelAll_keeps_table_inv w w' fd b Hinv H).
Qed.

Lemma slots_follow_mask_witness :
  exists w1 w2,
    addEvent 5 READ None (sample_world [0; 0] [2; 0] [] []) = Ok (0, w1)
    /\ table_inv w1
    /\ cancelAll 5 w1 = Ok (true, w2)
    /\ table_inv w2.
Proof.
  assert (Hrun : exists w1 w2,
             addEvent 5 READ None (sample_world [0; 0] [2; 0] [] [])
             = Ok (0, w1)
             /\ cancelAll 5 w1 = Ok (true, w2)).
  { eexists. eexists. split; [vm_compute; reflexivity |].
    vm_compute. reflexivity. }
  destruct Hrun as (w1 & w2 & Ha & Hc).
  assert (H0 : table_inv (sample_world [0; 0] [2; 0] [] []))
    by (apply (table_inv_initial _ 32); reflexivity).
  assert (H1 : table_inv w1).
  { exact (proj1 (slots_follow_mask (sample_world [0; 0] [2; 0] [] []) w1
                    5 READ H0) None 0 Ha). }
  exists w1, w2. split; [exact Ha |]. split; [exact H1 |].
  split; [exact Hc |].
  exact (proj2 (proj2 (proj2 (slots_follow_mask w1 w2 5 READ H1))) true Hc).
Defined.

(** X12. Under that relation, what [cancelEvent] puts in the queue is
    never an empty task: the task holds the slot's callback and no
    coroutine, or the slot's coroutine and no callback, and is pinned to
    no thread, which is what the scan of [Scheduler::run] asserts of a
    task it takes. *)
Theorem cancelled_waiter_holds_work (w w' : World) (fd d : Z)
    (Hinv : table_inv w)
    (Hcancel : cancelEvent fd d w = Ok (true, w')) :
  exists p s t,
    scheds w !! p = Some s
    /\ scheds w'
       = <[p := mkScheduler (m_stopping s) (m_tasks s ++ [t])
                  (m_activeThreadCount s) (m_idleThreadCount s)]> (scheds w)
    /\ t = task_of (slot_of d (fd_context_of w fd))
    /\ task_thread t = -1
    /\ ((task_cb t <> None /\ task_fiber t = None)
        \/ (task_cb t = None /\ task_fiber t <> None)).
Proof.
  apply cancelEvent_true_inv in Hcancel.
  destruct Hcancel as (c & p & s & _ & Hc & Hbit & Hdir & _ & _ & _ & _
                       & Hp & Hsp & Hs).
  pose proof (ctx_inv_registered c d (Hinv _ _ Hc) Hdir Hbit) as Hpop.
  rewrite (fd_context_of_lookup w fd c Hc).
  exists p, s, (task_of (slot_of d c)).
  split; [exact Hsp |]. split; [exact Hs |]. split; [reflexivity |].
  unfold task_of, slot_of, populated in *.
  destruct (cb (if d =? READ then read c else write c)) as [k |].
  - split; [reflexivity |]. left. split; [discriminate | reflexivity].
  - split; [reflexivity |]. right. split; [reflexivity |].
    destruct (fiber (if d =? READ then read c else write c));
      [discriminate | discriminate Hpop].
Qed.

Lemma cancelled_waiter_holds_work_witness :
  exists w',
    cancelEvent 5 READ (sample_registered [0]) = Ok (true, w')
    /\ m_tasks <$> scheds w' !! 0%nat
       = Some [mkTask None (Some (UserCb 7)) (-1)].
Proof.
  assert (Hrun : exists w',
             cancelEvent 5 READ (sample_registered [0]) = Ok (true, w')).
  { eexists. vm_compute. reflexivity. }
  destruct Hrun as (w' & Hc).
  assert (H0 : table_inv (sample_registered [0])).
  { intros i c Hi. simpl in Hi.
    eapply (Forall_ctx_inv_insert (resized 32 []) 5); [| | exact Hi].
    - apply Forall_ctx_inv_resized. intros j x Hj.
      rewrite lookup_nil in Hj. discriminate Hj.
    - repeat split; intros; discriminate. }
  destruct (cancelled_waiter_holds_work (sample_registered [0]) w' 5 READ
              H0 Hc) as (p & s & t & Hs & Hq & Ht & _).
  exists w'. split; [exact Hc |].
  assert (Hp : p = 0%nat).
  { apply lookup_lt_Some in Hs. simpl in Hs. lia. }
  subst p. injection Hs as <-. rewrite Hq, Ht. reflexivity.
Defined.

(** X13. [cancelAll] that succeeds wakes every waiter of the descriptor
    once, the READ waiter before the WRITE waiter, each on the scheduler
    recorded in its slot, and leaves the descriptor with an empty mask
    and two empty slots. At least one waiter is woken. *)
Theorem cancelAll_wakes_read_then_write (w w' : World) (f : Z)
    (Hinv : table_inv w)
    (Hrun : cancelAll f w = Ok (true, w')) :
  exists c,
    m_fdContexts (iom w) !! Z.to_nat f = Some c
    /\ (truthy (Z.land (events c) READ) = true
        \/ truthy (Z.land (events c) WRITE) = true)
    /\ scheds w'
       = wake_if (truthy (Z.land (events c) WRITE)) (write c)
           (wake_if (truthy (Z.land (events c) READ)) (read c) (scheds w))
    /\ fd_context_of w' f
       = mkFdContext emptyEventContext emptyEventContext (fd c) 0
    /\ (forall g, Z.to_nat g <> Z.to_nat f ->
                  fd_context_of w' g = fd_context_of w g).
Proof.
  pose proof (cancelAll_keeps_table_inv w w' f true Hinv Hrun) as Hinv'.
  pose proof (cancelAll_true_obs _ _ _ Hrun) as (_ & _ & Hzero & _).
  apply cancelAll_inv in Hrun.
  destruct Hrun as [(Hb & _) | (_ & c & Hfd & Hc & _ & Hone & Ht & Hs & _)];
    [discriminate Hb |].
  exists c. split; [exact Hc |]. split; [exact Hone |].
  split; [exact Hs |].
  assert (Hlt : (Z.to_nat f < length (m_fdContexts (iom w)))%nat)
    by (eapply lookup_lt_Some; eauto).
  split.
  - assert (Hc' : m_fdContexts (iom w') !! Z.to_nat f
                  = Some (fd_context_of w' f)).
    { unfold fd_context_of. rewrite Ht.
      rewrite list_lookup_insert_eq by exact Hlt. reflexivity. }
    destruct (Hinv' _ _ Hc') as (He & Hr & Hw).
    unfold events_of in Hzero. rewrite Hzero in He.
    assert (Hfdc : fd (fd_context_of w' f) = fd c).
    { unfold fd_context_of. rewrite Ht.
      rewrite list_lookup_insert_eq by exact Hlt. simpl.
      destruct (truthy (Z.land (events c) WRITE)),
               (truthy (Z.land (events c) READ)); reflexivity. }
    destruct (fd_context_of w' f) as [r wr f0 e]. simpl in *. subst.
    destruct (populated r), (populated wr); try discriminate He.
    rewrite Hr, Hw by reflexivity. reflexivity.
  - intros g Hg. unfold fd_context_of. rewrite Ht.
    rewrite list_lookup_insert_ne by congruence. reflexivity.
Qed.

Lemma cancelAll_wakes_read_then_write_witness :
  exists w',
    cancelAll 5 (sample_both [0]) = Ok (true, w')
    /\ m_tasks <$> scheds w' !! 0%nat
       = Some [mkTask None (Some (UserCb 7)) (-1);
               mkTask None (Some (UserCb 8)) (-1)]
    /\ events_of w' 5 = 0.
Proof.
  assert (Hrun : exists w', cancelAll 5 (sample_both [0]) = Ok (true, w')).
  { eexists. vm_compute. reflexivity. }
  destruct Hrun as (w' & Hc).
  assert (H0 : table_inv (sample_both [0])).
  { intros i c Hi. simpl in Hi.
    eapply (Forall_ctx_inv_insert (resized 32 []) 5); [| | exact Hi].
    - apply Forall_ctx_inv_resized. intros j x Hj.
      rewrite lookup_nil in Hj. discriminate Hj.
    - repeat split; intros; discriminate. }
  destruct (cancelAll_wakes_read_then_write (sample_both [0]) w' 5 H0 Hc)
    as (c & Hctx & _ & Hq & Hfinal & _).
  exists w'. split; [exact Hc |].
  injection Hctx as <-.
  split; [rewrite Hq; reflexivity |].
  unfold events_of. rewrite Hfinal. reflexivity.
Defined.

(** ** iomanager.cc: the table grows, and the kernel is told the mask *)

Lemma length_resized (n : nat) (l : list FdContext) :
  (length l <= n)%nat -> length (resized n l) = n.
Proof.
  intros H. unfold resized.
  rewrite length_app, length_fmap, length_seq, length_take. lia.
Qed.

(** X14. [addEvent] on a descriptor the table does not reach yet grows
    the table to one and a half times the descriptor, whether the kernel
    then accepts the registration or not: the contexts that existed are
    kept at their places and each new place other than the descriptor's
    holds an empty context that records its own index as its fd. *)
Theorem addEvent_grows_table (w w' : World) (f d r : Z)
    (callback : option Callback)
    (Hbeyond : Z.of_nat (length (m_fdContexts (iom w))) <= f)
    (Hrun : addEvent f d callback w = Ok (r, w')) :
  length (m_fdContexts (iom w')) = Z.to_nat (3 * f / 2)
  /\ (length (m_fdContexts (iom w)) <= Z.to_nat f
      < length (m_fdContexts (iom w')))%nat
  /\ (forall g, (g < length (m_fdContexts (iom w)))%nat ->
                m_fdContexts (iom w') !! g = m_fdContexts (iom w) !! g)
  /\ (forall g, (length (m_fdContexts (iom w)) <= g < Z.to_nat (3 * f / 2))%nat ->
                g <> Z.to_nat f ->
                m_fdContexts (iom w') !! g
                = Some (mkFdContext emptyEventContext emptyEventContext
                          (Z.of_nat g) NONE)).
Proof.
  assert (Hshape : exists l' : list FdContext,
             0 <= f
             /\ (Z.to_nat f < length l')%nat
             /\ (length l' = length (m_fdContexts (iom w))
                 \/ (length l' = Z.to_nat (3 * f / 2)
                     /\ (length (m_fdContexts (iom w))
                         <= Z.to_nat (3 * f / 2))%nat
                     /\ forall g, g <> Z.to_nat f ->
                          m_fdContexts (iom w') !! g
                          = resized (Z.to_nat (3 * f / 2))
                              (m_fdContexts (iom w)) !! g))
             /\ length (m_fdContexts (iom w')) = length l').
  { destruct (addEvent_result _ _ _ _ _ _ Hrun)
      as [-> | (_ & _ & _ & Hf & Hlt & [Ht | Ht])].
    - apply addEvent_zero_full in Hrun.
      destruct Hrun as (l & Hl & Hf & _ & _ & _ & _ & Hgrown & Hi & _).
      exists l. split; [exact Hf |].
      split; [eapply lookup_lt_Some; exact Hl |].
      split.
      + destruct Hgrown as [-> | [-> Hle]]; [left; reflexivity | right].
        split; [apply length_resized; exact Hle |]. split; [exact Hle |].
        intros g Hg. rewrite Hi. simpl.
        apply list_lookup_insert_ne. congruence.
      + rewrite Hi. simpl. apply length_insert.
    - exists (m_fdContexts (iom w')). split; [exact Hf |].
      split; [exact Hlt |]. split; [left; rewrite Ht; reflexivity |].
      reflexivity.
    - exists (m_fdContexts (iom w')). split; [exact Hf |].
      split; [exact Hlt |]. split; [| reflexivity].
      assert (Hle : (length (m_fdContexts (iom w))
                     <= Z.to_nat (3 * f / 2))%nat).
      { assert (f <= 3 * f / 2) by (apply Z.div_le_lower_bound; lia). lia. }
      right. split; [rewrite Ht; apply length_resized; exact Hle |].
      split; [exact Hle |]. intros g _. rewrite Ht. reflexivity. }
  destruct Hshape as (l' & Hf & Hlt & [Hsame | (Hlen & Hle & Hview)] & Hl').
  { exfalso. lia. }
  split; [congruence |]. split; [lia |].
  split.
  - intros g Hg.
    destruct (decide (g = Z.to_nat f)) as [-> | Hne]; [lia |].
    rewrite (Hview g Hne). apply resized_lookup_old; [exact Hle | exact Hg].
  - intros g Hg Hne. rewrite (Hview g Hne).
    apply resized_lookup_new; lia.
Qed.

Lemma addEvent_grows_table_witness :
  exists w',
    addEvent 40 READ (Some (UserCb 7)) (sample_world [-1] [] [] [])
    = Ok (-1, w')
    /\ length (m_fdContexts (iom w')) = 60%nat
    /\ m_fdContexts (iom w') !! 59%nat
       = Some (mkFdContext emptyEventContext emptyEventContext 59 NONE).
Proof.
  assert (Hrun : exists w',
             addEvent 40 READ (Some (UserCb 7)) (sample_world [-1] [] [] [])
             = Ok (-1, w')).
  { eexists. vm_compute. reflexivity. }
  destruct Hrun as (w' & Hrun).
  assert (Hb : Z.of_nat (length (m_fdContexts
                                   (iom (sample_world [-1] [] [] [])))) <= 40)
    by (vm_compute; discriminate).
  destruct (addEvent_grows_table (sample_world [-1] [] [] []) w' 40 READ (-1)
              (Some (UserCb 7)) Hb Hrun) as (Hlen & _ & _ & Hnew).
  exists w'. split; [exact Hrun |]. split; [exact Hlen |].
  apply (Hnew 59%nat).
  - vm_compute. split; [lia | lia].
  - discriminate.
Defined.

Lemma schedule_log (p : nat) (t : ScheduleTask) (w : World) (b : bool)
    (w' : World) :
  schedule p t w = Ok (b, w') ->
  epoll_ctl_log (krn w') = epoll_ctl_log (krn w)
  /\ io_rt (krn w') = io_rt (krn w)
  /\ now_ms (krn w') = now_ms (krn w).
Proof.
  intros H.
  unfold schedule, tickle, IOManager_tickle, load_sched, in_krn, zoom,
    k_write_pipe, bind, get, modify, ret, deref, undefined in H.
  crush_run H; simpl; repeat split.
Qed.

Lemma triggerEvent_log (fd event : Z) (w : World) (u : unit) (w' : World) :
  triggerEvent fd event w = Ok (u, w') ->
  epoll_ctl_log (krn w') = epoll_ctl_log (krn w)
  /\ io_rt (krn w') = io_rt (krn w)
  /\ now_ms (krn w') = now_ms (krn w).
Proof.
  intros H. unfold triggerEvent in H.
  split_run H as c w1 Hc. apply fd_ctx_at_inv in Hc. destruct Hc as (_ & _ & ->).
  split_run H as u1 w2 Hbit. apply assert_Ok in Hbit. destruct Hbit as [_ ->].
  split_run H as u2 w3 Hst. unfold store_fd_ctx, modify in Hst.
  injection Hst as _ <-.
  split_run H as x w4 Hev. apply getEventContext_inv in Hev.
  destruct Hev as [-> _].
  split_run H as p w5 Hp. apply deref_Ok in Hp. destruct Hp as [_ ->].
  split_run H as b w6 Hsch.
  unfold store_fd_ctx, modify in H. injection H as _ <-.
  assert (Hlog : epoll_ctl_log (krn w6)
                 = epoll_ctl_log
                     (krn (with_iom
                             (mkIOManager (this (iom w)) (m_tickleFds (iom w))
                                (m_pendingEventCount (iom w))
                                (<[Z.to_nat fd :=
                                     set_events
                                       (Z.land (events c) (Z.lnot event)) c]>
                                   (m_fdContexts (iom w)))) w))
                 /\ io_rt (krn w6) = io_rt (krn w)
                 /\ now_ms (krn w6) = now_ms (krn w)).
  { destruct (cb x); apply schedule_log in Hsch; exact Hsch. }
  simpl in *. exact Hlog.
Qed.

Lemma delEvent_true_log (fd event : Z) (w w' : World) :
  delEvent fd event w = Ok (true, w') ->
  epoll_ctl_log (krn w')
  = epoll_ctl_log (krn w)
    ++ [(if truthy (Z.land (events_of w fd) (Z.lnot event))
         then EPOLL_CTL_MOD else EPOLL_CTL_DEL, fd,
         Z.lor EPOLLET (Z.land (events_of w fd) (Z.lnot event)))].
Proof.
  intros H. unfold delEvent in H.
  split_run H as w0 w1 Hg. unfold get in Hg. injection Hg as <- <-.
  destruct (Z.of_nat (length (m_fdContexts (iom w))) <=? fd);
    [discriminate H |].
  split_run H as c w2 Hc. apply fd_ctx_at_inv in Hc.
  destruct Hc as (Hfd & Hc & ->).
  rewrite <- (fd_context_of_lookup w fd c Hc) in H. fold (events_of w fd) in H.
  destruct (truthy (Z.land (events_of w fd) event)); [| discriminate H].
  simpl in H.
  split_run H as rt w3 Hk. apply k_epoll_ctl_inv in Hk.
  destruct Hk as (_ & _ & _ & _ & _ & _ & _ & _ & _ & Hlog).
  destruct (truthy rt); [discriminate H |].
  split_run H as u1 w4 Hd. apply dec_pending_inv in Hd. subst w4.
  split_run H as u2 w5 Hst. unfold store_fd_ctx, modify in Hst.
  injection Hst as _ <-.
  split_run H as x w6 Hev. apply getEventContext_inv in Hev.
  destruct Hev as [-> Hev].
  split_run H as u3 w7 Hst. unfold store_fd_ctx, modify in Hst.
  injection Hst as _ <-.
  injection H as <-. simpl. exact Hlog.
Qed.

Lemma cancelEvent_true_log (fd event : Z) (w w' : World) :
  cancelEvent fd event w = Ok (true, w') ->
  epoll_ctl_log (krn w')
  = epoll_ctl_log (krn w)
    ++ [(if truthy (Z.land (events_of w fd) (Z.lnot event))
         then EPOLL_CTL_MOD else EPOLL_CTL_DEL, fd,
         Z.lor EPOLLET (Z.land (events_of w fd) (Z.lnot event)))].
Proof.
  intros H. unfold cancelEvent in H.
  split_run H as w0 w1 Hg. unfold get in Hg. injection Hg as <- <-.
  destruct (Z.of_nat (length (m_fdContexts (iom w))) <=? fd);
    [discriminate H |].
  split_run H as c w2 Hc. apply fd_ctx_at_inv in Hc.
  destruct Hc as (Hfd & Hc & ->).
  rewrite <- (fd_context_of_lookup w fd c Hc) in H. fold (events_of w fd) in H.
  destruct (truthy (Z.land (events_of w fd) event)); [| discriminate H].
  simpl in H.
  split_run H as rt w3 Hk. apply k_epoll_ctl_inv in Hk.
  destruct Hk as (_ & _ & _ & _ & _ & _ & _ & _ & _ & Hlog).
  destruct (truthy rt); [discriminate H |].
  split_run H as u1 w4 Htr. apply triggerEvent_log in Htr.
  destruct Htr as (Hl4 & _).
  split_run H as u2 w5 Hd. apply dec_pending_inv in Hd. subst w5.
  injection H as <-. simpl. rewrite Hl4. exact Hlog.
Qed.

(** X15. The kernel is told the mask the library records. A successful
    [addEvent], [delEvent] or [cancelEvent] makes exactly one [epoll_ctl]
    call, for the descriptor, with EPOLLET and the mask the context holds
    afterwards; the operation is ADD when the context had no direction
    registered and MOD otherwise for [addEvent], DEL when no direction is
    left and MOD otherwise for the other two. *)
Theorem kernel_mask_mirrors_record (w w' : World) (fd d : Z) :
  (forall callback,
     addEvent fd d callback w = Ok (0, w') ->
     epoll_ctl_log (krn w')
     = epoll_ctl_log (krn w)
       ++ [(if truthy (events_of w fd) then EPOLL_CTL_MOD else EPOLL_CTL_ADD,
            fd, Z.lor EPOLLET (events_of w' fd))])
  /\ (delEvent fd d w = Ok (true, w') \/ cancelEvent fd d w = Ok (true, w') ->
      epoll_ctl_log (krn w')
      = epoll_ctl_log (krn w)
        ++ [(if truthy (events_of w' fd) then EPOLL_CTL_MOD
             else EPOLL_CTL_DEL,
             fd, Z.lor EPOLLET (events_of w' fd))]).
Proof.
  split.
  - intros callback H.
    pose proof (addEvent_zero_obs _ _ _ _ _ H) as (_ & _ & He & _).
    apply addEvent_zero_full in H.
    destruct H as (l & _ & _ & _ & _ & _ & _ & _ & _ & _ & Hlog & _).
    rewrite Hlog, He, Z.lor_assoc. reflexivity.
  - intros [H | H].
    + pose proof (delEvent_true_obs _ _ _ _ H) as (_ & _ & He & _).
      rewrite He. apply delEvent_true_log. exact H.
    + pose proof (cancelEvent_true_obs _ _ _ _ H) as (_ & _ & He & _).
      rewrite He. apply cancelEvent_true_log. exact H.
Qed.

Lemma kernel_mask_mirrors_record_witness :
  exists w1 w2,
    addEvent 5 WRITE None (with_iom (iom (sample_registered []))
         (sample_world [0; 0] [2; 0] [] [])) = Ok (0, w1)
    /\ epoll_ctl_log (krn w1)
       = [(EPOLL_CTL_MOD, 5, Z.lor EPOLLET (Z.lor READ WRITE))]
    /\ delEvent 5 READ w1 = Ok (true, w2)
    /\ epoll_ctl_log (krn w2)
       = [(EPOLL_CTL_MOD, 5, Z.lor EPOLLET (Z.lor READ WRITE));
          (EPOLL_CTL_MOD, 5, Z.lor EPOLLET WRITE)].
Proof.
  assert (Hrun : exists w1 w2,
             addEvent 5 WRITE None (with_iom (iom (sample_registered []))
         (sample_world [0; 0] [2; 0] [] [])) = Ok (0, w1)
             /\ delEvent 5 READ w1 = Ok (true, w2)
             /\ events_of w1 5 = Z.lor READ WRITE
             /\ events_of w2 5 = WRITE).
  { eexists. eexists. split; [vm_compute; reflexivity |].
    split; [vm_compute; reflexivity |]. split; reflexivity. }
  destruct Hrun as (w1 & w2 & Ha & Hd & He1 & He2).
  pose proof (proj1 (kernel_mask_mirrors_record (with_iom (iom (sample_registered []))
         (sample_world [0; 0] [2; 0] [] [])) w1
                       5 WRITE) None Ha) as H1.
  pose proof (proj2 (kernel_mask_mirrors_record w1 w2 5 READ)
                (or_introl Hd)) as H2.
  exists w1, w2. split; [exact Ha |].
  split; [rewrite H1, He1; reflexivity |]. split; [exact Hd |].
  rewrite H2, H1, He1, He2. reflexivity.
Defined.

(** ** iomanager.cc: a turn of the idle coroutine *)

Lemma IOManager_stopping_inv (w : World) (b : bool) (w' : World) :
  IOManager_stopping w = Ok (b, w') -> w' = w.
Proof.
  intros H.
  unfold IOManager_stopping, Scheduler_stopping, load_sched, bind, get, ret,
    deref in H.
  crush_run H; reflexivity.
Qed.

Lemma schedule_pipe_only (p : nat) (t : ScheduleTask) (w : World) (b : bool)
    (w' : World) :
  schedule p t w = Ok (b, w') ->
  exists n,
    krn w'
    = mkKernel (errno (krn w)) (now_ms (krn w)) (epoll_ctl_rt (krn w))
        (epoll_ctl_log (krn w)) (epoll_wait_rt (krn w))
        (epoll_wait_log (krn w)) (fcntl_rt (krn w)) (fcntl_log (krn w))
        (io_rt (krn w)) (io_calls (krn w)) n.
Proof.
  intros H.
  unfold schedule, tickle, IOManager_tickle, load_sched, in_krn, zoom,
    k_write_pipe, bind, get, modify, ret, deref, undefined in H.
  crush_run H; simpl;
    first [ eexists; reflexivity
          | exists (pipe_bytes (krn w)); destruct (krn w); reflexivity ].
Qed.

Lemma schedule_all_frame (p : nat) (cbs : list Callback) :
  forall (w : World) (u : unit) (w' : World),
    schedule_all p cbs w = Ok (u, w') ->
    iom w' = iom w /\ thr w' = thr w /\ tmgr w' = tmgr w /\ hook w' = hook w
    /\ epoll_ctl_log (krn w') = epoll_ctl_log (krn w)
    /\ epoll_wait_log (krn w') = epoll_wait_log (krn w).
Proof.
  induction cbs as [| c r IH]; intros w u w' H; simpl in H.
  - injection H as _ <-. repeat split.
  - split_run H as b w1 Hs.
    pose proof (schedule_pipe_only _ _ _ _ _ Hs) as [n Hk].
    apply schedule_frame in Hs.
    destruct Hs as (Hi & Ht & Htm & Hh & _).
    apply IH in H. destruct H as (Hi' & Ht' & Htm' & Hh' & Hl' & Hw').
    rewrite Hi', Ht', Htm', Hh', Hl', Hw', Hk. simpl.
    repeat split; assumption.
Qed.

Lemma idle_wait_frame (fuel : nat) :
  forall (next_timeout : Z) (buf : list epoll_event) (w : World)
         (r : Z * list epoll_event) (w' : World),
    idle_wait fuel next_timeout buf w = Ok (r, w') ->
    iom w' = iom w /\ scheds w' = scheds w /\ thr w' = thr w
    /\ hook w' = hook w
    /\ epoll_ctl_log (krn w') = epoll_ctl_log (krn w)
    /\ errno (krn w') <> EINTR.
Proof.
  induction fuel as [| fuel IH]; intros nt buf w r w' H; simpl in H;
    [discriminate H |].
  split_run H as a w1 Hk.
  assert (Hf : iom w1 = iom w /\ scheds w1 = scheds w /\ thr w1 = thr w
               /\ hook w1 = hook w
               /\ epoll_ctl_log (krn w1) = epoll_ctl_log (krn w)).
  { apply in_krn_frame in Hk.
    destruct Hk as (Ht & _ & Hs & _ & Hi & Hh & Hk).
    unfold k_epoll_wait in Hk.
    destruct (epoll_wait_rt (krn w)); [discriminate Hk |].
    injection Hk as _ Hk. rewrite <- Hk. simpl. repeat split; assumption. }
  destruct Hf as (Hi1 & Hs1 & Ht1 & Hh1 & Hl1).
  split_run H as w0 w2 Hg. unfold get in Hg. injection Hg as <- <-.
  assert (Hrec : forall nt' buf',
             idle_wait fuel nt' buf' w1 = Ok (r, w') ->
             iom w' = iom w /\ scheds w' = scheds w /\ thr w' = thr w
             /\ hook w' = hook w
             /\ epoll_ctl_log (krn w') = epoll_ctl_log (krn w)
             /\ errno (krn w') <> EINTR).
  { intros nt' buf' Hr. apply IH in Hr.
    destruct Hr as (Hi & Hs & Ht & Hh & Hl & He).
    repeat split; congruence. }
  destruct (wa_rt a <? 0).
  - destruct (errno (krn w1) =? EINTR) eqn:Ee.
    + eapply Hrec. exact H.
    + injection H as _ <-. apply Z.eqb_neq in Ee.
      repeat split; assumption.
  - eapply Hrec. exact H.
Qed.

Lemma listExpiredCb_frame (w : World) (cbs : list Callback) (w' : World) :
  listExpiredCb w = Ok (cbs, w') ->
  iom w' = iom w /\ scheds w' = scheds w /\ thr w' = thr w
  /\ hook w' = hook w /\ krn w' = krn w.
Proof.
  unfold listExpiredCb, bind, get, put, ret. intros H.
  injection H as _ <-. repeat split.
Qed.

Lemma yield_switches (cur : nat) (e : Fiber.Env) (u : unit) (e' : Fiber.Env) :
  Fiber.yield cur e = Ok (u, e') ->
  exists p, Fiber.switches e' = Fiber.switches e ++ [(cur, p)].
Proof.
  intros H.
  unfold Fiber.yield, Fiber.partner, Fiber.load, Fiber.store, Fiber.SetThis,
    Fiber.swapcontext, Fiber.set_fibers, bind, get, modify, assert, deref,
    ret in H.
  crush_run H; simpl; eexists; reflexivity.
Qed.

(** X16. A turn of [IOManager::idle] never handles a descriptor. Whatever
    the kernel reports, the turn leaves the table of fd contexts and the
    pending count as they were and makes no [epoll_ctl] call; when it
    does not stop, every wait it issued asked for 256 events with the
    5000 ms cap and the turn ends by yielding. When it stops, nothing at
    all has changed. *)
Theorem idle_turn_handles_no_descriptor (buf : list epoll_event)
    (w w' : World) (r : option (list epoll_event))
    (Hrun : idle_iteration buf w = Ok (r, w')) :
  iom w' = iom w
  /\ epoll_ctl_log (krn w') = epoll_ctl_log (krn w)
  /\ hook w' = hook w
  /\ match r with
     | None => w' = w /\ IOManager_stopping w = Ok (true, w)
     | Some _ =>
         IOManager_stopping w = Ok (false, w)
         /\ (exists k,
               epoll_wait_log (krn w')
               = epoll_wait_log (krn w)
                 ++ replicate (S k) (MAX_EVNETS, MAX_TIMEOUT))
         /\ (exists cur p,
               Fiber.switches (thr w')
               = Fiber.switches (thr w) ++ [(cur, p)])
     end.
Proof.
  unfold idle_iteration in Hrun.
  split_run Hrun as stop w1 Hstop.
  pose proof (IOManager_stopping_inv _ _ _ Hstop) as ->.
  destruct stop.
  { injection Hrun as <- <-. repeat split. exact Hstop. }
  split_run Hrun as w0 w2 Hg. unfold get in Hg. injection Hg as <- <-.
  split_run Hrun as res w3 Hwait.
  pose proof (idle_wait_log _ _ _ _ _ _ Hwait) as (_ & k & Hwlog).
  apply idle_wait_frame in Hwait.
  destruct Hwait as (Hi3 & Hs3 & Ht3 & Hh3 & Hl3 & _).
  split_run Hrun as cbs w4 Hexp. apply listExpiredCb_frame in Hexp.
  destruct Hexp as (Hi4 & Hs4 & Ht4 & Hh4 & Hk4).
  split_run Hrun as u5 w5 Hsch. apply schedule_all_frame in Hsch.
  destruct Hsch as (Hi5 & Ht5 & _ & Hh5 & Hl5 & Hw5).
  change (take (Z.to_nat 0) (snd res)) with (@nil epoll_event) in Hrun.
  split_run Hrun as u6 w6 Hd. simpl in Hd. injection Hd as _ <-.
  split_run Hrun as cur w7 Hcur.
  pose proof (GetThis_frame _ _ _ Hcur) as (Hi7 & _ & _ & Hh7 & Hk7 & _
                                            & Hsw7 & Hcur7).
  split_run Hrun as u8 w8 Hy.
  pose proof (in_thr_frame _ _ _ _ Hy) as (Hk8 & _ & _ & _ & Hi8 & Hh8).
  injection Hrun as <- <-.
  split; [congruence |]. split; [congruence |]. split; [congruence |].
  split; [exact Hstop |].
  split.
  { exists k. rewrite Hk8, Hk7, Hw5, Hk4. exact Hwlog. }
  unfold in_thr in Hy. apply zoom_Ok in Hy. destruct Hy as (e' & Hy & ->).
  simpl. apply yield_switches in Hy. destruct Hy as [p Hy].
  exists cur, p. rewrite Hy, Hsw7, Ht5, Ht4, Ht3. reflexivity.
Qed.

Lemma idle_turn_handles_no_descriptor_witness :
  exists buf w',
    idle_iteration idle_buffer
      (with_iom (iom (sample_registered []))
         (sample_with_timer false [wait_ready; wait_EBADF]))
    = Ok (Some buf, w')
    /\ events_of w' 5 = READ
    /\ pending w' = 1
    /\ epoll_wait_log (krn w')
       = [(MAX_EVNETS, MAX_TIMEOUT); (MAX_EVNETS, MAX_TIMEOUT)].
Proof.
  assert (Hrun : exists buf w',
             idle_iteration idle_buffer
               (with_iom (iom (sample_registered []))
                  (sample_with_timer false [wait_ready; wait_EBADF]))
             = Ok (Some buf, w')
             /\ epoll_wait_log (krn w')
                = [(MAX_EVNETS, MAX_TIMEOUT); (MAX_EVNETS, MAX_TIMEOUT)]).
  { eexists. eexists. split; [vm_compute; reflexivity | reflexivity]. }
  destruct Hrun as (buf & w' & Hrun & Hlog).
  destruct (idle_turn_handles_no_descriptor _ _ w' (Some buf) Hrun)
    as (Hi & _).
  exists buf, w'. split; [exact Hrun |].
  unfold events_of, fd_context_of, pending. rewrite Hi.
  split; [reflexivity |]. split; [reflexivity | exact Hlog].
Defined.

(** X17. While [epoll_wait] succeeds or is interrupted, a turn of
    [IOManager::idle] does not end: the inner loop waits again after
    every such answer, so neither the expired timers nor the reported
    descriptors are reached before a wait fails for another reason. *)
Theorem idle_turn_outlives_successful_waits (buf : list epoll_event)
    (w : World)
    (Hgo : IOManager_stopping w = Ok (false, w))
    (Hscript : Forall (fun a => 0 <= wa_rt a \/ wa_errno a = EINTR)
                 (epoll_wait_rt (krn w))) :
  idle_iteration buf w = Blocked.
Proof.
  unfold idle_iteration. rewrite (bind_Ok_intro _ _ _ _ _ Hgo).
  cbv iota. unfold bind at 1. unfold get at 1. cbv beta iota.
  unfold bind at 1.
  rewrite (idle_wait_never_dispatches _ Hscript 0 buf w eq_refl).
  reflexivity.
Qed.

Lemma idle_turn_outlives_successful_waits_witness :
  idle_iteration idle_buffer
    (sample_with_timer false [wait_ready; wait_EINTR; wait_ready])
  = Blocked.
Proof.
  apply idle_turn_outlives_successful_waits.
  - reflexivity.
  - repeat constructor; vm_compute; discriminate.
Defined.

(** ** hook.cc: calls that go straight to the original function *)

Lemma k_io_run (w : World) (n e : Z) (rest : list (Z * Z)) :
  io_rt (krn w) = (n, e) :: rest ->
  in_krn k_io w = Ok (n, with_krn (io_answered n e rest (krn w)) w).
Proof.
  intros Hs. unfold in_krn, zoom, k_io. rewrite Hs. reflexivity.
Qed.

Lemma do_io_passthrough_run (w : World) (fd event timeout_so n e : Z)
    (rest : list (Z * Z)) :
  (t_hook_enable (hook w) = false
   \/ m_datas (hook w) !! fd = None
   \/ exists ctx, m_datas (hook w) !! fd = Some ctx
        /\ isClose ctx = false
        /\ (isSocket ctx = false \/ userNonblock ctx = true)) ->
  io_rt (krn w) = (n, e) :: rest ->
  do_io fd event timeout_so w
  = Ok (Returned n, with_krn (io_answered n e rest (krn w)) w).
Proof.
  intros Hpass Hs. unfold do_io. unfold bind at 1. unfold get at 1.
  cbv beta iota.
  destruct (t_hook_enable (hook w)) eqn:Hen; cbn [negb]; cbv iota.
  2:{ rewrite (bind_Ok_intro _ _ _ _ _ (k_io_run w n e rest Hs)).
      reflexivity. }
  destruct Hpass as [Hoff | [Hnone | (ctx & Hctx & Hopen & Hkind)]];
    [discriminate Hoff | |].
  - unfold FdMgr_get. unfold bind at 1. unfold bind at 1. unfold get at 1.
    unfold ret at 1. cbv beta iota. rewrite Hnone.
    rewrite (bind_Ok_intro _ _ _ _ _ (k_io_run w n e rest Hs)).
    reflexivity.
  - unfold FdMgr_get. unfold bind at 1. unfold bind at 1. unfold get at 1.
    unfold ret at 1. cbv beta iota. rewrite Hctx, Hopen.
    assert (Hk : negb (isSocket ctx) || userNonblock ctx = true).
    { destruct Hkind as [-> | ->]; [reflexivity | apply orb_true_r]. }
    rewrite Hk.
    rewrite (bind_Ok_intro _ _ _ _ _ (k_io_run w n e rest Hs)).
    reflexivity.
Qed.

(** X18. A hooked I/O call is handed to the original function as it is
    when hooking is off for the thread, when the descriptor has no fd
    context, when the context is not a socket, or when the user asked for
    non-blocking mode: the original is called exactly once and its answer
    is the call's answer, an EAGAIN failure included; no timer is armed,
    no event is registered and the coroutine is not suspended. *)
Theorem do_io_delegates_directly (w : World) (fd event timeout_so n e : Z)
    (rest : list (Z * Z))
    (Hpass : t_hook_enable (hook w) = false
             \/ m_datas (hook w) !! fd = None
             \/ exists ctx, m_datas (hook w) !! fd = Some ctx
                  /\ isClose ctx = false
                  /\ (isSocket ctx = false \/ userNonblock ctx = true))
    (Hscript : io_rt (krn w) = (n, e) :: rest) :
  exists w',
    do_io fd event timeout_so w = Ok (Returned n, w')
    /\ io_calls (krn w') = S (io_calls (krn w))
    /\ io_rt (krn w') = rest
    /\ errno (krn w') = (if n =? -1 then e else errno (krn w))
    /\ iom w' = iom w /\ tmgr w' = tmgr w /\ scheds w' = scheds w
    /\ thr w' = thr w /\ hook w' = hook w.
Proof.
  eexists. split.
  - apply do_io_passthrough_run; eassumption.
  - simpl. repeat split.
Qed.

Lemma do_io_delegates_directly_witness :
  exists w',
    do_io 6 READ SO_RCVTIMEO (sample_world [] [] [(-1, EAGAIN)] [])
    = Ok (Returned (-1), w')
    /\ errno (krn w') = EAGAIN
    /\ tmgr w' = tmgr (sample_world [] [] [(-1, EAGAIN)] [])
    /\ thr w' = thr (sample_world [] [] [(-1, EAGAIN)] []).
Proof.
  destruct (do_io_delegates_directly (sample_world [] [] [(-1, EAGAIN)] [])
              6 READ SO_RCVTIMEO (-1) EAGAIN [])
    as (w' & Hrun & _ & _ & He & _ & Htm & _ & Hthr & _).
  - right. left. vm_compute. reflexivity.
  - reflexivity.
  - exists w'. split; [exact Hrun |]. split; [exact He |].
    split; [exact Htm | exact Hthr].
Defined.

(** ** hook.cc: interrupted calls are repeated *)

Lemma eintr_loop_done (fuel : nat) (n : Z) (w : World) :
  ~ (n = -1 /\ errno (krn w) = EINTR) ->
  eintr_loop fuel n w = Ok (n, w).
Proof.
  intros Hno.
  assert (Hc : (n =? -1) && (errno (krn w) =? EINTR) = false).
  { apply andb_false_iff.
    destruct (Z.eqb_spec n (-1)) as [Hn | Hn]; [| left; reflexivity].
    right. apply Z.eqb_neq. intros He. apply Hno. split; assumption. }
  destruct fuel; simpl; unfold bind, get; rewrite Hc; reflexivity.
Qed.

Lemma eintr_loop_retries (n e : Z) (rest : list (Z * Z)) (k : nat) :
  ~ (n = -1 /\ e = EINTR) ->
  forall (fuel : nat) (w : World),
    (k < fuel)%nat ->
    errno (krn w) = EINTR ->
    io_rt (krn w) = replicate k (-1, EINTR) ++ (n, e) :: rest ->
    exists w',
      eintr_loop fuel (-1) w = Ok (n, w')
      /\ io_rt (krn w') = rest
      /\ io_calls (krn w') = (io_calls (krn w) + k + 1)%nat
      /\ errno (krn w') = (if n =? -1 then e else EINTR)
      /\ hook w' = hook w /\ tmgr w' = tmgr w /\ iom w' = iom w
      /\ thr w' = thr w /\ scheds w' = scheds w
      /\ t_scheduler w' = t_scheduler w.
Proof.
  intros Hno. induction k as [| k IH]; intros fuel w Hfuel Herr Hs;
    (destruct fuel as [| fuel]; [lia |]); simpl in Hs.
  - exists (with_krn (io_answered n e rest (krn w)) w). split.
    + simpl. unfold bind at 1. unfold get at 1. cbv beta iota.
      rewrite Herr. change (EINTR =? EINTR) with true. cbv iota.
      rewrite (bind_Ok_intro _ _ _ _ _ (k_io_run w n e rest Hs)).
      apply eintr_loop_done.
      simpl. rewrite Herr. intros [-> He]. simpl in He. tauto.
    + simpl. rewrite Herr. repeat split. lia.
  - destruct (IH fuel (with_krn (io_answered (-1) EINTR
                                   (replicate k (-1, EINTR) ++ (n, e) :: rest)
                                   (krn w)) w))
      as (w' & Hrun & Hrt & Hcalls & He & Hrest); [lia | reflexivity
                                                   | reflexivity |].
    exists w'. split.
    + simpl. unfold bind at 1. unfold get at 1. cbv beta iota.
      rewrite Herr. change (EINTR =? EINTR) with true. cbv iota.
      rewrite (bind_Ok_intro _ _ _ _ _ (k_io_run w (-1) EINTR _ Hs)).
      exact Hrun.
    + split; [exact Hrt |].
      split; [rewrite Hcalls; simpl; lia |]. split; [exact He |].
      exact Hrest.
Qed.

Lemma do_io_retry_returns (fd event to : Z) (tinfo : nat) (w : World)
    (n e : Z) (rest : list (Z * Z)) (k : nat) :
  io_rt (krn w) = replicate k (-1, EINTR) ++ (n, e) :: rest ->
  ~ (n = -1 /\ (e = EINTR \/ e = EAGAIN)) ->
  exists w',
    do_io_retry fd event to tinfo w = Ok (Returned n, w')
    /\ io_rt (krn w') = rest
    /\ io_calls (krn w') = (io_calls (krn w) + k + 1)%nat
    /\ (n = -1 -> errno (krn w') = e)
    /\ tinfos (hook w') = <[tinfo := None]> (tinfos (hook w))
    /\ m_datas (hook w') = m_datas (hook w)
    /\ t_hook_enable (hook w') = t_hook_enable (hook w)
    /\ tmgr w' = tmgr w /\ iom w' = iom w /\ thr w' = thr w
    /\ scheds w' = scheds w.
Proof.
  intros Hs Hno.
  assert (Hloop : exists w1,
            (n0 <~ in_krn k_io ;;
             w0 <~ get ;;
             eintr_loop (length (io_rt (krn w0))) n0) w = Ok (n, w1)
            /\ io_rt (krn w1) = rest
            /\ io_calls (krn w1) = (io_calls (krn w) + k + 1)%nat
            /\ (n = -1 -> errno (krn w1) = e)
            /\ hook w1 = hook w /\ tmgr w1 = tmgr w /\ iom w1 = iom w
            /\ thr w1 = thr w /\ scheds w1 = scheds w).
  { destruct k as [| k]; simpl in Hs.
    - exists (with_krn (io_answered n e rest (krn w)) w). split.
      + rewrite (bind_Ok_intro _ _ _ _ _ (k_io_run w n e rest Hs)).
        unfold bind at 1. unfold get at 1. cbv beta iota.
        apply eintr_loop_done.
        simpl. intros [-> He]. simpl in He. apply Hno. auto.
      + simpl. split; [reflexivity |]. split; [lia |].
        split; [intros ->; reflexivity |]. repeat split.
    - destruct (eintr_loop_retries n e rest k
                  ltac:(intros [Hn He]; apply Hno; auto)
                  (length (replicate k (-1, EINTR) ++ (n, e) :: rest))
                  (with_krn (io_answered (-1) EINTR
                               (replicate k (-1, EINTR) ++ (n, e) :: rest)
                               (krn w)) w))
        as (w1 & Hrun & Hrt & Hcalls & He & Hh & Htm & Hi & Ht & Hsc & _).
      + rewrite length_app, length_replicate. simpl. lia.
      + reflexivity.
      + reflexivity.
      + exists w1. split.
        * rewrite (bind_Ok_intro _ _ _ _ _ (k_io_run w (-1) EINTR _ Hs)).
          unfold bind at 1. unfold get at 1. cbv beta iota. exact Hrun.
        * split; [exact Hrt |].
          split; [rewrite Hcalls; simpl; lia |].
          split; [intros ->; exact He |].
          repeat split; assumption. }
  destruct Hloop as (w1 & Hrun & Hrt & Hcalls & He & Hh & Htm & Hi & Ht & Hsc).
  assert (Hc : (n =? -1) && (errno (krn w1) =? EAGAIN) = false).
  { apply andb_false_iff.
    destruct (Z.eqb_spec n (-1)) as [Hn | Hn]; [| left; reflexivity].
    right. rewrite (He Hn). apply Z.eqb_neq. intros He'. apply Hno. auto. }
  assert (Hgoal : do_io_retry fd event to tinfo w
                  = (drop_tinfo tinfo ;;; ret (Returned n)) w1).
  { unfold do_io_retry. revert Hrun. unfold bind at 1 2 3 4.
    destruct (in_krn k_io w) as [[n0 w0] | | |]; try discriminate.
    unfold get at 1 2. unfold bind at 1. intros Hrun. rewrite Hrun.
    unfold bind at 1. unfold get at 1. rewrite Hc. reflexivity. }
  rewrite Hgoal. eexists. split; [reflexivity |]. simpl.
  rewrite Hh, Hrt, Hcalls. repeat split; try assumption.
Qed.

(** X19. A hooked call on a blocking socket repeats the original function
    for as long as it fails with EINTR and returns the first other
    answer, provided that answer is not an EAGAIN failure: the caller
    never sees EINTR, the original was called once per answer, and no
    timer, event or coroutine switch is involved. The witness object of
    the call is destroyed on return. *)
Theorem do_io_repeats_interrupted_calls (w : World)
    (fd event timeout_so n e : Z) (ctx : FdCtx) (rest : list (Z * Z))
    (k : nat)
    (Hhook : t_hook_enable (hook w) = true)
    (Hctx : m_datas (hook w) !! fd = Some ctx)
    (Hopen : isClose ctx = false)
    (Hsock : isSocket ctx = true)
    (Hblocking : userNonblock ctx = false)
    (Hscript : io_rt (krn w) = replicate k (-1, EINTR) ++ (n, e) :: rest)
    (Hfinal : ~ (n = -1 /\ (e = EINTR \/ e = EAGAIN))) :
  exists w',
    do_io fd event timeout_so w = Ok (Returned n, w')
    /\ io_calls (krn w') = (io_calls (krn w) + k + 1)%nat
    /\ io_rt (krn w') = rest
    /\ (n = -1 -> errno (krn w') = e)
    /\ tmgr w' = tmgr w /\ iom w' = iom w /\ thr w' = thr w
    /\ scheds w' = scheds w
    /\ tinfos (hook w') = tinfos (hook w) ++ [None]
    /\ m_datas (hook w') = m_datas (hook w).
Proof.
  set (w1 := with_hook (mkHookEnv (t_hook_enable (hook w)) (m_datas (hook w))
                          (tinfos (hook w) ++ [Some 0])) w).
  destruct (do_io_retry_returns fd event (getTimeout ctx timeout_so)
              (length (tinfos (hook w))) w1 n e rest k Hscript Hfinal)
    as (w' & Hrun & Hrt & Hcalls & He & Hti & Hd & _ & Htm & Hi & Ht & Hs).
  exists w'. split.
  - unfold do_io. unfold bind at 1. unfold get at 1. cbv beta iota.
    rewrite Hhook. cbn [negb]. cbv iota.
    unfold FdMgr_get. unfold bind at 1. unfold bind at 1. unfold get at 1.
    unfold ret at 1. cbv beta iota. rewrite Hctx, Hopen, Hsock, Hblocking.
    cbn [negb orb]. cbv iota.
    assert (Hnew : new_tinfo w = Ok (length (tinfos (hook w)), w1))
      by reflexivity.
    rewrite (bind_Ok_intro _ _ _ _ _ Hnew). exact Hrun.
  - split; [exact Hcalls |]. split; [exact Hrt |]. split; [exact He |].
    split; [exact Htm |]. split; [exact Hi |]. split; [exact Ht |].
    split; [exact Hs |]. split; [| exact Hd].
    rewrite Hti. simpl.
    rewrite insert_app_r_alt by reflexivity.
    rewrite Nat.sub_diag. reflexivity.
Qed.

Lemma do_io_repeats_interrupted_calls_witness :
  exists w',
    do_io 5 READ SO_RCVTIMEO
      (sample_world [] [] [(-1, EINTR); (-1, EINTR); (12, 0)] [])
    = Ok (Returned 12, w')
    /\ io_calls (krn w') = 3%nat
    /\ tmgr w' = mkTimerManager [] 0 0.
Proof.
  destruct (do_io_repeats_interrupted_calls
              (sample_world [] [] [(-1, EINTR); (-1, EINTR); (12, 0)] [])
              5 READ SO_RCVTIMEO 12 0
              (mkFdCtx true false true false 100 UINT64_MAX) [] 2)
    as (w' & Hrun & Hcalls & _ & _ & Htm & _).
  - reflexivity.
  - vm_compute. reflexivity.
  - reflexivity.
  - reflexivity.
  - reflexivity.
  - reflexivity.
  - intros [H _]. discriminate H.
  - exists w'. split; [exact Hrun |]. split; [exact Hcalls | exact Htm].
Defined.

(** ** hook.cc: what a suspended call leaves behind and how it resumes *)

Lemma do_io_retry_yield_full (fd event to : Z) (tinfo : nat) (w : World)
    (fr : Frame) (w1 : World) :
  do_io_retry fd event to tinfo w = Ok (Yielded fr, w1) ->
  (to = UINT64_MAX -> fr_timer fr = None /\ tmgr w1 = tmgr w)
  /\ t_hook_enable (hook w1) = t_hook_enable (hook w)
  /\ m_datas (hook w1)
     = match m_datas (hook w) !! fd with
       | Some ctx =>
           if isClose ctx || negb (isSocket ctx) then m_datas (hook w)
           else <[fd := marked true ctx]> (m_datas (hook w))
       | None => m_datas (hook w)
       end
  /\ scheds w1 = scheds w.
Proof.
  intros H. unfold do_io_retry in H.
  split_run H as n0 w2 Hk. apply in_krn_frame in Hk.
  destruct Hk as (_ & _ & Hs2 & Htm2 & _ & Hh2 & _).
  split_run H as w0 w3 Hg. unfold get in Hg. injection Hg as <- <-.
  split_run H as n w4 Hloop. apply eintr_loop_frame in Hloop.
  destruct Hloop as (Hh4 & Htm4 & _ & _ & Hs4).
  split_run H as w0 w5 Hg. unfold get in Hg. injection Hg as <- <-.
  destruct ((n =? -1) && (errno (krn w4) =? EAGAIN)).
  2:{ split_run H as u w6 Hd. unfold ret in H. discriminate H. }
  split_run H as iom_ptr w6 Hthis.
  unfold IOManager_GetThis, bind, get, ret in Hthis.
  injection Hthis as _ <-.
  split_run H as timer w7 Htimer.
  split_run H as p w8 Hp. apply deref_Ok in Hp. destruct Hp as [_ ->].
  split_run H as rt w9 Hadd.
  destruct (Z.eqb_spec rt 0) as [-> | Hne]; simpl in H.
  2:{ split_run H as u1 w10 Hc. split_run H as u2 w11 Hd.
      unfold ret in H. discriminate H. }
  pose proof (addEvent_zero_inv _ _ _ _ _ Hadd)
    as (_ & _ & _ & _ & _ & _ & _ & _ & _ & _ & _ & Hs9 & Htm9 & _).
  apply addEvent_zero_full in Hadd.
  destruct Hadd as (_ & _ & _ & _ & _ & _ & _ & _ & _ & _ & _ & Hen9 & Hd9).
  split_run H as cur w10 Hcur. apply in_thr_frame in Hcur.
  destruct Hcur as (_ & _ & Hs10 & Htm10 & _ & Hh10).
  split_run H as u3 w11 Hy. apply in_thr_frame in Hy.
  destruct Hy as (_ & _ & Hs11 & Htm11 & _ & Hh11).
  injection H as <- <-. simpl.
  assert (Htimer' : hook w7 = hook w4 /\ scheds w7 = scheds w4
                    /\ (to = UINT64_MAX -> timer = None /\ tmgr w7 = tmgr w4)).
  { destruct (Z.eqb_spec to UINT64_MAX) as [Hto | Hto]; simpl in Htimer.
    - injection Htimer as <- <-. repeat split.
    - split_run Htimer as p1 w12 Hp1. apply deref_Ok in Hp1.
      destruct Hp1 as [_ ->].
      split_run Htimer as t w13 Hat. injection Htimer as <- <-.
      apply addConditionTimer_inv in Hat.
      destruct Hat as (Hh & _ & _ & Hs & _).
      split; [exact Hh |]. split; [exact Hs |]. intros Hto'. contradiction. }
  destruct Htimer' as (Hh7 & Hs7 & Hnone).
  split.
  { intros Hto. destruct (Hnone Hto) as [-> Htm7]. split; [reflexivity |].
    congruence. }
  rewrite Hh11, Hh10. rewrite Hh7, Hh4, Hh2 in Hen9, Hd9.
  split; [exact Hen9 |]. split; [exact Hd9 |]. congruence.
Qed.

Lemma do_io_yield_full (fd event timeout_so : Z) (w : World) (fr : Frame)
    (w1 : World) :
  do_io fd event timeout_so w = Ok (Yielded fr, w1) ->
  exists ctx,
    m_datas (hook w) !! fd = Some ctx
    /\ isClose ctx = false /\ isSocket ctx = true /\ userNonblock ctx = false
    /\ fr_to fr = getTimeout ctx timeout_so
    /\ (fr_to fr = UINT64_MAX -> fr_timer fr = None /\ tmgr w1 = tmgr w)
    /\ t_hook_enable (hook w) = true
    /\ t_hook_enable (hook w1) = true
    /\ m_datas (hook w1) = <[fd := marked true ctx]> (m_datas (hook w))
    /\ scheds w1 = scheds w.
Proof.
  intros H.
  pose proof (do_io_yield_inv _ _ _ _ _ _ H) as (_ & _ & (ctx' & Hc' & Hto)
                                                 & _).
  unfold do_io in H.
  split_run H as w0 w2 Hg. unfold get in Hg. injection Hg as <- <-.
  destruct (t_hook_enable (hook w)) eqn:Hen; simpl in H.
  2:{ split_run H as n w3 Hk. unfold ret in H. discriminate H. }
  split_run H as octx w3 Hget. unfold FdMgr_get, bind, get, ret in Hget.
  injection Hget as <- <-.
  destruct (m_datas (hook w) !! fd) as [ctx |] eqn:Hctx.
  2:{ split_run H as n w3 Hk. unfold ret in H. discriminate H. }
  injection Hc' as <-.
  destruct (isClose ctx) eqn:Hclose.
  { split_run H as u w3 He. unfold ret in H. discriminate H. }
  destruct (isSocket ctx) eqn:Hsock; simpl in H.
  2:{ split_run H as n w3 Hk. unfold ret in H. discriminate H. }
  destruct (userNonblock ctx) eqn:Hnb.
  { split_run H as n w3 Hk. unfold ret in H. discriminate H. }
  split_run H as tinfo w3 Hnew.
  unfold new_tinfo, set_tinfos, bind, get, modify, ret in Hnew.
  injection Hnew as <- <-.
  pose proof (do_io_retry_yield_inv _ _ _ _ _ _ _ H) as (_ & _ & Hfrto & _).
  apply do_io_retry_yield_full in H.
  destruct H as (Hnone & Hen1 & Hd1 & Hs1).
  simpl in Hnone, Hen1, Hd1, Hs1. rewrite Hctx, Hclose, Hsock in Hd1.
  simpl in Hd1.
  exists ctx. split; [reflexivity |].
  split; [exact Hclose |]. split; [exact Hsock |]. split; [exact Hnb |].
  split; [exact Hto |].
  split; [intros Hinf; apply Hnone; rewrite <- Hfrto; exact Hinf |].
  split; [reflexivity |]. split; [congruence |].
  split; [exact Hd1 | exact Hs1].
Qed.

(** X20. A hooked call on a socket that has no timeout configured for
    the direction suspends without arming a timer: the set of timers is
    as it was, the suspended call holds no timer to cancel, and the
    direction is registered, so only the event (or a cancellation) will
    schedule the coroutine again. *)
Theorem no_timeout_arms_no_timer (w w1 : World) (fd event timeout_so : Z)
    (fr : Frame) (ctx : FdCtx)
    (Hctx : m_datas (hook w) !! fd = Some ctx)
    (Hforever : getTimeout ctx timeout_so = UINT64_MAX)
    (Hsuspended : do_io fd event timeout_so w = Ok (Yielded fr, w1)) :
  fr_timer fr = None
  /\ tmgr w1 = tmgr w
  /\ Z.land (events_of w1 fd) event = event
  /\ tinfos (hook w1) !! fr_tinfo fr = Some (Some 0).
Proof.
  pose proof (do_io_yield_inv _ _ _ _ _ _ Hsuspended)
    as (_ & _ & _ & Hti & Hreg & _).
  apply do_io_yield_full in Hsuspended.
  destruct Hsuspended as (ctx' & Hctx' & _ & _ & _ & Hto & Hnone & _).
  rewrite Hctx in Hctx'. injection Hctx' as <-.
  destruct (Hnone ltac:(congruence)) as [Ht Htm].
  repeat split; assumption.
Qed.

Lemma no_timeout_arms_no_timer_witness :
  exists fr w1,
    do_io 5 WRITE SO_SNDTIMEO
      (sample_world [0] [2; 0] [(-1, EAGAIN)] []) = Ok (Yielded fr, w1)
    /\ fr_timer fr = None
    /\ m_timers (tmgr w1) = [].
Proof.
  assert (Hrun : exists fr w1,
             do_io 5 WRITE SO_SNDTIMEO
               (sample_world [0] [2; 0] [(-1, EAGAIN)] [])
             = Ok (Yielded fr, w1)).
  { eexists. eexists. vm_compute. reflexivity. }
  destruct Hrun as (fr & w1 & Hrun).
  destruct (no_timeout_arms_no_timer
              (sample_world [0] [2; 0] [(-1, EAGAIN)] []) w1 5 WRITE
              SO_SNDTIMEO fr (mkFdCtx true false true false 100 UINT64_MAX))
    as (Ht & Htm & _).
  - vm_compute. reflexivity.
  - reflexivity.
  - exact Hrun.
  - exists fr, w1. split; [exact Hrun |]. split; [exact Ht |].
    rewrite Htm. reflexivity.
Defined.

(** X21. Registering an event marks the socket as non-blocking on the
    user's behalf. [addEvent] calls [setnonblocking], whose [fcntl] calls
    are the hooked ones, so the fd context of a socket on which a hooked
    call has suspended records that the user asked for O_NONBLOCK; from
    then on a hooked call on that descriptor is handed to the original
    function as it is, and its answer, an EAGAIN failure included, goes
    back to the caller without suspending the coroutine. *)
Theorem suspended_socket_is_marked_nonblocking (w w1 : World)
    (fd event timeout_so : Z) (fr : Frame)
    (Hsuspended : do_io fd event timeout_so w = Ok (Yielded fr, w1)) :
  exists ctx,
    m_datas (hook w) !! fd = Some ctx
    /\ userNonblock ctx = false
    /\ m_datas (hook w1) !! fd = Some (marked true ctx)
    /\ forall (w2 : World) (event2 timeout2 n e : Z) (rest : list (Z * Z)),
         t_hook_enable (hook w2) = true ->
         m_datas (hook w2) !! fd = m_datas (hook w1) !! fd ->
         io_rt (krn w2) = (n, e) :: rest ->
         do_io fd event2 timeout2 w2
         = Ok (Returned n, with_krn (io_answered n e rest (krn w2)) w2).
Proof.
  apply do_io_yield_full in Hsuspended.
  destruct Hsuspended as (ctx & Hctx & Hopen & _ & Hnb & _ & _ & _ & _ & Hd
                          & _).
  exists ctx. split; [exact Hctx |]. split; [exact Hnb |].
  assert (Hmark : m_datas (hook w1) !! fd = Some (marked true ctx))
    by (rewrite Hd; apply lookup_insert_eq).
  split; [exact Hmark |].
  intros w2 event2 timeout2 n e rest _ Hsame Hscript.
  apply do_io_passthrough_run; [| exact Hscript].
  right. right. exists (marked true ctx).
  split; [rewrite Hsame; exact Hmark |].
  split; [exact Hopen | right; reflexivity].
Qed.

Lemma suspended_socket_is_marked_nonblocking_witness :
  exists fr w1 w2,
    do_io 5 READ SO_RCVTIMEO
      (sample_world [0; 0] [2; 0] [(-1, EAGAIN); (-1, EAGAIN)] [])
    = Ok (Yielded fr, w1)
    /\ do_io 5 READ SO_RCVTIMEO w1 = Ok (Returned (-1), w2)
    /\ errno (krn w2) = EAGAIN
    /\ thr w2 = thr w1.
Proof.
  assert (Hrun : exists fr w1,
             do_io 5 READ SO_RCVTIMEO
               (sample_world [0; 0] [2; 0] [(-1, EAGAIN); (-1, EAGAIN)] [])
             = Ok (Yielded fr, w1)
             /\ t_hook_enable (hook w1) = true
             /\ io_rt (krn w1) = [(-1, EAGAIN)]).
  { eexists. eexists. split; [vm_compute; reflexivity |].
    split; reflexivity. }
  destruct Hrun as (fr & w1 & Hrun & Hen & Hscript).
  destruct (suspended_socket_is_marked_nonblocking _ w1 5 READ SO_RCVTIMEO
              fr Hrun) as (ctx & _ & _ & _ & Hnext).
  exists fr, w1, (with_krn (io_answered (-1) EAGAIN [] (krn w1)) w1).
  split; [exact Hrun |].
  split; [exact (Hnext w1 READ SO_RCVTIMEO (-1) EAGAIN [] Hen eq_refl
                   Hscript) |].
  split; reflexivity.
Defined.

Lemma cancel_if_run (timer : option nat) (w : World) :
  exists w1,
    cancel_if timer w = Ok (tt, w1)
    /\ hook w1 = hook w /\ krn w1 = krn w /\ iom w1 = iom w
    /\ scheds w1 = scheds w /\ thr w1 = thr w
    /\ (forall t x, timer = Some t -> x ∈ m_timers (tmgr w1) ->
                    timer_ptr x <> t)
    /\ (forall x, x ∈ m_timers (tmgr w1) -> x ∈ m_timers (tmgr w)).
Proof.
  destruct timer as [t |]; simpl.
  2:{ exists w. repeat split; try discriminate. auto. }
  unfold Timer_cancel, bind, get, put, ret.
  destruct (existsb (fun x => Nat.eqb (timer_ptr x) t) (m_timers (tmgr w)))
    eqn:Hex.
  - eexists. split; [reflexivity |]. simpl.
    repeat (split; [reflexivity |]). split.
    + intros t' x Ht' Hx. injection Ht' as <-.
      apply list_elem_of_filter in Hx. destruct Hx as [Hp _].
      intros Heq. rewrite Heq, Nat.eqb_refl in Hp. exact Hp.
    + intros x Hx. apply list_elem_of_filter in Hx. tauto.
  - exists w. split; [reflexivity |].
    repeat (split; [reflexivity |]). split; [| auto].
    intros t' x Ht' Hx Heq. injection Ht' as <-.
    assert (Hin : existsb (fun x => Nat.eqb (timer_ptr x) t)
                    (m_timers (tmgr w)) = true).
    { apply existsb_exists. exists x. split.
      - apply list_elem_of_In. exact Hx.
      - rewrite Heq. apply Nat.eqb_refl. }
    congruence.
Qed.

(** X22. A suspended call that is resumed by its event, its witness
    untouched, cancels the timer it held and goes back to the original
    function: interrupted answers are repeated and the first other answer
    that is not an EAGAIN failure is returned; no timer with the handle
    is left in the set and the witness object is destroyed. *)
Theorem do_io_resumes_after_event (w : World) (fr : Frame) (n e : Z)
    (rest : list (Z * Z)) (k : nat)
    (Hwitness : tinfos (hook w) !! fr_tinfo fr = Some (Some 0))
    (Hscript : io_rt (krn w) = replicate k (-1, EINTR) ++ (n, e) :: rest)
    (Hfinal : ~ (n = -1 /\ (e = EINTR \/ e = EAGAIN))) :
  exists w',
    do_io_resume fr w = Ok (Returned n, w')
    /\ io_calls (krn w') = (io_calls (krn w) + k + 1)%nat
    /\ (n = -1 -> errno (krn w') = e)
    /\ (forall t x, fr_timer fr = Some t -> x ∈ m_timers (tmgr w') ->
                    timer_ptr x <> t)
    /\ tinfos (hook w') !! fr_tinfo fr = Some None
    /\ iom w' = iom w /\ scheds w' = scheds w /\ thr w' = thr w.
Proof.
  destruct (cancel_if_run (fr_timer fr) w)
    as (w1 & Hc & Hh1 & Hk1 & Hi1 & Hs1 & Ht1 & Hgone & _).
  rewrite <- Hk1 in Hscript.
  destruct (do_io_retry_returns (fr_fd fr) (fr_event fr) (fr_to fr)
              (fr_tinfo fr) w1 n e rest k Hscript Hfinal)
    as (w' & Hrun & _ & Hcalls & He & Hti & _ & _ & Htm & Hi & Ht & Hs).
  exists w'. split.
  - unfold do_io_resume. rewrite (bind_Ok_intro _ _ _ _ _ Hc).
    unfold bind at 1. unfold get at 1. cbv beta iota.
    rewrite Hh1, Hwitness. simpl mjoin.
    unfold bind at 1. unfold deref at 1. cbv beta iota.
    change (truthy 0) with false. cbv iota. exact Hrun.
  - split; [rewrite Hcalls, Hk1; reflexivity |]. split; [exact He |].
    split; [intros t x Ht' Hx; rewrite Htm in Hx; eapply Hgone; eauto |].
    split.
    { rewrite Hti, Hh1. apply list_lookup_insert_eq.
      eapply lookup_lt_Some; exact Hwitness. }
    repeat split; congruence.
Qed.

Lemma do_io_resumes_after_event_witness :
  exists fr w1 w2,
    do_io 5 READ SO_RCVTIMEO
      (sample_world [0; 0] [2; 0] [(-1, EAGAIN); (8, 0)] [])
    = Ok (Yielded fr, w1)
    /\ m_timers (tmgr w1) <> []
    /\ do_io_resume fr w1 = Ok (Returned 8, w2)
    /\ m_timers (tmgr w2) = [].
Proof.
  assert (Hrun : exists fr w1,
             do_io 5 READ SO_RCVTIMEO
               (sample_world [0; 0] [2; 0] [(-1, EAGAIN); (8, 0)] [])
             = Ok (Yielded fr, w1)
             /\ m_timers (tmgr w1) <> []
             /\ tinfos (hook w1) !! fr_tinfo fr = Some (Some 0)
             /\ io_rt (krn w1) = replicate 0 (-1, EINTR) ++ (8, 0) :: []
             /\ exists w2, do_io_resume fr w1 = Ok (Returned 8, w2)
                           /\ m_timers (tmgr w2) = []).
  { eexists. eexists. split; [vm_compute; reflexivity |].
    split; [discriminate |]. split; [reflexivity |]. split; [reflexivity |].
    eexists. split; [vm_compute; reflexivity | reflexivity]. }
  destruct Hrun as (fr & w1 & Hrun & Harmed & Hw & Hs & w2 & Hres & Hgone).
  destruct (do_io_resumes_after_event w1 fr 8 0 [] 0 Hw Hs)
    as (w2' & Hres' & _).
  - intros [H _]. discriminate H.
  - exists fr, w1, w2. split; [exact Hrun |]. split; [exact Harmed |].
    split; [exact Hres | exact Hgone].
Defined.

(** ** hook.cc: [connect_with_timeout] *)

Lemma connect_result_run (so_rt so_error : Z) (w : World) :
  exists w',
    connect_result so_rt so_error w
    = Ok (if so_rt =? -1 then -1 else if so_error =? 0 then 0 else -1, w')
    /\ hook w' = hook w /\ tmgr w' = tmgr w /\ iom w' = iom w
    /\ scheds w' = scheds w /\ thr w' = thr w
    /\ io_calls (krn w') = io_calls (krn w)
    /\ (so_rt <> -1 -> so_error <> 0 -> errno (krn w') = so_error)
    /\ (so_rt = -1 \/ so_error = 0 -> krn w' = krn w).
Proof.
  unfold connect_result.
  destruct (Z.eqb_spec so_rt (-1)) as [H1 | H1].
  - exists w. repeat split; try reflexivity. intros H; contradiction.
  - destruct (Z.eqb_spec so_error 0) as [H2 | H2].
    + exists w. repeat split; try reflexivity. intros _ H; contradiction.
    + eexists. split; [reflexivity |]. simpl. repeat split.
      intros [H | H]; contradiction.
Qed.

Lemma timer_insert_inv (t x : Timer) (l : list Timer) :
  x ∈ timer_insert t l -> x = t \/ x ∈ l.
Proof.
  induction l as [| y l IH]; simpl.
  - intros Hx. apply list_elem_of_singleton in Hx. left. exact Hx.
  - destruct (timer_ltb t y).
    + intros Hx. apply elem_of_cons in Hx. tauto.
    + intros Hx. apply elem_of_cons in Hx. destruct Hx as [-> | Hx].
      * right. apply list_elem_of_here.
      * destruct (IH Hx) as [-> | Hin]; [left; reflexivity |].
        right. apply list_elem_of_further. exact Hin.
Qed.

Lemma addTimer_inv (ms : Z) (c : Callback) (recurring : bool) (w : World)
    (t : nat) (w' : World) :
  addTimer ms c recurring w = Ok (t, w') ->
  t = timer_count (tmgr w)
  /\ m_timers (tmgr w')
     = timer_insert (mkTimer t recurring ms (wrap64 (now_ms (krn w) + ms))
                       (Some c)) (m_timers (tmgr w))
  /\ hook w' = hook w /\ iom w' = iom w /\ thr w' = thr w
  /\ scheds w' = scheds w /\ t_scheduler w' = t_scheduler w
  /\ io_calls (krn w') = io_calls (krn w)
  /\ io_rt (krn w') = io_rt (krn w)
  /\ epoll_ctl_rt (krn w') = epoll_ctl_rt (krn w)
  /\ now_ms (krn w') = now_ms (krn w).
Proof.
  intros H.
  unfold addTimer, onTimerInsertedAtFront, IOManager_tickle, load_sched,
    in_krn, zoom, k_write_pipe, bind, get, put, modify, ret, deref in H.
  crush_run H; simpl; repeat split; try reflexivity;
    symmetry; assumption.
Qed.

Lemma fcntl_io_frame (fd cmd arg : Z) (w : World) (r : Z) (w' : World) :
  fcntl fd cmd arg w = Ok (r, w') ->
  io_calls (krn w') = io_calls (krn w) /\ io_rt (krn w') = io_rt (krn w)
  /\ errno (krn w') = errno (krn w) /\ now_ms (krn w') = now_ms (krn w).
Proof.
  intros H.
  unfold fcntl, FdMgr_get, setUserNonblock, in_krn, zoom, k_fcntl_f,
    bind, get, modify, ret in H.
  crush_run H; simpl; repeat split.
Qed.

Lemma addEvent_kernel_frame (fd event : Z) (callback : option Callback)
    (w : World) (r : Z) (w' : World) :
  addEvent fd event callback w = Ok (r, w') ->
  io_calls (krn w') = io_calls (krn w)
  /\ io_rt (krn w') = io_rt (krn w)
  /\ errno (krn w') = errno (krn w)
  /\ (r <> 0 -> thr w' = thr w /\ hook w' = hook w /\ tmgr w' = tmgr w).
Proof.
  intros H. unfold addEvent in H.
  split_run H as w0 w1 Hg. unfold get in Hg. injection Hg as <- <-.
  split_run H as u1 wa Hif.
  split_run H as c wb Hat.
  destruct (addEvent_locate_inv w fd u1 wa c wb Hif Hat)
    as (Hfd & -> & l & -> & Hl & Hview & Hgrown).
  split_run H as u2 w2 Hbit. apply assert_Ok in Hbit.
  destruct Hbit as [Hbit ->].
  split_run H as rt w3 Hk. apply in_krn_frame in Hk.
  destruct Hk as (Ht3 & _ & _ & Htm3 & _ & Hh3 & Hk3).
  assert (Hio3 : io_calls (krn w3) = io_calls (krn w)
                 /\ io_rt (krn w3) = io_rt (krn w)
                 /\ errno (krn w3) = errno (krn w)).
  { unfold k_epoll_ctl in Hk3. simpl in Hk3.
    destruct (epoll_ctl_rt (krn w)); [discriminate Hk3 |].
    injection Hk3 as _ <-. repeat split. }
  destruct Hio3 as (Hc3 & Hr3 & He3).
  destruct (truthy rt).
  { injection H as <- <-. split; [exact Hc3 |]. split; [exact Hr3 |].
    split; [exact He3 |]. intros _. repeat split; assumption. }
  split_run H as r4 w4 Hnb.
  assert (Hio4 : io_calls (krn w4) = io_calls (krn w3)
                 /\ io_rt (krn w4) = io_rt (krn w3)
                 /\ errno (krn w4) = errno (krn w3)).
  { unfold setnonblocking in Hnb.
    split_run Hnb as old w41 H1. apply fcntl_io_frame in H1.
    split_run Hnb as r2 w42 H2. apply fcntl_io_frame in H2.
    injection Hnb as _ <-.
    destruct H1 as (? & ? & ? & _). destruct H2 as (? & ? & ? & _).
    repeat split; congruence. }
  destruct Hio4 as (Hc4 & Hr4 & He4).
  split_run H as u5 w5 Hinc. apply inc_pending_inv in Hinc. subst w5.
  split_run H as u6 w6 Hst. unfold store_fd_ctx, modify in Hst.
  injection Hst as _ <-.
  split_run H as x0 w7 Hev. apply getEventContext_inv in Hev.
  destruct Hev as [-> Hev].
  split_run H as u8 w8 Hempty. apply assert_Ok in Hempty.
  destruct Hempty as [Hempty ->].
  split_run H as sch w9 Hsch. unfold Scheduler_GetThis, bind, get, ret in Hsch.
  injection Hsch as <- <-.
  destruct callback as [f |].
  - split_run H as u10 w10 Hst. unfold store_fd_ctx, modify in Hst.
    injection Hst as _ <-. injection H as <- <-. simpl.
    split; [congruence |]. split; [congruence |]. split; [congruence |].
    intros Hne. contradiction.
  - split_run H as cur w10 Hcur. apply GetThis_frame in Hcur.
    destruct Hcur as (_ & _ & _ & _ & Hk10 & _).
    split_run H as u11 w11 Hst. unfold store_fd_ctx, modify in Hst.
    injection Hst as _ <-.
    split_run H as st w12 Hgs. apply getState_frame in Hgs.
    destruct Hgs as (_ & _ & _ & _ & Hk12 & _).
    split_run H as u13 w13 Has. apply assert_Ok in Has.
    destruct Has as [_ ->]. injection H as <- <-.
    simpl in *. rewrite Hk12. simpl. rewrite Hk10. simpl.
    split; [congruence |]. split; [congruence |]. split; [congruence |].
    intros Hne. contradiction.
Qed.

(** What [connect_with_timeout] did on a blocking socket whose
    [connect_f] answered that the connection is in progress. *)
Lemma connect_in_progress_inv (fd timeout_ms so_rt so_error : Z) (w : World)
    (ctx : FdCtx) (rest : list (Z * Z)) (step : IoStep) (w1 : World) :
  t_hook_enable (hook w) = true ->
  m_datas (hook w) !! fd = Some ctx ->
  isClose ctx = false -> isSocket ctx = true -> userNonblock ctx = false ->
  io_rt (krn w) = (-1, EINPROGRESS) :: rest ->
  connect_with_timeout fd timeout_ms so_rt so_error w = Ok (step, w1) ->
  io_calls (krn w1) = S (io_calls (krn w))
  /\ match step with
     | Yielded fr =>
         fr_fd fr = fd /\ fr_event fr = WRITE /\ fr_to fr = timeout_ms
         /\ tinfos (hook w1) !! fr_tinfo fr = Some (Some 0)
         /\ Z.land (events_of w1 fd) WRITE = WRITE
         /\ (timeout_ms <> UINT64_MAX ->
             exists t tm,
               fr_timer fr = Some t /\ tm ∈ m_timers (tmgr w1)
               /\ timer_ptr tm = t
               /\ m_cb tm = Some (OnTimerCb (fr_tinfo fr)
                                    (TimeoutCb (fr_tinfo fr) fd WRITE)))
     | Returned r =>
         r = (if so_rt =? -1 then -1 else if so_error =? 0 then 0 else -1)
         /\ pending w1 = pending w
         /\ scheds w1 = scheds w
         /\ thr w1 = thr w
         /\ (forall x, x ∈ m_timers (tmgr w1) -> x ∈ m_timers (tmgr w))
     end.
Proof.
  intros Hen Hctx Hopen Hsock Hnb Hs H. unfold connect_with_timeout in H.
  split_run H as w0 w2 Hg. unfold get in Hg. injection Hg as <- <-.
  rewrite Hen in H. cbn [negb] in H. cbv iota in H.
  split_run H as octx w3 Hget. unfold FdMgr_get, bind, get, ret in Hget.
  injection Hget as <- <-. rewrite Hctx, Hopen, Hsock, Hnb in H.
  cbn [negb] in H. cbv iota in H.
  rewrite (bind_Ok_intro _ _ _ _ _ (k_io_run w _ _ _ Hs)) in H.
  split_run H as w0 w4 Hg. unfold get in Hg. injection Hg as <- <-.
  simpl in H.
  set (wk := with_krn (io_answered (-1) EINPROGRESS rest (krn w)) w) in *.
  split_run H as iom_ptr w5 Hthis.
  unfold IOManager_GetThis, bind, get, ret in Hthis.
  injection Hthis as _ <-.
  split_run H as tinfo w6 Hnew.
  unfold new_tinfo, set_tinfos, bind, get, modify, ret in Hnew.
  injection Hnew as <- <-.
  split_run H as timer w7 Htimer.
  assert (Htimer' :
            hook w7
            = mkHookEnv (t_hook_enable (hook wk)) (m_datas (hook wk))
                (tinfos (hook wk) ++ [Some 0])
            /\ iom w7 = iom wk /\ scheds w7 = scheds wk /\ thr w7 = thr wk
            /\ io_calls (krn w7) = io_calls (krn wk)
            /\ (timer = None -> tmgr w7 = tmgr wk)
            /\ (forall x t, x ∈ m_timers (tmgr w7) -> timer = Some t ->
                            timer_ptr x <> t -> x ∈ m_timers (tmgr wk))
            /\ (timeout_ms <> UINT64_MAX ->
                exists t tm,
                  timer = Some t /\ tm ∈ m_timers (tmgr w7)
                  /\ timer_ptr tm = t
                  /\ m_cb tm
                     = Some (OnTimerCb (length (tinfos (hook wk)))
                               (TimeoutCb (length (tinfos (hook wk))) fd
                                  WRITE)))).
  { destruct (Z.eqb_spec timeout_ms UINT64_MAX) as [Hto | Hto];
      simpl in Htimer.
    - injection Htimer as <- <-. simpl.
      repeat (split; [reflexivity |]).
      split; [intros x t _ Ht; discriminate Ht |]. congruence.
    - split_run Htimer as p1 w12 Hp1. apply deref_Ok in Hp1.
      destruct Hp1 as [_ ->].
      split_run Htimer as t w13 Hat. injection Htimer as <- <-.
      unfold addConditionTimer in Hat. apply addTimer_inv in Hat.
      destruct Hat as (Hcount & Hl & Hh & Hi & Ht & Hsc & _ & Hcalls & _).
      split; [exact Hh |]. split; [exact Hi |]. split; [exact Hsc |].
      split; [exact Ht |]. split; [exact Hcalls |].
      split; [discriminate |].
      split.
      { intros x t' Hx Ht' Hne. injection Ht' as <-. rewrite Hl in Hx.
        apply timer_insert_inv in Hx. destruct Hx as [-> | Hx];
          [simpl in Hne; congruence | exact Hx]. }
      intros _. eexists. eexists. split; [reflexivity |].
      rewrite Hl. split; [apply timer_insert_elem |].
      split; reflexivity. }
  destruct Htimer' as (Hh7 & Hi7 & Hs7 & Ht7 & Hc7 & Hnone7 & Hold7 & Harm7).
  split_run H as p w8 Hp. apply deref_Ok in Hp. destruct Hp as [_ ->].
  split_run H as rt w9 Hadd.
  destruct (Z.eqb_spec rt 0) as [-> | Hne].
  - pose proof (addEvent_kernel_frame _ _ _ _ _ _ Hadd) as (Hc9 & _).
    pose proof (addEvent_zero_obs _ _ _ _ _ Hadd) as (_ & _ & He9 & _).
    apply addEvent_zero_inv in Hadd.
    destruct Hadd as (_ & _ & _ & _ & _ & _ & _ & _ & _ & _ & _ & _ & Htm9
                      & Hti9 & _).
    split_run H as cur w10 Hcur. pose proof (GetThis_frame _ _ _ Hcur)
      as (_ & _ & _ & _ & Hk10 & _).
    apply in_thr_frame in Hcur.
    destruct Hcur as (_ & _ & _ & Htm10 & Hi10 & Hh10).
    split_run H as u3 w11 Hy. apply in_thr_frame in Hy.
    destruct Hy as (Hk11 & _ & _ & Htm11 & Hi11 & Hh11).
    injection H as <- <-. simpl.
    split; [rewrite Hk11, Hk10, Hc9, Hc7; reflexivity |].
    repeat (split; [reflexivity |]).
    split.
    { rewrite Hh11, Hh10, Hti9, Hh7. simpl.
      rewrite lookup_app_r by reflexivity. rewrite Nat.sub_diag.
      reflexivity. }
    split.
    { assert (Hev : events_of w11 fd = events_of w9 fd)
        by (unfold events_of, fd_context_of; rewrite Hi11, Hi10; reflexivity).
      rewrite Hev, He9. apply land_lor_same. }
    intros Hto. destruct (Harm7 Hto) as (t & tm & Ht & Hin & Hptr & Hcb).
    exists t, tm. rewrite Htm11, Htm10, Htm9. repeat split; assumption.
  - pose proof (addEvent_kernel_frame _ _ _ _ _ _ Hadd)
      as (Hc9 & _ & _ & Hfr9).
    destruct (Hfr9 Hne) as (Ht9 & Hh9 & Htm9).
    destruct (addEvent_result _ _ _ _ _ _ Hadd)
      as [H0 | (_ & Hp9 & Hs9 & _)]; [contradiction |].
    destruct (cancel_if_run timer w9)
      as (w10 & Hcan & Hh10 & Hk10 & Hi10 & Hs10 & Ht10 & Hgone10 & Hsub10).
    rewrite (bind_Ok_intro _ _ _ _ _ Hcan) in H.
    destruct (connect_result_run so_rt so_error w10)
      as (w11 & Hres & Hh11 & Htm11 & Hi11 & Hs11 & Ht11 & Hc11 & _).
    rewrite (bind_Ok_intro _ _ _ _ _ Hres) in H.
    unfold drop_tinfo, set_tinfos, bind, get, modify, ret in H.
    injection H as <- <-. simpl.
    split; [rewrite Hc11, Hk10, Hc9, Hc7; reflexivity |].
    split; [reflexivity |].
    split; [unfold pending in *; simpl; rewrite Hi11, Hi10; rewrite Hp9, Hi7;
            reflexivity |].
    split; [rewrite Hs11, Hs10, Hs9, Hs7; reflexivity |].
    split; [rewrite Ht11, Ht10, Ht9, Ht7; reflexivity |].
    intros x Hx. rewrite Htm11 in Hx.
    destruct timer as [t |].
    + pose proof (Hgone10 t x eq_refl Hx) as Hnot.
      apply Hsub10 in Hx. rewrite Htm9 in Hx.
      exact (Hold7 x t Hx eq_refl Hnot).
    + apply Hsub10 in Hx. rewrite Htm9, (Hnone7 eq_refl) in Hx. exact Hx.
Qed.

Lemma connect_resume_cancelled (fr : Frame) (so_rt so_error : Z) (w : World)
    (c : Z) :
  tinfos (hook w) !! fr_tinfo fr = Some (Some c) ->
  c <> 0 ->
  exists w',
    connect_resume fr so_rt so_error w = Ok (-1, w')
    /\ errno (krn w') = c
    /\ io_calls (krn w') = io_calls (krn w)
    /\ tinfos (hook w') !! fr_tinfo fr = Some None.
Proof.
  intros Hti Hc.
  destruct (cancel_if_run (fr_timer fr) w)
    as (w1 & Hcan & Hh1 & Hk1 & _).
  apply truthy_true_iff in Hc.
  assert (Hrun : connect_resume fr so_rt so_error w
                 = (write_errno c ;;; drop_tinfo (fr_tinfo fr) ;;; ret (-1))
                     w1).
  { unfold connect_resume. rewrite (bind_Ok_intro _ _ _ _ _ Hcan).
    unfold bind at 1. unfold get at 1. cbv beta iota.
    rewrite Hh1, Hti. simpl mjoin.
    unfold bind at 1. unfold deref at 1. unfold ret at 1. cbv beta iota.
    rewrite Hc. reflexivity. }
  rewrite Hrun.
  eexists. split; [reflexivity |]. simpl. rewrite Hh1, Hk1.
  split; [reflexivity |]. split; [reflexivity |].
  apply list_lookup_insert_eq. eapply lookup_lt_Some; exact Hti.
Qed.

(** X23. A [connect] on a blocking socket that is in progress suspends
    the coroutine with WRITE registered and, when the timeout is finite,
    a timer armed; if the timer fires while the witness is untouched, the
    resumed [connect] returns -1 with errno ETIMEDOUT and does not look
    at SO_ERROR. [connect_f] was called once. *)
Theorem connect_timer_fired_is_ETIMEDOUT (w w1 w1' w2 w2' : World)
    (fd timeout_ms so_rt so_error so_rt' so_error' : Z) (ctx : FdCtx)
    (rest : list (Z * Z)) (fr : Frame)
    (Hhook : t_hook_enable (hook w) = true)
    (Hctx : m_datas (hook w) !! fd = Some ctx)
    (Hopen : isClose ctx = false)
    (Hsock : isSocket ctx = true)
    (Hblocking : userNonblock ctx = false)
    (Hprogress : io_rt (krn w) = (-1, EINPROGRESS) :: rest)
    (Hsuspended : connect_with_timeout fd timeout_ms so_rt so_error w
                  = Ok (Yielded fr, w1))
    (Hfinite : timeout_ms <> UINT64_MAX)
    (Hkept1 : tinfos (hook w1') !! fr_tinfo fr
              = tinfos (hook w1) !! fr_tinfo fr)
    (Hfired : run_cb (OnTimerCb (fr_tinfo fr)
                        (TimeoutCb (fr_tinfo fr) fd WRITE)) w1'
              = Ok (tt, w2))
    (Hkept2 : tinfos (hook w2') !! fr_tinfo fr
              = tinfos (hook w2) !! fr_tinfo fr) :
  io_calls (krn w1) = S (io_calls (krn w))
  /\ (exists t tm,
        fr_timer fr = Some t /\ tm ∈ m_timers (tmgr w1) /\ timer_ptr tm = t
        /\ m_cb tm = Some (OnTimerCb (fr_tinfo fr)
                             (TimeoutCb (fr_tinfo fr) fd WRITE)))
  /\ Z.land (events_of w1 fd) WRITE = WRITE
  /\ exists w3,
       connect_resume fr so_rt' so_error' w2' = Ok (-1, w3)
       /\ errno (krn w3) = ETIMEDOUT
       /\ io_calls (krn w3) = io_calls (krn w2').
Proof.
  destruct (connect_in_progress_inv _ _ _ _ _ _ _ _ _ Hhook Hctx Hopen Hsock
              Hblocking Hprogress Hsuspended)
    as (Hcalls & _ & _ & _ & Hti & Hreg & Htimer).
  rewrite <- Hkept1 in Hti.
  destruct (timeout_fires _ _ _ _ _ _ Hti Hfired) as (Hmark & _).
  rewrite <- Hkept2 in Hmark.
  destruct (connect_resume_cancelled fr so_rt' so_error' w2' ETIMEDOUT Hmark)
    as (w3 & Hres & Herr & Hc3 & _); [discriminate |].
  split; [exact Hcalls |]. split; [exact (Htimer Hfinite) |].
  split; [exact Hreg |].
  exists w3. repeat split; assumption.
Qed.

Lemma connect_timer_fired_is_ETIMEDOUT_witness :
  exists fr w1 w2 w3,
    connect_with_timeout 5 3000 0 0
      (sample_world [0; 0] [2; 0] [(-1, EINPROGRESS)] [])
    = Ok (Yielded fr, w1)
    /\ run_cb (OnTimerCb (fr_tinfo fr) (TimeoutCb (fr_tinfo fr) 5 WRITE)) w1
       = Ok (tt, w2)
    /\ connect_resume fr 0 0 w2 = Ok (-1, w3)
    /\ errno (krn w3) = ETIMEDOUT.
Proof.
  assert (Hrun : exists fr w1 w2,
             connect_with_timeout 5 3000 0 0
               (sample_world [0; 0] [2; 0] [(-1, EINPROGRESS)] [])
             = Ok (Yielded fr, w1)
             /\ run_cb (OnTimerCb (fr_tinfo fr)
                          (TimeoutCb (fr_tinfo fr) 5 WRITE)) w1
                = Ok (tt, w2)).
  { eexists. eexists. eexists. split; [vm_compute; reflexivity |].
    vm_compute. reflexivity. }
  destruct Hrun as (fr & w1 & w2 & Hsusp & Hfire).
  destruct (connect_timer_fired_is_ETIMEDOUT
              (sample_world [0; 0] [2; 0] [(-1, EINPROGRESS)] [])
              w1 w1 w2 w2 5 3000 0 0 0 0
              (mkFdCtx true false true false 100 UINT64_MAX) [] fr)
    as (_ & _ & _ & w3 & Hres & Herr & _).
  - reflexivity.
  - vm_compute. reflexivity.
  - reflexivity.
  - reflexivity.
  - reflexivity.
  - reflexivity.
  - exact Hsusp.
  - discriminate.
  - reflexivity.
  - exact Hfire.
  - reflexivity.
  - exists fr, w1, w2, w3. repeat split; assumption.
Defined.

(** X24. When the registration of WRITE fails, [connect] does not report
    the failure: it cancels the timer it armed, does not suspend, and
    answers from SO_ERROR alone, so that with SO_ERROR clear it returns 0
    for a connection that is still in progress. Nothing is left
    registered or scheduled, and no timer is left over. *)
Theorem connect_unregistered_answers_SO_ERROR (w w1 : World)
    (fd timeout_ms so_rt so_error r : Z) (ctx : FdCtx) (rest : list (Z * Z))
    (Hhook : t_hook_enable (hook w) = true)
    (Hctx : m_datas (hook w) !! fd = Some ctx)
    (Hopen : isClose ctx = false)
    (Hsock : isSocket ctx = true)
    (Hblocking : userNonblock ctx = false)
    (Hprogress : io_rt (krn w) = (-1, EINPROGRESS) :: rest)
    (Hreturned : connect_with_timeout fd timeout_ms so_rt so_error w
                 = Ok (Returned r, w1)) :
  r = (if so_rt =? -1 then -1 else if so_error =? 0 then 0 else -1)
  /\ pending w1 = pending w
  /\ scheds w1 = scheds w
  /\ thr w1 = thr w
  /\ (forall x, x ∈ m_timers (tmgr w1) -> x ∈ m_timers (tmgr w)).
Proof.
  destruct (connect_in_progress_inv _ _ _ _ _ _ _ _ _ Hhook Hctx Hopen Hsock
              Hblocking Hprogress Hreturned) as (_ & H).
  exact H.
Qed.

Lemma connect_unregistered_answers_SO_ERROR_witness :
  exists w1,
    connect_with_timeout 5 3000 0 0
      (sample_world [-1] [] [(-1, EINPROGRESS)] [])
    = Ok (Returned 0, w1)
    /\ pending w1 = 0
    /\ m_timers (tmgr w1) = [].
Proof.
  assert (Hrun : exists w1,
             connect_with_timeout 5 3000 0 0
               (sample_world [-1] [] [(-1, EINPROGRESS)] [])
             = Ok (Returned 0, w1)
             /\ m_timers (tmgr w1) = []).
  { eexists. split; [vm_compute; reflexivity | reflexivity]. }
  destruct Hrun as (w1 & Hrun & Htm).
  destruct (connect_unregistered_answers_SO_ERROR
              (sample_world [-1] [] [(-1, EINPROGRESS)] []) w1 5 3000 0 0 0
              (mkFdCtx true false true false 100 UINT64_MAX) [])
    as (_ & Hp & _).
  - reflexivity.
  - vm_compute. reflexivity.
  - reflexivity.
  - reflexivity.
  - reflexivity.
  - reflexivity.
  - exact Hrun.
  - exists w1. split; [exact Hrun |]. split; [exact Hp | exact Htm].
Defined.

(** ** hook.cc: [setsockopt], [ioctl] and [sleep] *)

(** X25. [setsockopt] with SO_RCVTIMEO or SO_SNDTIMEO on a descriptor
    that has an fd context records the timeout in milliseconds,
    [tv_sec * 1000 + tv_usec / 1000], before it calls the original and
    whatever the original answers; a hooked call on the socket that then
    suspends waits with exactly that timeout. The timeout of the other
    direction is not touched. *)
Theorem setsockopt_timeout_reaches_do_io (w : World)
    (sockfd optname tv_sec tv_usec rt : Z) (ctx : FdCtx)
    (Hhook : t_hook_enable (hook w) = true)
    (Hctx : m_datas (hook w) !! sockfd = Some ctx)
    (Hopt : optname = SO_RCVTIMEO \/ optname = SO_SNDTIMEO) :
  exists w1 ctx1,
    setsockopt sockfd SOL_SOCKET optname tv_sec tv_usec rt w = Ok (rt, w1)
    /\ m_datas (hook w1) !! sockfd = Some ctx1
    /\ getTimeout ctx1 optname = wrap64 (tv_sec * 1000 + Z.quot tv_usec 1000)
    /\ (forall other, other = SO_RCVTIMEO \/ other = SO_SNDTIMEO ->
                      other <> optname ->
                      getTimeout ctx1 other = getTimeout ctx other)
    /\ userNonblock ctx1 = userNonblock ctx
    /\ iom w1 = iom w /\ krn w1 = krn w /\ tmgr w1 = tmgr w
    /\ forall event fr w2,
         do_io sockfd event optname w1 = Ok (Yielded fr, w2) ->
         fr_to fr = wrap64 (tv_sec * 1000 + Z.quot tv_usec 1000).
Proof.
  set (v := wrap64 (tv_sec * 1000 + Z.quot tv_usec 1000)).
  assert (Hrun : exists w1 ctx1,
             setsockopt sockfd SOL_SOCKET optname tv_sec tv_usec rt w
             = Ok (rt, w1)
             /\ m_datas (hook w1) !! sockfd = Some ctx1
             /\ getTimeout ctx1 optname = v
             /\ (forall other, other = SO_RCVTIMEO \/ other = SO_SNDTIMEO ->
                               other <> optname ->
                               getTimeout ctx1 other = getTimeout ctx other)
             /\ userNonblock ctx1 = userNonblock ctx
             /\ iom w1 = iom w /\ krn w1 = krn w /\ tmgr w1 = tmgr w).
  { unfold setsockopt, FdMgr_get, setTimeout, bind, get, modify, ret.
    rewrite Hhook. simpl.
    destruct Hopt as [-> | ->]; simpl; rewrite Hctx; simpl;
      eexists; eexists; (split; [reflexivity |]); simpl;
      (split; [apply lookup_insert_eq |]);
      (split; [reflexivity |]);
      (split; [intros other [-> | ->] Hne; try contradiction; reflexivity |]);
      repeat split. }
  destruct Hrun as (w1 & ctx1 & Hrun & Hc1 & Hto & Hrest).
  exists w1, ctx1. split; [exact Hrun |]. split; [exact Hc1 |].
  split; [exact Hto |].
  destruct Hrest as (Hother & Hnb & Hi & Hk & Htm).
  repeat (split; [assumption |]).
  intros event fr w2 Hsusp.
  apply do_io_yield_inv in Hsusp.
  destruct Hsusp as (_ & _ & (ctx' & Hc' & Hfr) & _).
  rewrite Hc1 in Hc'. injection Hc' as <-. rewrite Hfr. exact Hto.
Qed.

Lemma setsockopt_timeout_reaches_do_io_witness :
  exists w1 fr w2,
    setsockopt 5 SOL_SOCKET SO_SNDTIMEO 2 500000 (-1)
      (sample_world [0] [2; 0] [(-1, EAGAIN)] []) = Ok (-1, w1)
    /\ do_io 5 WRITE SO_SNDTIMEO w1 = Ok (Yielded fr, w2)
    /\ fr_to fr = 2500.
Proof.
  destruct (setsockopt_timeout_reaches_do_io
              (sample_world [0] [2; 0] [(-1, EAGAIN)] [])
              5 SO_SNDTIMEO 2 500000 (-1)
              (mkFdCtx true false true false 100 UINT64_MAX))
    as (w1 & ctx1 & Hset & _ & _ & _ & _ & _ & _ & _ & Hdo).
  - reflexivity.
  - vm_compute. reflexivity.
  - right. reflexivity.
  - assert (Hw1 : w1 = with_hook
                         (mkHookEnv true
                            {[ 5 := mkFdCtx true false true false 100 2500 ]}
                            [])
                         (sample_world [0] [2; 0] [(-1, EAGAIN)] [])).
    { assert (Hc : setsockopt 5 SOL_SOCKET SO_SNDTIMEO 2 500000 (-1)
                     (sample_world [0] [2; 0] [(-1, EAGAIN)] [])
                   = Ok (-1, with_hook
                               (mkHookEnv true
                                  {[ 5 := mkFdCtx true false true false 100
                                            2500 ]} [])
                               (sample_world [0] [2; 0] [(-1, EAGAIN)] [])))
        by (vm_compute; reflexivity).
      rewrite Hc in Hset. injection Hset as <-. reflexivity. }
    assert (Hrun : exists fr w2,
               do_io 5 WRITE SO_SNDTIMEO w1 = Ok (Yielded fr, w2)).
    { rewrite Hw1. eexists. eexists. vm_compute. reflexivity. }
    destruct Hrun as (fr & w2 & Hrun).
    exists w1, fr, w2. split; [exact Hset |]. split; [exact Hrun |].
    exact (Hdo WRITE fr w2 Hrun).
Defined.

(** X26. [ioctl(d, FIONBIO, &v)] on an open socket records [v != 0] as
    the user's non-blocking flag, whatever [ioctl_f] answers, and
    [fcntl(d, F_GETFL)] then reports O_NONBLOCK exactly when [v] is not
    zero, whatever the kernel's flags say; after a non-zero [v] a hooked
    call on the socket goes straight to the original function. *)
Theorem ioctl_FIONBIO_shows_in_fcntl (w : World) (d v rt a : Z)
    (rest : list Z) (ctx : FdCtx)
    (Hctx : m_datas (hook w) !! d = Some ctx)
    (Hopen : isClose ctx = false)
    (Hsock : isSocket ctx = true)
    (Hkernel : fcntl_rt (krn w) = a :: rest) :
  exists w1 r w2,
    ioctl d FIONBIO v rt w = Ok (rt, w1)
    /\ m_datas (hook w1) !! d = Some (marked (truthy v) ctx)
    /\ krn w1 = krn w /\ iom w1 = iom w
    /\ fcntl d F_GETFL 0 w1 = Ok (r, w2)
    /\ Z.testbit r 11 = truthy v
    /\ (forall n, n <> 11 -> 0 <= n -> Z.testbit r n = Z.testbit a n)
    /\ (v <> 0 ->
        forall event timeout_so n e more,
          io_rt (krn w1) = (n, e) :: more ->
          do_io d event timeout_so w1
          = Ok (Returned n, with_krn (io_answered n e more (krn w1)) w1)).
Proof.
  destruct ctx as [sk cl sy un rc sn]. simpl in Hopen, Hsock. subst sk cl.
  set (ctx := mkFdCtx true false sy un rc sn) in *.
  set (w1 := with_hook
               (mkHookEnv (t_hook_enable (hook w))
                  (<[d := marked (truthy v) ctx]> (m_datas (hook w)))
                  (tinfos (hook w))) w).
  assert (Hopen : isClose ctx = false) by reflexivity.
  assert (Hsock : isSocket ctx = true) by reflexivity.
  assert (Hio : ioctl d FIONBIO v rt w = Ok (rt, w1)).
  { unfold ioctl, FdMgr_get, setUserNonblock, bind, get, modify, ret.
    change (FIONBIO =? FIONBIO) with true. cbv beta iota.
    rewrite Hctx. reflexivity. }
  assert (Hm : m_datas (hook w1) !! d = Some (marked (truthy v) ctx))
    by apply lookup_insert_eq.
  assert (Hget : fcntl d F_GETFL 0 w1
                 = Ok (if truthy v then Z.lor a O_NONBLOCK
                       else Z.land a (Z.lnot O_NONBLOCK),
                       with_krn
                         (mkKernel (errno (krn w)) (now_ms (krn w))
                            (epoll_ctl_rt (krn w)) (epoll_ctl_log (krn w))
                            (epoll_wait_rt (krn w)) (epoll_wait_log (krn w))
                            rest (fcntl_log (krn w) ++ [(d, F_GETFL, 0)])
                            (io_rt (krn w)) (io_calls (krn w))
                            (pipe_bytes (krn w))) w1)).
  { unfold fcntl.
    change (F_GETFL =? F_SETFL) with false.
    change (F_GETFL =? F_GETFL) with true. cbv iota.
    assert (Hk : in_krn (k_fcntl_f d F_GETFL 0) w1
                 = Ok (a, with_krn
                            (mkKernel (errno (krn w)) (now_ms (krn w))
                               (epoll_ctl_rt (krn w)) (epoll_ctl_log (krn w))
                               (epoll_wait_rt (krn w))
                               (epoll_wait_log (krn w)) rest
                               (fcntl_log (krn w) ++ [(d, F_GETFL, 0)])
                               (io_rt (krn w)) (io_calls (krn w))
                               (pipe_bytes (krn w))) w1)).
    { unfold in_krn, zoom, k_fcntl_f. change (krn w1) with (krn w).
      rewrite Hkernel. reflexivity. }
    rewrite (bind_Ok_intro _ _ _ _ _ Hk).
    unfold FdMgr_get. unfold bind at 1. unfold bind at 1. unfold get at 1.
    unfold ret at 1. cbv beta iota.
    match goal with
    | |- context [m_datas (hook ?x) !! d] =>
        change (m_datas (hook x) !! d) with (m_datas (hook w1) !! d)
    end.
    rewrite Hm. unfold marked, ret. simpl.
    destruct (truthy v); reflexivity. }
  exists w1. eexists. eexists.
  split; [exact Hio |]. split; [exact Hm |].
  split; [reflexivity |]. split; [reflexivity |].
  split; [exact Hget |].
  split.
  { destruct (truthy v);
      [apply testbit_set_nonblock | apply testbit_clear_nonblock]. }
  split.
  { intros n Hn Hpos. rewrite O_NONBLOCK_pow2.
    destruct (truthy v).
    - rewrite Z.lor_spec, Z.pow2_bits_false by lia. apply orb_false_r.
    - rewrite Z.land_spec, Z.lnot_spec, Z.pow2_bits_false by lia.
      apply andb_true_r. }
  intros Hv event timeout_so n e more Hs.
  apply do_io_passthrough_run; [| exact Hs].
  right. right. exists (marked (truthy v) ctx).
  split; [exact Hm |]. split; [exact Hopen |]. right.
  simpl. apply truthy_true_iff. exact Hv.
Qed.

Lemma ioctl_FIONBIO_shows_in_fcntl_witness :
  exists w1 r w2,
    ioctl 5 FIONBIO 1 0 (sample_world [] [0] [] []) = Ok (0, w1)
    /\ fcntl 5 F_GETFL 0 w1 = Ok (r, w2)
    /\ Z.testbit r 11 = true.
Proof.
  destruct (ioctl_FIONBIO_shows_in_fcntl (sample_world [] [0] [] []) 5 1 0 0
              [] (mkFdCtx true false true false 100 UINT64_MAX))
    as (w1 & r & w2 & Hio & _ & _ & _ & Hget & Hbit & _).
  - vm_compute. reflexivity.
  - reflexivity.
  - reflexivity.
  - reflexivity.
  - exists w1, r, w2. split; [exact Hio |]. split; [exact Hget | exact Hbit].
Defined.

Lemma GetThis_current (w : World) (cur : nat) (w' : World) :
  in_thr Fiber.GetThis w = Ok (cur, w') ->
  forall c, Fiber.t_fiber (thr w) = Some c -> cur = c /\ thr w' = thr w.
Proof.
  unfold in_thr, zoom, Fiber.GetThis, bind, get, put, ret.
  intros H c Hc. rewrite Hc in H. simpl in H. injection H as <- <-.
  split; reflexivity.
Qed.

(** X27. The hooked [sleep] arms one non-recurring timer, due
    [seconds * 1000] milliseconds from now with the product taken on 32
    bits, whose callback schedules the coroutine that called [sleep] on
    the I/O manager, pinned to no thread; then it yields. No descriptor
    is involved, and the coroutine is queued again only when the
    callback runs. *)
Theorem sleep_arms_timer_for_caller (w w1 : World) (seconds : Z) (t : nat)
    (Hrun : sleep seconds w = Ok (Some t, w1)) :
  exists cur p,
    (forall c, Fiber.t_fiber (thr w) = Some c -> cur = c)
    /\ m_timers (tmgr w1)
       = timer_insert
           (mkTimer t false ((seconds * 1000) mod 2 ^ 32)
              (wrap64 (now_ms (krn w) + (seconds * 1000) mod 2 ^ 32))
              (Some (ScheduleCb cur)))
           (m_timers (tmgr w))
    /\ Fiber.switches (thr w1) = Fiber.switches (thr w) ++ [(cur, p)]
    /\ iom w1 = iom w /\ scheds w1 = scheds w /\ hook w1 = hook w
    /\ forall w2 w3,
         run_cb (ScheduleCb cur) w2 = Ok (tt, w3) ->
         exists s,
           scheds w2 !! this (iom w2) = Some s
           /\ scheds w3
              = <[this (iom w2) :=
                    mkScheduler (m_stopping s)
                      (m_tasks s ++ [mkTask (Some cur) None (-1)])
                      (m_activeThreadCount s) (m_idleThreadCount s)]>
                  (scheds w2).
Proof.
  unfold sleep in Hrun.
  split_run Hrun as w0 w2 Hg. unfold get in Hg. injection Hg as <- <-.
  destruct (t_hook_enable (hook w)); simpl in Hrun;
    [| unfold ret in Hrun; discriminate Hrun].
  split_run Hrun as cur w2 Hcur1.
  pose proof (GetThis_current _ _ _ Hcur1) as Hcaller.
  apply GetThis_frame in Hcur1.
  destruct Hcur1 as (Hi2 & Hs2 & Htm2 & Hh2 & Hk2 & _ & Hsw2 & Hc2).
  split_run Hrun as iom_ptr w3 Hthis.
  unfold IOManager_GetThis, bind, get, ret in Hthis.
  injection Hthis as _ <-.
  split_run Hrun as p0 w4 Hp. apply deref_Ok in Hp. destruct Hp as [_ ->].
  split_run Hrun as t' w5 Hat. apply addTimer_inv in Hat.
  destruct Hat as (_ & Hl5 & Hh5 & Hi5 & Ht5 & Hs5 & _).
  split_run Hrun as cur2 w6 Hcur2.
  assert (Hc5 : Fiber.t_fiber (thr w5) = Some cur) by (rewrite Ht5; exact Hc2).
  destruct (GetThis_current _ _ _ Hcur2 cur Hc5) as [-> Ht6].
  apply in_thr_frame in Hcur2.
  destruct Hcur2 as (_ & _ & Hs6 & Htm6 & Hi6 & Hh6).
  split_run Hrun as u7 w7 Hy.
  pose proof (in_thr_frame _ _ _ _ Hy) as (_ & _ & Hs7 & Htm7 & Hi7 & Hh7).
  unfold in_thr in Hy. apply zoom_Ok in Hy. destruct Hy as (e' & Hy & Hw7).
  apply yield_switches in Hy. destruct Hy as [p Hy].
  unfold ret in Hrun. injection Hrun as <- <-.
  exists cur, p.
  split; [intros c Hc; exact (proj1 (Hcaller c Hc)) |].
  split; [rewrite Htm7, Htm6, Hl5, Htm2, Hk2; reflexivity |].
  split; [rewrite Hw7; simpl; rewrite Hy, Ht6, Ht5, Hsw2; reflexivity |].
  split; [congruence |]. split; [congruence |]. split; [congruence |].
  intros wa wb Hcb. simpl in Hcb.
  split_run Hcb as w0 wc Hg. unfold get in Hg. injection Hg as <- <-.
  split_run Hcb as b wd Hsch. unfold ret in Hcb. injection Hcb as <-.
  apply schedule_frame in Hsch.
  destruct Hsch as (_ & _ & _ & _ & _ & _ & _ & _ & s & Hs & Hq).
  exists s. split; assumption.
Qed.

Lemma sleep_arms_timer_for_caller_witness :
  exists t w1 w2,
    sleep 4294968 (sample_world [] [] [] []) = Ok (Some t, w1)
    /\ m_next <$> m_timers (tmgr w1) = [1704]
    /\ run_cb (ScheduleCb 1) w1 = Ok (tt, w2)
    /\ m_tasks <$> scheds w2 !! 0%nat = Some [mkTask (Some 1%nat) None (-1)].
Proof.
  assert (Hrun : exists t w1 w2,
             sleep 4294968 (sample_world [] [] [] []) = Ok (Some t, w1)
             /\ run_cb (ScheduleCb 1) w1 = Ok (tt, w2)
             /\ m_tasks <$> scheds w2 !! 0%nat
                = Some [mkTask (Some 1%nat) None (-1)]).
  { eexists. eexists. eexists. split; [vm_compute; reflexivity |].
    split; [vm_compute; reflexivity | reflexivity]. }
  destruct Hrun as (t & w1 & w2 & Hsl & Hcb & Hq).
  destruct (sleep_arms_timer_for_caller (sample_world [] [] [] []) w1
              4294968 t Hsl) as (cur & p & Hcaller & Hl & _).
  pose proof (Hcaller 1%nat eq_refl) as ->.
  exists t, w1, w2. split; [exact Hsl |].
  split; [rewrite Hl; reflexivity |]. split; [exact Hcb | exact Hq].
Defined.

(** X28. The hooked [close] on a thread of the I/O manager cancels every
    event of the descriptor with [cancelAll], whose answer it ignores,
    then forgets the fd context and returns what [close_f] answers. The
    context is removed, not marked closed: a later hooked call on the
    descriptor finds no context and goes to the original function rather
    than to the library's own EBADF. *)
Theorem close_cancels_and_forgets (w w1 : World) (fd rt r : Z) (ctx : FdCtx)
    (Hhook : t_hook_enable (hook w) = true)
    (Hctx : m_datas (hook w) !! fd = Some ctx)
    (Hthread : t_scheduler w = Some (this (iom w)))
    (Hrun : close fd rt w = Ok (r, w1)) :
  r = rt
  /\ (exists b w',
        cancelAll fd w = Ok (b, w')
        /\ iom w1 = iom w' /\ scheds w1 = scheds w' /\ krn w1 = krn w'
        /\ thr w1 = thr w' /\ tmgr w1 = tmgr w')
  /\ m_datas (hook w1) = delete fd (m_datas (hook w))
  /\ t_hook_enable (hook w1) = true
  /\ forall (w2 : World) (event timeout_so n e : Z) (rest : list (Z * Z)),
       m_datas (hook w2) !! fd = m_datas (hook w1) !! fd ->
       io_rt (krn w2) = (n, e) :: rest ->
       do_io fd event timeout_so w2
       = Ok (Returned n, with_krn (io_answered n e rest (krn w2)) w2).
Proof.
  unfold close in Hrun.
  split_run Hrun as w0 w2 Hg. unfold get in Hg. injection Hg as <- <-.
  rewrite Hhook in Hrun. cbn [negb] in Hrun. cbv iota in Hrun.
  split_run Hrun as octx w3 Hget. unfold FdMgr_get, bind, get, ret in Hget.
  injection Hget as <- <-. rewrite Hctx in Hrun.
  split_run Hrun as u4 w4 Hbody. unfold ret in Hrun. injection Hrun as <- <-.
  split_run Hbody as iom_ptr w5 Hthis.
  unfold IOManager_GetThis, bind, get, ret in Hthis.
  injection Hthis as <- <-. rewrite Hthread, Nat.eqb_refl in Hbody.
  split_run Hbody as u6 w6 Hcancel.
  split_run Hcancel as b w7 Hall. unfold ret in Hcancel.
  injection Hcancel as _ <-.
  unfold FdMgr_del, modify in Hbody. injection Hbody as _ <-.
  assert (Hh7 : hook w7 = hook w).
  { pose proof Hall as Hall'. apply cancelAll_inv in Hall'.
    destruct Hall' as [(_ & _ & _ & _ & _ & Hh)
                      | (_ & c & _ & _ & _ & _ & _ & _ & _ & _ & Hh)];
      exact Hh. }
  split; [reflexivity |].
  split; [exists b, w7; split; [exact Hall |]; repeat split |].
  simpl. rewrite Hh7. split; [reflexivity |]. split; [exact Hhook |].
  intros w2 event timeout_so n e rest Hsame Hscript.
  apply do_io_passthrough_run; [| exact Hscript].
  right. left. rewrite Hsame. simpl. apply lookup_delete_eq.
Qed.

Lemma close_cancels_and_forgets_witness :
  exists w1 w2,
    close 5 0 (with_iom (iom (sample_both []))
                 (sample_world [0] [] [(-1, EBADF)] []))
    = Ok (0, w1)
    /\ m_tasks <$> scheds w1 !! 0%nat
       = Some [mkTask None (Some (UserCb 7)) (-1);
               mkTask None (Some (UserCb 8)) (-1)]
    /\ events_of w1 5 = 0
    /\ do_io 5 READ SO_RCVTIMEO w1 = Ok (Returned (-1), w2)
    /\ io_calls (krn w2) = 1%nat.
Proof.
  assert (Hrun : exists w1,
             close 5 0 (with_iom (iom (sample_both []))
                          (sample_world [0] [] [(-1, EBADF)] []))
             = Ok (0, w1)
             /\ m_tasks <$> scheds w1 !! 0%nat
                = Some [mkTask None (Some (UserCb 7)) (-1);
                        mkTask None (Some (UserCb 8)) (-1)]
             /\ events_of w1 5 = 0
             /\ io_rt (krn w1) = [(-1, EBADF)]
             /\ io_calls (krn w1) = 0%nat).
  { eexists. split; [vm_compute; reflexivity |]. repeat split. }
  destruct Hrun as (w1 & Hrun & Hq & He & Hs & Hc).
  destruct (close_cancels_and_forgets
              (with_iom (iom (sample_both []))
                 (sample_world [0] [] [(-1, EBADF)] []))
              w1 5 0 0 (mkFdCtx true false true false 100 UINT64_MAX))
    as (_ & _ & _ & _ & Hnext).
  - reflexivity.
  - vm_compute. reflexivity.
  - reflexivity.
  - exact Hrun.
  - exists w1, (with_krn (io_answered (-1) EBADF [] (krn w1)) w1).
    split; [exact Hrun |]. split; [exact Hq |]. split; [exact He |].
    split; [exact (Hnext w1 READ SO_RCVTIMEO (-1) EBADF [] eq_refl Hs) |].
    simpl. rewrite Hc. reflexivity.
Defined.
